(** * NTP health monitor ([monitor.py]): shallow embedding and checked properties

    The development follows the layout of [monitor.py]:
    - [PyStr]: the [str] methods the monitor calls ([splitlines], [strip],
      [startswith], [split], [in], [join]) and [str(int)], [int(str)];
    - [PyRuntime]: the library calls whose code is not part of the
      repository ([float], [repr] of a float, [json.loads]);
    - the parsers [parse_tracking], [parse_sources], [parse_gpspipe_output];
    - the effectful part ([run_ssh], [run_gps_status], [check_ntp_health],
      [db_insert_sample], [send_email], the body of [main]'s loop) over a
      trace of events and an oracle for the outside world.

    Text is a [string]: a sequence of code points below 256.  A Python
    [int] is a [Z], a Python [float] is a binary64 [spec_float]. *)

From Stdlib Require Import ZArith NArith List String Ascii Bool Lia.
From Stdlib Require Import SpecFloat DecimalString DecimalPos.
Import ListNotations.

Set Warnings "-register-all,-automation".

Local Open Scope string_scope.
Local Open Scope Z_scope.

(** ** Exceptions and results *)

(** The exceptions that can leave a function of [monitor.py].  A
    [ValueError] of [int] or [float] is always handled where it is raised
    and is modelled by [None]. *)
Inductive exn : Type :=
| IndexError
| TypeError (operand : string)
| AttributeError (operand : string)
| TimeoutExpired (cmd : list string) (timeout : Z)
| OSError (msg : string).

Inductive res (A : Type) : Type :=
| Ok (a : A)
| Raise (e : exn).
Arguments Ok {A} a.
Arguments Raise {A} e.

Definition res_bind {A B : Type} (r : res A) (k : A -> res B) : res B :=
  match r with
  | Ok a => k a
  | Raise e => Raise e
  end.

Declare Scope res_scope.
Delimit Scope res_scope with res.
Notation "x <- r ;; k" := (res_bind r (fun x => k))
  (at level 61, r at next level, right associativity) : res_scope.

(** A [for] loop whose body may raise: the first exception ends the loop. *)
Fixpoint for_each {A B : Type} (body : A -> B -> res A) (items : list B) (acc : A)
  : res A :=
  match items with
  | [] => Ok acc
  | x :: rest =>
      match body acc x with
      | Ok acc' => for_each body rest acc'
      | Raise e => Raise e
      end
  end.

(** [l[i]] on a list: [IndexError] past the end. *)
Definition py_index {A : Type} (l : list A) (i : nat) : res A :=
  match nth_error l i with
  | Some a => Ok a
  | None => Raise IndexError
  end.

(** ** The [str] methods used by the monitor *)
Module PyStr.

Definition code (c : ascii) : N := N_of_ascii c.

(** [str.isspace] on one character (code points below 256). *)
Definition is_space (c : ascii) : bool :=
  let n := code c in
  (((9 <=? n) && (n <=? 13)) || ((28 <=? n) && (n <=? 32))
   || (n =? 133) || (n =? 160))%N.

(** The line boundaries of [str.splitlines] (code points below 256). *)
Definition is_linebreak (c : ascii) : bool :=
  let n := code c in
  (((10 <=? n) && (n <=? 13)) || ((28 <=? n) && (n <=? 30)) || (n =? 133))%N.

Definition is_cr (c : ascii) : bool := (code c =? 13)%N.
Definition is_lf (c : ascii) : bool := (code c =? 10)%N.

Fixpoint lstrip (s : string) : string :=
  match s with
  | EmptyString => EmptyString
  | String c s' => if is_space c then lstrip s' else s
  end.

Fixpoint rstrip (s : string) : string :=
  match s with
  | EmptyString => EmptyString
  | String c s' =>
      match rstrip s' with
      | EmptyString => if is_space c then EmptyString else String c EmptyString
      | r => String c r
      end
  end.

(** [s.strip()] *)
Definition strip (s : string) : string := rstrip (lstrip s).

(** [s.splitlines()]: a line ends at a line boundary ([\r\n] counts once);
    a last line with no boundary after it is kept when it is not empty. *)
Fixpoint splitlines (s : string) : list string :=
  match s with
  | EmptyString => []
  | String c s' =>
      if is_linebreak c then
        match s' with
        | String c2 s'' =>
            if is_cr c && is_lf c2 then "" :: splitlines s''
            else "" :: splitlines s'
        | EmptyString => [""]
        end
      else
        match splitlines s' with
        | [] => [String c ""]
        | l :: ls => String c l :: ls
        end
  end.

(** [s.startswith(p)] *)
Fixpoint startswith (p s : string) : bool :=
  match p with
  | EmptyString => true
  | String a p' =>
      match s with
      | EmptyString => false
      | String b s' => Ascii.eqb a b && startswith p' s'
      end
  end.

(** [needle in hay] *)
Fixpoint contains (needle hay : string) : bool :=
  startswith needle hay
  || match hay with
     | EmptyString => false
     | String _ hay' => contains needle hay'
     end.

(** The text before and after the first occurrence of [sep]. *)
Fixpoint cut (sep : ascii) (s : string) : option (string * string) :=
  match s with
  | EmptyString => None
  | String c s' =>
      if Ascii.eqb c sep then Some (EmptyString, s')
      else match cut sep s' with
           | Some (a, b) => Some (String c a, b)
           | None => None
           end
  end.

(** [s.split(sep, 1)] for a one-character separator. *)
Definition split1 (sep : ascii) (s : string) : list string :=
  match cut sep s with
  | Some (a, b) => [a; b]
  | None => [s]
  end.

(** [s.split()]: the maximal runs of non-whitespace characters. *)
Fixpoint split_ws (s : string) : list string :=
  match s with
  | EmptyString => []
  | String c s' =>
      if is_space c then split_ws s'
      else
        let rest := split_ws s' in
        let glued := match s' with
                     | String c' _ => negb (is_space c')
                     | EmptyString => false
                     end in
        match rest with
        | w :: ws => if glued then String c w :: ws else String c "" :: rest
        | [] => [String c ""]
        end
  end.

(** [sep.join(parts)] *)
Definition join (sep : string) (parts : list string) : string :=
  String.concat sep parts.

(** [str(n)] for an [int]. *)
Definition str_of_Z (n : Z) : string := NilEmpty.string_of_int (Z.to_int n).

(** *** [int(s)] *)

Definition digit_of (c : ascii) : option Z :=
  let n := code c in
  if ((48 <=? n) && (n <=? 57))%N then Some (Z.of_N n - 48) else None.

Definition is_underscore (c : ascii) : bool := (code c =? 95)%N.

(** Digits with single underscores between them, most significant first;
    [acc] is the value read so far and [after_digit] tells whether the
    previous character was a digit. *)
Fixpoint digits_value (s : string) (acc : Z) (after_digit : bool) : option Z :=
  match s with
  | EmptyString => if after_digit then Some acc else None
  | String c s' =>
      match digit_of c with
      | Some d => digits_value s' (10 * acc + d) true
      | None =>
          if is_underscore c && after_digit then digits_value s' acc false
          else None
      end
  end.

(** The whitespace [int] and [float] skip around a literal. *)
Definition is_num_space (c : ascii) : bool :=
  let n := code c in
  (((9 <=? n) && (n <=? 13)) || (n =? 32) || (n =? 133) || (n =? 160))%N.

Fixpoint num_lstrip (s : string) : string :=
  match s with
  | EmptyString => EmptyString
  | String c s' => if is_num_space c then num_lstrip s' else s
  end.

Fixpoint num_rstrip (s : string) : string :=
  match s with
  | EmptyString => EmptyString
  | String c s' =>
      match num_rstrip s' with
      | EmptyString => if is_num_space c then EmptyString else String c EmptyString
      | r => String c r
      end
  end.

(** [int(s)] in base 10; [None] stands for [ValueError]. *)
Definition py_int (s : string) : option Z :=
  match num_rstrip (num_lstrip s) with
  | EmptyString => None
  | String c body =>
      if Ascii.eqb c "-" then option_map Z.opp (digits_value body 0 false)
      else if Ascii.eqb c "+" then digits_value body 0 false
      else digits_value (String c body) 0 false
  end.

End PyStr.
Import PyStr.

(** ** Floats and decoded JSON values *)

(** A Python [float]: IEEE 754 binary64 (53 bits of precision). *)
Definition float : Type := spec_float.

Definition float_of_Z (n : Z) : float := binary_normalize 53 1024 n 0 false.

(** [abs(x)], [x > y], [x >= y] and [x == y] on floats; every comparison
    with a NaN is false. *)
Definition float_abs (x : float) : float := SFabs x.
Definition float_gt (x y : float) : bool := SFltb y x.
Definition float_ge (x y : float) : bool := SFleb y x.
Definition float_eq (x y : float) : bool := SFeqb x y.

Definition is_nan (x : float) : bool :=
  match x with
  | S754_nan => true
  | _ => false
  end.

(** What [json.loads] returns: [None], [bool], [int], [float], [str],
    [list] and [dict] (keys in insertion order, each key once). *)
Inductive json : Type :=
| JNull
| JBool (b : bool)
| JInt (n : Z)
| JFloat (x : float)
| JStr (s : string)
| JArr (items : list json)
| JObj (members : list (string * json)).

Definition is_none (v : json) : bool :=
  match v with
  | JNull => true
  | _ => false
  end.

Fixpoint assoc (key : string) (members : list (string * json)) : option json :=
  match members with
  | [] => None
  | (k, v) :: rest => if String.eqb k key then Some v else assoc key rest
  end.

(** [obj.get(key)]: [None] when the key is missing; [AttributeError] when
    [obj] is not a [dict]. *)
Definition json_get (obj : json) (key : string) : res json :=
  match obj with
  | JObj members =>
      match assoc key members with
      | Some v => Ok v
      | None => Ok JNull
      end
  | JNull => Raise (AttributeError "NoneType")
  | JBool _ => Raise (AttributeError "bool")
  | JInt _ => Raise (AttributeError "int")
  | JFloat _ => Raise (AttributeError "float")
  | JStr _ => Raise (AttributeError "str")
  | JArr _ => Raise (AttributeError "list")
  end.

(** Truth value of a decoded value ([x or y] keeps [x] when it is true). *)
Definition truthy (v : json) : bool :=
  match v with
  | JNull => false
  | JBool b => b
  | JInt n => negb (n =? 0)
  | JFloat x => negb (float_eq x (float_of_Z 0))
  | JStr s => negb (String.eqb s "")
  | JArr items => match items with [] => false | _ => true end
  | JObj members => match members with [] => false | _ => true end
  end.

Definition py_or (x y : json) : json := if truthy x then x else y.

(** [v == 'text'] *)
Definition json_eq_str (v : json) (text : string) : bool :=
  match v with
  | JStr s => String.eqb s text
  | _ => false
  end.

(** [mode >= 2]: defined on numbers ([bool] is a number), [TypeError]
    on everything else. *)
Definition ge_two (mode : json) : res bool :=
  match mode with
  | JBool _ => Ok false
  | JInt n => Ok (2 <=? n)
  | JFloat x => Ok (float_ge x (float_of_Z 2))
  | JNull => Raise (TypeError "NoneType")
  | JStr _ => Raise (TypeError "str")
  | JArr _ => Raise (TypeError "list")
  | JObj _ => Raise (TypeError "dict")
  end.

(** The integer a number is equal to as a [dict] key among [0..3]
    ([True == 1], [2.0 == 2]). *)
Definition small_key (v : json) : option Z :=
  match v with
  | JBool b => Some (if b then 1 else 0)
  | JInt n => if (0 <=? n) && (n <=? 3) then Some n else None
  | JFloat x =>
      if float_eq x (float_of_Z 0) then Some 0
      else if float_eq x (float_of_Z 1) then Some 1
      else if float_eq x (float_of_Z 2) then Some 2
      else if float_eq x (float_of_Z 3) then Some 3
      else None
  | _ => None
  end.

(** *** [repr] and [str] of decoded values *)

Definition hex_digit (n : N) : ascii :=
  ascii_of_N (if (n <? 10)%N then 48 + n else 87 + n)%N.

Definition is_printable (c : ascii) : bool :=
  let n := code c in
  (((32 <=? n) && (n <=? 126)) || ((161 <=? n) && negb (n =? 173)))%N.

Definition repr_char (quote : ascii) (c : ascii) : string :=
  if Ascii.eqb c "\" then "\\"
  else if Ascii.eqb c quote then String "\" (String quote "")
  else if (code c =? 9)%N then "\t"
  else if (code c =? 10)%N then "\n"
  else if (code c =? 13)%N then "\r"
  else if is_printable c then String c ""
  else String "\" (String "x" (String (hex_digit (code c / 16))
                                (String (hex_digit (code c mod 16)) ""))).

Fixpoint repr_chars (quote : ascii) (s : string) : string :=
  match s with
  | EmptyString => EmptyString
  | String c s' => repr_char quote c ++ repr_chars quote s'
  end.

Definition dquote : ascii := ascii_of_N 34.
Definition squote : ascii := ascii_of_N 39.

(** [repr(s)] of a [str]: double quotes only when the text holds a single
    quote and no double quote. *)
Definition repr_str (s : string) : string :=
  let quote :=
    if contains (String squote "") s && negb (contains (String dquote "") s)
    then dquote else squote in
  String quote (repr_chars quote s ++ String quote "").

Section Repr.
Variable float_repr : float -> string.

Fixpoint py_repr (v : json) : string :=
  match v with
  | JNull => "None"
  | JBool b => if b then "True" else "False"
  | JInt n => str_of_Z n
  | JFloat x => float_repr x
  | JStr s => repr_str s
  | JArr items => "[" ++ join ", " (map py_repr items) ++ "]"
  | JObj members =>
      "{" ++ join ", " (map (fun kv => repr_str (fst kv) ++ ": " ++ py_repr (snd kv))
                            members) ++ "}"
  end.

(** [str(v)], which is what an f-string inserts. *)
Definition py_str (v : json) : string :=
  match v with
  | JStr s => s
  | _ => py_repr v
  end.
End Repr.

(** ** The library calls of the monitor *)

(** [float(s)] and [json.loads(s)] return [None] where Python raises
    ([ValueError], and any exception of the decoder); [float_repr] is the
    text an f-string inserts for a float.  A line that starts with an
    opening brace decodes to a [dict] or not at all. *)
Class PyRuntime : Type := {
  py_float : string -> option float;
  float_repr : float -> string;
  json_loads : string -> option json;
  json_loads_object :
    forall (s : string) (v : json),
      json_loads (String "{" s) = Some v -> exists members, v = JObj members
}.

(** ** The samples *)

(** The [dict] built by [parse_tracking]. *)
Record Tracking : Type := mkTracking {
  leap_status : option string;
  stratum : option Z;
  last_offset_sec : option float
}.

(** The [dict] built by [parse_sources]. *)
Record Sources : Type := mkSources {
  has_selected : bool;
  selected_line : option string;
  total_sources : Z
}.

(** The locals of the loop of [parse_gpspipe_output]; [JNull] is [None]. *)
Record GpsState : Type := mkGpsState {
  has_fix : bool;
  tpv_count : Z;
  last_mode : json;
  last_time : json;
  last_lat : json;
  last_lon : json
}.

(** The tuple [parse_gpspipe_output] returns. *)
Record FixStatus : Type := mkFixStatus {
  fix_ok : bool;
  fix_summary : string;
  fix_count : Z;
  fix_mode : json
}.

(** ** Parsers *)
Section Parsers.
Context {RT : PyRuntime}.
Local Open Scope res_scope.

(** *** [parse_tracking] *)

(** One turn of the loop over the lines of the tracking report.  The
    [Leap status] branch has no handler; the [Stratum] branch handles
    [ValueError] only; the [Last offset] branch handles every exception. *)
Definition tracking_line (result : Tracking) (raw : string) : res Tracking :=
  let line := strip raw in
  if startswith "Leap status" line then
    v <- py_index (split1 ":" line) 1 ;;
    Ok (mkTracking (Some (strip v)) (stratum result) (last_offset_sec result))
  else if startswith "Stratum" line then
    v <- py_index (split1 ":" line) 1 ;;
    match py_int (strip v) with
    | Some n => Ok (mkTracking (leap_status result) (Some n) (last_offset_sec result))
    | None => Ok result
    end
  else if startswith "Last offset" line then
    match (v <- py_index (split1 ":" line) 1 ;;
           val <- py_index (split_ws (strip v)) 0 ;;
           Ok (py_float val)) with
    | Ok (Some x) => Ok (mkTracking (leap_status result) (stratum result) (Some x))
    | Ok None => Ok result
    | Raise _ => Ok result
    end
  else Ok result.

Definition parse_tracking (text : string) : res Tracking :=
  for_each tracking_line (splitlines text) (mkTracking None None None).

(** *** [parse_sources] *)

(** [not s or s.startswith('MS') or s.startswith('Name/IP')] *)
Definition is_skipped_row (s : string) : bool :=
  String.eqb s "" || startswith "MS" s || startswith "Name/IP" s.

(** [s.startswith('^*') or '* ' in s or ' ^* ' in s] *)
Definition is_selected_row (s : string) : bool :=
  startswith "^*" s || contains "* " s || contains " ^* " s.

Definition sources_line (acc : Sources) (raw : string) : Sources :=
  let s := strip raw in
  if is_skipped_row s then acc
  else
    let total := total_sources acc + 1 in
    if is_selected_row s then mkSources true (Some s) total
    else mkSources (has_selected acc) (selected_line acc) total.

Definition parse_sources (text : string) : Sources :=
  fold_left sources_line (splitlines text) (mkSources false None 0).

(** *** [parse_gpspipe_output] *)

Definition gps_init : GpsState := mkGpsState false 0 JNull JNull JNull JNull.

(** The body of [if obj.get('class') == 'TPV':]. *)
Definition gps_tpv (st : GpsState) (obj : json) : res GpsState :=
  let count := tpv_count st + 1 in
  mode <- json_get obj "mode" ;;
  fixmode <- (if is_none mode then Ok (has_fix st, last_mode st)
              else ok <- ge_two mode ;; Ok (ok, mode)) ;;
  time <- json_get obj "time" ;;
  lat <- json_get obj "lat" ;;
  lon <- json_get obj "lon" ;;
  Ok (mkGpsState (fst fixmode) count (snd fixmode)
                 (py_or time (last_time st))
                 (py_or lat (last_lat st))
                 (py_or lon (last_lon st))).

Definition gps_line (st : GpsState) (raw : string) : res GpsState :=
  let line := strip raw in
  if String.eqb line "" || negb (startswith "{" line) then Ok st
  else
    match json_loads line with
    | None => Ok st
    | Some obj =>
        cls <- json_get obj "class" ;;
        if json_eq_str cls "TPV" then gps_tpv st obj else Ok st
    end.

(** [{0:'Unknown',1:'No fix',2:'2D fix',3:'3D fix'}.get(last_mode, str(last_mode))];
    [last_mode] is a number here, the loop raised on anything else. *)
Definition mode_text (mode : json) : string :=
  match small_key mode with
  | Some 0 => "Unknown"
  | Some 1 => "No fix"
  | Some 2 => "2D fix"
  | Some 3 => "3D fix"
  | _ => py_str float_repr mode
  end.

Definition gps_summary_of (st : GpsState) : string :=
  let mode_part := ["mode=" ++ mode_text (last_mode st)] in
  let time_part :=
    if truthy (last_time st)
    then ["time=" ++ py_str float_repr (last_time st)] else [] in
  let pos_part :=
    if negb (is_none (last_lat st)) && negb (is_none (last_lon st))
    then ["pos=(" ++ py_str float_repr (last_lat st) ++ ","
                  ++ py_str float_repr (last_lon st) ++ ")"]
    else [] in
  "GPS(TPV): " ++ join " | " (mode_part ++ time_part ++ pos_part)%list.

Definition gps_result (st : GpsState) : FixStatus :=
  if negb (is_none (last_mode st))
  then mkFixStatus (has_fix st) (gps_summary_of st) (tpv_count st) (last_mode st)
  else mkFixStatus false "" (tpv_count st) (last_mode st).

Definition parse_gpspipe_output (text : string) : res FixStatus :=
  st <- for_each gps_line (splitlines text) gps_init ;;
  Ok (gps_result st).

End Parsers.

(** ** Settings, events and the outside world *)

(** The module-level settings read from the environment at start-up. *)
Record Config : Type := mkConfig {
  HOST : string;
  IP_FALLBACK : string;
  SSH_USER : string;
  SSH_PORT : string;
  CHECK_INTERVAL : Z;
  MAX_ACCEPTABLE_STRATUM : Z;
  MAX_ABS_OFFSET_SEC : float;
  CGPS_TIMEOUT_SEC : Z;
  GPSPIPE_SAMPLES : Z;
  DB_URL : option string;
  POSTGRES_TABLE : string;
  EMAIL_SENDER : option string;
  EMAIL_RECEIVER1 : option string;
  EMAIL_RECEIVER2 : option string;
  SMTP_USERNAME : option string;
  SMTP_PASSWORD : option string
}.

(** The values bound by the [INSERT] of [db_insert_sample], in column order
    after [ts]. *)
Record MetricRow : Type := mkMetricRow {
  row_last_offset_sec : option float;
  row_stratum : option Z;
  row_total_sources : Z;
  row_leap_status : option string;
  row_gps_mode : string;
  row_selected_source : option string;
  row_gps_summary : string
}.

Inductive level : Type := INFO | WARNING | ERROR.

(** What a run leaves behind.  [EvSsh] is one call of the Command Executor
    ([subprocess.run] inside [run_ssh]); [EvNotify] is one call of
    [send_email]; [EvSmtp] and [EvDb] are the attempts to submit a message
    and to insert a row; [EvLog] is a log record of level [INFO] or above
    (the [DEBUG] records carry wall-clock readings and are left out). *)
Inductive event : Type :=
| EvSsh (cmd : string) (timeout : Z)
| EvLog (lvl : level) (msg : string)
| EvNotify (subject body : string)
| EvSmtp (sender : string) (receivers : list string) (subject body : string)
| EvDb (table : string) (row : MetricRow)
| EvSleep (seconds : Z).

(** The events so far, newest first. *)
Definition trace : Type := list event.

(** What [subprocess.run] does with a command: it completes with an exit
    code and two captured streams, it exceeds the timeout, or it fails to
    start. *)
Record CompletedProcess : Type := mkCompleted {
  returncode : Z;
  stdout : string;
  stderr : string
}.

Inductive ssh_outcome : Type :=
| Completed (cp : CompletedProcess)
| TimedOut
| Failed (msg : string).

(** The outside world answers from the history of the run: the remote host
    behind the Command Executor, the mail relay and the database ([None]:
    success, [Some text]: the exception text). *)
Record World : Type := mkWorld {
  remote : trace -> string -> Z -> ssh_outcome;
  mail_fault : trace -> option string;
  db_fault : trace -> option string
}.

(** ** A state and exception monad over the trace *)

Definition M (A : Type) : Type := trace -> res A * trace.

Definition ret {A : Type} (a : A) : M A := fun t => (Ok a, t).

Definition bind {A B : Type} (m : M A) (k : A -> M B) : M B :=
  fun t =>
    match m t with
    | (Ok a, t') => k a t'
    | (Raise e, t') => (Raise e, t')
    end.

Definition raise {A : Type} (e : exn) : M A := fun t => (Raise e, t).

Definition emit (e : event) : M unit := fun t => (Ok tt, e :: t).

Definition ask : M trace := fun t => (Ok t, t).

Definition lift {A : Type} (r : res A) : M A := fun t => (r, t).

(** [try: m except ...]: [clauses e] is the body of the first [except]
    clause that matches [e], if one does.  An exception raised by that body
    is not handled by the other clauses of the same statement. *)
Definition try_except {A : Type} (m : M A) (clauses : exn -> option (M A)) : M A :=
  fun t =>
    match m t with
    | (Ok a, t') => (Ok a, t')
    | (Raise e, t') =>
        match clauses e with
        | Some handler => handler t'
        | None => (Raise e, t')
        end
    end.

Definition is_timeout (e : exn) : bool :=
  match e with
  | TimeoutExpired _ _ => true
  | _ => false
  end.

(** [except subprocess.TimeoutExpired: handler] *)
Definition except_timeout {A : Type} (handler : M A) : exn -> option (M A) :=
  fun e => if is_timeout e then Some handler else None.

(** [except Exception as e: handler e] *)
Definition except_exception {A : Type} (handler : exn -> M A) : exn -> option (M A) :=
  fun e => Some (handler e).

(** Two [except] clauses in order. *)
Definition or_except {A : Type} (first second : exn -> option (M A))
  : exn -> option (M A) :=
  fun e =>
    match first e with
    | Some handler => Some handler
    | None => second e
    end.

Declare Scope monad_scope.
Delimit Scope monad_scope with monad.
Notation "x <- m ;; k" := (bind m (fun x => k))
  (at level 61, m at next level, right associativity) : monad_scope.
Notation "m ;; k" := (bind m (fun _ => k))
  (at level 61, right associativity) : monad_scope.

Definition log (lvl : level) (msg : string) : M unit := emit (EvLog lvl msg).

(** The Command Executor calls of a trace, oldest first. *)
Definition ssh_calls (t : trace) : list (string * Z) :=
  flat_map (fun e => match e with EvSsh c n => [(c, n)] | _ => [] end) (rev t).

(** The Notifier calls of a trace, oldest first. *)
Definition notifications (t : trace) : list (string * string) :=
  flat_map (fun e => match e with EvNotify s b => [(s, b)] | _ => [] end) (rev t).

(** The rows handed to the Sample Sink, oldest first. *)
Definition inserted_rows (t : trace) : list MetricRow :=
  flat_map (fun e => match e with EvDb _ r => [r] | _ => [] end) (rev t).

(** The log records of level [ERROR], oldest first. *)
Definition error_logs (t : trace) : list string :=
  flat_map (fun e => match e with EvLog ERROR m => [m] | _ => [] end) (rev t).

(** The number of completed turns of the loop. *)
Definition sleeps (t : trace) : nat :=
  List.length (filter (fun e => match e with EvSleep _ => true | _ => false end) t).

(** ** Text helpers *)

Definition newline : string := String (ascii_of_N 10) "".

(** What an f-string inserts for a value that may be [None]. *)
Definition fmt_str (o : option string) : string :=
  match o with
  | Some s => s
  | None => "None"
  end.

Definition fmt_int (o : option Z) : string :=
  match o with
  | Some n => str_of_Z n
  | None => "None"
  end.

Definition fmt_float {RT : PyRuntime} (o : option float) : string :=
  match o with
  | Some x => float_repr x
  | None => "None"
  end.

(** [str(e)] of an exception. *)
Definition exn_str (e : exn) : string :=
  match e with
  | IndexError => "list index out of range"
  | TypeError ty =>
      "'>=' not supported between instances of '" ++ ty ++ "' and 'int'"
  | AttributeError ty => "'" ++ ty ++ "' object has no attribute 'get'"
  | TimeoutExpired cmd timeout =>
      "Command '[" ++ join ", " (map repr_str cmd) ++ "]' timed out after "
      ++ str_of_Z timeout ++ " seconds"
  | OSError msg => msg
  end.

(** [_head(text)] with its default [n = 3]. *)
Definition _head (text : string) : string :=
  join " / " (firstn 3 (filter (fun l => negb (String.eqb (strip l) ""))
                               (splitlines text))).

Definition env_text (o : option string) : string :=
  match o with
  | Some s => s
  | None => ""
  end.

(** Truth value of an environment variable. *)
Definition env_set (o : option string) : bool :=
  match o with
  | Some s => negb (String.eqb s "")
  | None => false
  end.

(** ** The monitor *)
Section Monitor.
Context {RT : PyRuntime}.
Variable cfg : Config.
Variable world : World.
Local Open Scope monad_scope.

(** [f'{HOST} ({IP_FALLBACK})'] *)
Definition host_label : string := HOST cfg ++ " (" ++ IP_FALLBACK cfg ++ ")".

(** *** [send_email] *)

(** Every exception of the submission is handled inside. *)
Definition send_email (subject body : string) : M unit :=
  emit (EvNotify subject body) ;;
  let receivers :=
    flat_map (fun o => match o with
                       | Some e => if String.eqb e "" then [] else [e]
                       | None => []
                       end)
             [EMAIL_RECEIVER1 cfg; EMAIL_RECEIVER2 cfg] in
  if negb (env_set (EMAIL_SENDER cfg)
           && match receivers with [] => false | _ :: _ => true end
           && env_set (SMTP_USERNAME cfg) && env_set (SMTP_PASSWORD cfg))
  then log ERROR "Email not sent: missing SES env vars"
  else
    t <- ask ;;
    emit (EvSmtp (env_text (EMAIL_SENDER cfg)) receivers subject body) ;;
    match mail_fault world t with
    | None => log INFO "Alert email sent"
    | Some text => log ERROR ("Failed to send email: " ++ text)
    end.

(** *** [run_ssh] *)

Definition full_cmd (cmd : string) : list string :=
  ["ssh"; "-p"; SSH_PORT cfg; "-o"; "BatchMode=yes";
   "-o"; "StrictHostKeyChecking=accept-new"; "-o"; "ConnectTimeout=5";
   SSH_USER cfg ++ "@" ++ HOST cfg; cmd].

Definition run_ssh (cmd : string) (timeout : Z) : M CompletedProcess :=
  t <- ask ;;
  emit (EvSsh cmd timeout) ;;
  match remote world t cmd timeout with
  | Completed cp => ret cp
  | TimedOut =>
      log ERROR ("SSH TIMEOUT after " ++ str_of_Z timeout ++ "s: cmd=" ++ cmd) ;;
      raise (TimeoutExpired (full_cmd cmd) timeout)
  | Failed msg => raise (OSError msg)
  end.

(** *** [run_gps_status] *)

Definition gps_remote_cmd : string :=
  "bash -lc '"
  ++ "if ! command -v gpspipe >/dev/null 2>&1; then echo gpspipe-not-found >&2; exit 127; fi; "
  ++ "if command -v timeout >/dev/null 2>&1; then "
  ++ "  timeout " ++ str_of_Z (CGPS_TIMEOUT_SEC cfg)
  ++ " gpspipe -w -n " ++ str_of_Z (GPSPIPE_SAMPLES cfg) ++ "; "
  ++ "else "
  ++ "  gpspipe -w -n " ++ str_of_Z (GPSPIPE_SAMPLES cfg) ++ "; "
  ++ "fi'".

(** What [run_gps_status] does with a completed command. *)
Definition gps_status_of (cp : CompletedProcess) : M (bool * string) :=
  if (returncode cp =? 127) || contains "gpspipe-not-found" (stderr cp) then
    log WARNING "gpspipe binary not found on remote" ;;
    ret (false, "gpspipe not found on remote host")
  else
    let out := stdout cp ++ stderr cp in
    fs <- lift (parse_gpspipe_output out) ;;
    if negb (String.eqb (fix_summary fs) "") then ret (fix_ok fs, fix_summary fs)
    else ret (false, if String.eqb (_head out) "" then "no TPV data from gpspipe"
                     else _head out).

Definition run_gps_status : M (bool * string) :=
  r <- try_except
         (cp <- run_ssh gps_remote_cmd (CGPS_TIMEOUT_SEC cfg + 3) ;; ret (Some cp))
         (except_timeout (ret None)) ;;
  match r with
  | None => ret (false, "gpspipe timed out")
  | Some cp => gps_status_of cp
  end.

(** *** The evaluation inside [check_ntp_health] *)

(** [leap is None or 'Normal' not in leap] *)
Definition leap_bad (leap : option string) : bool :=
  match leap with
  | None => true
  | Some s => negb (contains "Normal" s)
  end.

(** [stratum is None or stratum > MAX_ACCEPTABLE_STRATUM] *)
Definition stratum_bad (stratum : option Z) : bool :=
  match stratum with
  | None => true
  | Some n => MAX_ACCEPTABLE_STRATUM cfg <? n
  end.

(** [offset is None or abs(offset) > MAX_ABS_OFFSET_SEC] *)
Definition offset_bad (offset : option float) : bool :=
  match offset with
  | None => true
  | Some x => float_gt (float_abs x) (MAX_ABS_OFFSET_SEC cfg)
  end.

(** [if cond: problems.append(text)] *)
Definition append_if (cond : bool) (problems : list string) (text : string)
  : list string :=
  if cond then (problems ++ [text])%list else problems.

Definition leap_text (leap : option string) : string :=
  "Leap status not Normal (got " ++ fmt_str leap ++ ")".
Definition stratum_text (stratum : option Z) : string :=
  "Stratum too high (got " ++ fmt_int stratum ++ ", max "
  ++ str_of_Z (MAX_ACCEPTABLE_STRATUM cfg) ++ ")".
Definition offset_text (offset : option float) : string :=
  "Time offset too large (abs " ++ fmt_float offset ++ "s > "
  ++ float_repr (MAX_ABS_OFFSET_SEC cfg) ++ "s)".
Definition no_selected_text : string := "No selected NTP source in chronyc sources".
Definition no_sources_text : string := "No NTP sources visible in chronyc sources".
Definition no_fix_text : string := "GPS has no fix via gpspipe".

Definition health_problems (tracking : Tracking) (sources : Sources) (gps_ok : bool)
  : list string :=
  let leap := leap_status tracking in
  let stratum := stratum tracking in
  let offset := last_offset_sec tracking in
  let problems := [] in
  let problems := append_if (leap_bad leap) problems (leap_text leap) in
  let problems := append_if (stratum_bad stratum) problems (stratum_text stratum) in
  let problems := append_if (offset_bad offset) problems (offset_text offset) in
  let problems := append_if (negb (has_selected sources)) problems no_selected_text in
  let problems := append_if (total_sources sources =? 0) problems no_sources_text in
  let problems := append_if (negb gps_ok) problems no_fix_text in
  problems.

Definition health_detail (tracking : Tracking) (sources : Sources)
  (gps_summary : string) : list string :=
  ["Host: " ++ host_label;
   "Leap: " ++ fmt_str (leap_status tracking);
   "Stratum: " ++ fmt_int (stratum tracking);
   "Last offset: " ++ fmt_float (last_offset_sec tracking) ++ " sec";
   "Selected source: " ++ fmt_str (selected_line sources);
   "Total sources: " ++ str_of_Z (total_sources sources);
   "GPS: " ++ gps_summary].

Definition health_verdict (tracking : Tracking) (sources : Sources)
  (gps_ok : bool) (gps_summary : string) : bool * string :=
  let problems := health_problems tracking sources gps_ok in
  let detail := health_detail tracking sources gps_summary in
  match problems with
  | _ :: _ => (false, join " | " problems ++ " || " ++ join " | " detail)
  | [] => (true, "OK | " ++ join " | " detail)
  end.

(** *** [check_ntp_health] *)

Definition tracking_failed (tr : CompletedProcess) : string :=
  "SSH/chronyc tracking failed on " ++ host_label ++ ": " ++ _head (stderr tr).
Definition sources_failed (sr : CompletedProcess) : string :=
  "SSH/chronyc sources failed on " ++ host_label ++ ": " ++ _head (stderr sr).

Definition check_ntp_health : M (bool * string) :=
  tr <- run_ssh "chronyc tracking" 10 ;;
  if negb (returncode tr =? 0) then ret (false, tracking_failed tr)
  else
    tracking <- lift (parse_tracking (stdout tr)) ;;
    sr <- run_ssh "chronyc sources -n" 10 ;;
    if negb (returncode sr =? 0) then ret (false, sources_failed sr)
    else
      let sources := parse_sources (stdout sr) in
      gps <- run_gps_status ;;
      ret (health_verdict tracking sources (fst gps) (snd gps)).

(** *** [db_insert_sample] *)

Definition metric_row (tracking : Tracking) (sources : Sources) (gps_ok : bool)
  (gps_summary : string) : MetricRow :=
  mkMetricRow (last_offset_sec tracking) (stratum tracking) (total_sources sources)
              (leap_status tracking)
              (if gps_ok then "3D fix" else "No fix")
              (selected_line sources) gps_summary.

Definition db_insert_sample (tracking : Tracking) (sources : Sources)
  (gps_ok : bool) (gps_summary : string) : M unit :=
  if negb (env_set (DB_URL cfg)) then ret tt
  else
    t <- ask ;;
    emit (EvDb (POSTGRES_TABLE cfg) (metric_row tracking sources gps_ok gps_summary)) ;;
    match db_fault world t with
    | None => ret tt
    | Some text => log ERROR ("DB write failed: " ++ text)
    end.

(** *** The loop of [main] *)

(** The second sampling pass of a healthy cycle: the body of the inner
    [try]. *)
Definition persist_body : M unit :=
  tr <- run_ssh "chronyc tracking" 10 ;;
  sr <- run_ssh "chronyc sources -n" 10 ;;
  tracking <- lift (parse_tracking (stdout tr)) ;;
  let sources := parse_sources (stdout sr) in
  gps <- run_gps_status ;;
  db_insert_sample tracking sources (fst gps) (snd gps).

Definition persist_failed (e : exn) : string :=
  "DB collection/write error: " ++ exn_str e.

(** The inner [try] with its handler. *)
Definition persist_sample : M unit :=
  try_except persist_body (except_exception (fun e => log ERROR (persist_failed e))).

Definition timeout_msg : string := "SSH command timed out contacting " ++ host_label.

Definition unexpected_msg (e : exn) : string :=
  "Unexpected error during NTP check: " ++ exn_str e.

(** The body of the outer [try]. *)
Definition check_and_act : M unit :=
  r <- check_ntp_health ;;
  if fst r then log INFO (snd r) ;; persist_sample
  else log ERROR (snd r) ;;
       send_email "NTP health alert on observium.andrea-house.com"
                  (snd r ++ newline).

(** The [try] statement of the loop with its two [except] clauses. *)
Definition guarded_check : M unit :=
  try_except
    check_and_act
    (or_except
       (except_timeout
          (log ERROR timeout_msg ;;
           send_email "NTP health alert timeout" timeout_msg))
       (except_exception
          (fun e => log ERROR (unexpected_msg e) ;;
                    send_email "NTP health alert exception" (unexpected_msg e)))).

(** One turn of [while True]. *)
Definition cycle : M unit :=
  guarded_check ;; emit (EvSleep (CHECK_INTERVAL cfg)).

(** The first [n] turns of [while True]; an exception that leaves a turn
    ends the loop. *)
Fixpoint main_loop (n : nat) : M unit :=
  match n with
  | O => ret tt
  | S k => cycle ;; main_loop k
  end.

End Monitor.

(** ** A reference runtime

    [float], [repr] and [json.loads] on text of code points below 256, used
    to run the monitor on concrete input.  The properties of the monitor are
    proved for every [PyRuntime]. *)
Module Reference.

(** *** [float(s)] *)

(** The float nearest to [m * 10 ^ e] (ties to even), for [0 <= m]. *)
Definition float_of_decimal (neg : bool) (m : Z) (e : Z) : float :=
  match m with
  | Zpos p =>
      let digits := Z.of_nat (String.length (str_of_Z m)) in
      if 310 <? e then S754_infinity neg
      else if e + digits <? -330 then S754_zero neg
      else if 0 <=? e then binary_round 53 1024 neg (Z.to_pos (m * 10 ^ e)) 0
      else SFdiv 53 1024 (S754_finite neg p 0)
                         (S754_finite false (Z.to_pos (10 ^ (- e))) 0)
  | _ => S754_zero neg
  end.

(** A run of digits with single underscores between digits: its value on
    top of [acc], the number of digits, and the text after it. *)
Fixpoint digit_run (s : string) (acc : Z) (count : nat)
  : option (Z * nat * string) :=
  match s with
  | EmptyString => Some (acc, count, EmptyString)
  | String c s' =>
      match digit_of c with
      | Some d => digit_run s' (10 * acc + d) (S count)
      | None =>
          if is_underscore c then
            match count, s' with
            | S _, String c2 _ =>
                match digit_of c2 with
                | Some _ => digit_run s' acc count
                | None => None
                end
            | _, _ => None
            end
          else Some (acc, count, s)
      end
  end.

Definition lower (c : ascii) : ascii :=
  let n := code c in
  if ((65 <=? n) && (n <=? 90))%N then ascii_of_N (n + 32) else c.

Fixpoint lower_str (s : string) : string :=
  match s with
  | EmptyString => EmptyString
  | String c s' => String (lower c) (lower_str s')
  end.

(** The exponent part: [e], an optional sign, a run with one digit or more. *)
Definition exponent_part (s : string) : option Z :=
  match s with
  | EmptyString => Some 0
  | String c s' =>
      if Ascii.eqb (lower c) "e" then
        let signed :=
          match s' with
          | String "-" r => (true, r)
          | String "+" r => (false, r)
          | _ => (false, s')
          end in
        match digit_run (snd signed) 0 0 with
        | Some (v, S _, EmptyString) => Some (if fst signed then - v else v)
        | _ => None
        end
      else None
  end.

(** An unsigned decimal literal. *)
Definition decimal_literal (neg : bool) (s : string) : option float :=
  match digit_run s 0 0 with
  | Some (ip, ni, rest) =>
      let frac :=
        match rest with
        | String "." r =>
            match digit_run r ip 0 with
            | Some (m, nf, rest') => Some (m, nf, rest')
            | None => None
            end
        | _ => Some (ip, O, rest)
        end in
      match frac with
      | Some (m, nf, rest') =>
          match (ni + nf)%nat, exponent_part rest' with
          | S _, Some e => Some (float_of_decimal neg m (e - Z.of_nat nf))
          | _, _ => None
          end
      | None => None
      end
  | None => None
  end.

Definition unsigned_literal (neg : bool) (s : string) : option float :=
  let l := lower_str s in
  if String.eqb l "inf" || String.eqb l "infinity" then Some (S754_infinity neg)
  else if String.eqb l "nan" then Some S754_nan
  else decimal_literal neg s.

(** [float(s)]; [None] stands for [ValueError]. *)
Definition py_float (s : string) : option float :=
  match num_rstrip (num_lstrip s) with
  | EmptyString => None
  | String c body =>
      if Ascii.eqb c "-" then unsigned_literal true body
      else if Ascii.eqb c "+" then unsigned_literal false body
      else unsigned_literal false (String c body)
  end.

(** *** [repr(x)] of a float: the shortest decimal that reads back as [x] *)

Definition float_same (x y : float) : bool :=
  match x, y with
  | S754_nan, S754_nan => true
  | S754_zero s, S754_zero s' => Bool.eqb s s'
  | S754_infinity s, S754_infinity s' => Bool.eqb s s'
  | S754_finite s m e, S754_finite s' m' e' =>
      Bool.eqb s s' && Pos.eqb m m' && Z.eqb e e'
  | _, _ => false
  end.

(** [10 ^ j <= num / den] *)
Definition ge_pow10 (num den j : Z) : bool :=
  if 0 <=? j then den * 10 ^ j <=? num else den <=? num * 10 ^ (- j).

Fixpoint adjust_log10 (fuel : nat) (num den k : Z) : Z :=
  match fuel with
  | O => k
  | S fuel' =>
      if ge_pow10 num den (k + 1) then adjust_log10 fuel' num den (k + 1) else k
  end.

(** The [k] with [10 ^ k <= num / den < 10 ^ (k + 1)]. *)
Definition floor_log10 (num den : Z) : Z :=
  adjust_log10 4 num den ((Z.log2 num - Z.log2 den) * 30103 / 100000 - 1).

(** The decimal [d * 10 ^ q] with [n] digits that reads back as [x] and
    is nearest to [x = num / den], if there is one. *)
Definition shortest_try (x : float) (num den k n : Z) : option (Z * Z) :=
  let q := k - n + 1 in
  let a := if 0 <=? q then num else num * 10 ^ (- q) in
  let b := if 0 <=? q then den * 10 ^ q else den in
  let lo := a / b in
  let r := a mod b in
  let reads_back d := float_same (float_of_decimal false d q) x in
  if r =? 0 then Some (lo, q)
  else
    match reads_back lo, reads_back (lo + 1) with
    | true, true =>
        Some (if (2 * r <? b) || ((2 * r =? b) && Z.even lo) then lo else lo + 1, q)
    | true, false => Some (lo, q)
    | false, true => Some (lo + 1, q)
    | false, false => None
    end.

Fixpoint shortest (fuel : nat) (x : float) (num den k n : Z) : Z * Z :=
  match fuel with
  | O => (num * 10 ^ (16 - k) / den, k - 16)
  | S fuel' =>
      match shortest_try x num den k n with
      | Some dq => dq
      | None => shortest fuel' x num den k (n + 1)
      end
  end.

Fixpoint strip_zeros (fuel : nat) (d q : Z) : Z * Z :=
  match fuel with
  | O => (d, q)
  | S fuel' => if d mod 10 =? 0 then strip_zeros fuel' (d / 10) (q + 1) else (d, q)
  end.

Fixpoint zeros (n : nat) : string :=
  match n with
  | O => EmptyString
  | S n' => String "0" (zeros n')
  end.

(** The digits [ds] with the decimal point after the first [decpt] of
    them: exponent notation when [decpt] is above 16 or below -3. *)
Definition place_point (ds : string) (decpt : Z) : string :=
  let nd := Z.of_nat (String.length ds) in
  if (16 <? decpt) || (decpt <? -3) then
    let ex := decpt - 1 in
    let mantissa :=
      match ds with
      | String c EmptyString => ds
      | String c rest => String c ("." ++ rest)
      | EmptyString => ds
      end in
    let exdigits := str_of_Z (Z.abs ex) in
    mantissa ++ "e" ++ (if ex <? 0 then "-" else "+")
    ++ (if Z.abs ex <? 10 then "0" ++ exdigits else exdigits)
  else if decpt <=? 0 then "0." ++ zeros (Z.to_nat (- decpt)) ++ ds
  else if nd <=? decpt then ds ++ zeros (Z.to_nat (decpt - nd)) ++ ".0"
  else substring 0 (Z.to_nat decpt) ds ++ "."
       ++ substring (Z.to_nat decpt) (Z.to_nat (nd - decpt)) ds.

Definition repr_finite (m : positive) (e : Z) : string :=
  let num := if 0 <=? e then Zpos m * 2 ^ e else Zpos m in
  let den := if 0 <=? e then 1 else 2 ^ (- e) in
  let k := floor_log10 num den in
  let dq := shortest 17 (S754_finite false m e) num den k 1 in
  let dq := strip_zeros 20 (fst dq) (snd dq) in
  let ds := str_of_Z (fst dq) in
  place_point ds (Z.of_nat (String.length ds) + snd dq).

Definition float_repr (x : float) : string :=
  match x with
  | S754_nan => "nan"
  | S754_infinity s => if s then "-inf" else "inf"
  | S754_zero s => if s then "-0.0" else "0.0"
  | S754_finite s m e => (if s then "-" else "") ++ repr_finite m e
  end.

(** *** [json.loads(s)]

    The grammar of the [json] module with its defaults: the literals
    [NaN], [Infinity] and [-Infinity] are accepted, control characters
    inside strings are not, a repeated key keeps its last value.  An
    escape above [\u00ff] names a code point outside [string] and makes
    this decoder fail; nesting is not bounded by a recursion limit. *)

Definition is_json_ws (c : ascii) : bool :=
  let n := code c in
  ((n =? 32) || (n =? 9) || (n =? 10) || (n =? 13))%N.

Fixpoint skip_ws (s : string) : string :=
  match s with
  | EmptyString => EmptyString
  | String c s' => if is_json_ws c then skip_ws s' else s
  end.

Definition hex_value (c : ascii) : option N :=
  let n := code c in
  if ((48 <=? n) && (n <=? 57))%N then Some (n - 48)%N
  else if ((97 <=? n) && (n <=? 102))%N then Some (n - 87)%N
  else if ((65 <=? n) && (n <=? 70))%N then Some (n - 55)%N
  else None.

Definition hex4 (a b c d : ascii) : option N :=
  match hex_value a, hex_value b, hex_value c, hex_value d with
  | Some x, Some y, Some z, Some w => Some (((x * 16 + y) * 16 + z) * 16 + w)%N
  | _, _, _, _ => None
  end.

Definition simple_escape (c : ascii) : option ascii :=
  let n := code c in
  if (n =? 34)%N then Some c
  else if (n =? 92)%N then Some c
  else if (n =? 47)%N then Some c
  else if (n =? 98)%N then Some (ascii_of_N 8)
  else if (n =? 102)%N then Some (ascii_of_N 12)
  else if (n =? 110)%N then Some (ascii_of_N 10)
  else if (n =? 114)%N then Some (ascii_of_N 13)
  else if (n =? 116)%N then Some (ascii_of_N 9)
  else None.

Definition push (c : ascii) (r : option (string * string)) : option (string * string) :=
  match r with
  | Some (text, rest) => Some (String c text, rest)
  | None => None
  end.

(** The text of a string after its opening quote, and what follows the
    closing quote. *)
Fixpoint string_body (s : string) : option (string * string) :=
  match s with
  | EmptyString => None
  | String c s' =>
      if (code c =? 34)%N then Some (EmptyString, s')
      else if (code c =? 92)%N then
        match s' with
        | String e s'' =>
            if (code e =? 117)%N then
              match s'' with
              | String h1 (String h2 (String h3 (String h4 r))) =>
                  match hex4 h1 h2 h3 h4 with
                  | Some n => if (n <? 256)%N then push (ascii_of_N n) (string_body r)
                              else None
                  | None => None
                  end
              | _ => None
              end
            else
              match simple_escape e with
              | Some x => push x (string_body s'')
              | None => None
              end
        | EmptyString => None
        end
      else if (code c <? 32)%N then None
      else push c (string_body s')
  end.

Fixpoint plain_digits (s : string) (acc : Z) (count : nat) : Z * nat * string :=
  match s with
  | EmptyString => (acc, count, EmptyString)
  | String c s' =>
      match digit_of c with
      | Some d => plain_digits s' (10 * acc + d) (S count)
      | None => (acc, count, s)
      end
  end.

(** A number: an optional minus sign, then a zero or a run of digits that
    does not start with a zero, then optionally a point with one digit or
    more, then optionally an exponent with one digit or more.  It is an
    [int] when it has neither fraction nor exponent. *)
Definition json_number (s : string) : option (json * string) :=
  let neg := match s with String "-" _ => true | _ => false end in
  let s1 := match s with String "-" r => r | _ => s end in
  let int_part :=
    match s1 with
    | String "0" r => Some (0, r)
    | String c _ =>
        match digit_of c with
        | Some _ => let '(v, _, r) := plain_digits s1 0 0 in Some (v, r)
        | None => None
        end
    | EmptyString => None
    end in
  match int_part with
  | None => None
  | Some (ip, r1) =>
      let '(m, nf, r2) :=
        match r1 with
        | String "." r =>
            match plain_digits r ip 0 with
            | (m, S n, r') => (m, S n, r')
            | (_, O, _) => (ip, O, r1)
            end
        | _ => (ip, O, r1)
        end in
      let '(ex, r3) :=
        match r2 with
        | String c r =>
            if Ascii.eqb (lower c) "e" then
              let eneg := match r with String "-" _ => true | _ => false end in
              let r' := match r with
                        | String "-" t => t
                        | String "+" t => t
                        | _ => r
                        end in
              match plain_digits r' 0 0 with
              | (v, S _, rest) => (Some (if eneg then - v else v), rest)
              | (_, O, _) => (None, r2)
              end
            else (None, r2)
        | EmptyString => (None, r2)
        end in
      match nf, ex with
      | O, None => Some (JInt (if neg then - ip else ip), r3)
      | _, _ =>
          Some (JFloat (float_of_decimal neg m
                          (match ex with Some e => e | None => 0 end - Z.of_nat nf)),
                r3)
      end
  end.

Fixpoint dict_set (key : string) (v : json) (members : list (string * json))
  : list (string * json) :=
  match members with
  | [] => [(key, v)]
  | (k, old) :: rest =>
      if String.eqb k key then (k, v) :: rest else (k, old) :: dict_set key v rest
  end.

Definition after_prefix (p s : string) : option string :=
  if startswith p s
  then Some (substring (String.length p) (String.length s - String.length p) s)
  else None.

Definition literal (s : string) : option (json * string) :=
  match after_prefix "null" s with
  | Some r => Some (JNull, r)
  | None =>
  match after_prefix "true" s with
  | Some r => Some (JBool true, r)
  | None =>
  match after_prefix "false" s with
  | Some r => Some (JBool false, r)
  | None =>
  match json_number s with
  | Some vr => Some vr
  | None =>
  match after_prefix "NaN" s with
  | Some r => Some (JFloat S754_nan, r)
  | None =>
  match after_prefix "Infinity" s with
  | Some r => Some (JFloat (S754_infinity false), r)
  | None =>
  match after_prefix "-Infinity" s with
  | Some r => Some (JFloat (S754_infinity true), r)
  | None => None
  end end end end end end end.

(** [value] reads one value; [elements] the rest of an array from an
    element on; [members] the rest of an object from the opening quote of
    a key on. *)
Fixpoint value (fuel : nat) (s : string) : option (json * string) :=
  match fuel with
  | O => None
  | S fuel' =>
      match s with
      | String c r =>
          if (code c =? 34)%N then
            match string_body r with
            | Some (text, rest) => Some (JStr text, rest)
            | None => None
            end
          else if Ascii.eqb c "{" then
            match skip_ws r with
            | String "}" rest => Some (JObj [], rest)
            | r' =>
                match members fuel' r' [] with
                | Some (ms, rest) => Some (JObj ms, rest)
                | None => None
                end
            end
          else if Ascii.eqb c "[" then
            match skip_ws r with
            | String "]" rest => Some (JArr [], rest)
            | r' =>
                match elements fuel' r' with
                | Some (items, rest) => Some (JArr items, rest)
                | None => None
                end
            end
          else literal s
      | EmptyString => None
      end
  end

with elements (fuel : nat) (s : string) : option (list json * string) :=
  match fuel with
  | O => None
  | S fuel' =>
      match value fuel' s with
      | Some (v, rest) =>
          match skip_ws rest with
          | String "," rest' =>
              match elements fuel' (skip_ws rest') with
              | Some (items, rest'') => Some (v :: items, rest'')
              | None => None
              end
          | String "]" rest' => Some ([v], rest')
          | _ => None
          end
      | None => None
      end
  end

with members (fuel : nat) (s : string) (acc : list (string * json))
  : option (list (string * json) * string) :=
  match fuel with
  | O => None
  | S fuel' =>
      match s with
      | String q r =>
          if (code q =? 34)%N then
            match string_body r with
            | Some (key, rest) =>
                match skip_ws rest with
                | String ":" rest1 =>
                    match value fuel' (skip_ws rest1) with
                    | Some (v, rest2) =>
                        let acc' := dict_set key v acc in
                        match skip_ws rest2 with
                        | String "," rest3 => members fuel' (skip_ws rest3) acc'
                        | String "}" rest3 => Some (acc', rest3)
                        | _ => None
                        end
                    | None => None
                    end
                | _ => None
                end
            | None => None
            end
          else None
      | EmptyString => None
      end
  end.

(** [json.loads(s)]; [None] stands for any exception of the decoder. *)
Definition json_loads (s : string) : option json :=
  match value (2 * String.length s + 4) (skip_ws s) with
  | Some (v, rest) =>
      match skip_ws rest with
      | EmptyString => Some v
      | _ => None
      end
  | None => None
  end.

Lemma json_loads_object (s : string) (v : json) :
  json_loads (String "{" s) = Some v -> exists ms, v = JObj ms.
Proof.
  unfold json_loads.
  remember (2 * String.length (String "{" s) + 4)%nat as fuel eqn:Hfuel.
  destruct fuel as [|fuel]; [simpl in Hfuel; lia|].
  cbn [skip_ws is_json_ws]. simpl.
  destruct (skip_ws s) as [|c r] eqn:Hs.
  - destruct (members fuel "" []) as [[ms rest]|]; [|discriminate].
    destruct (skip_ws rest); [|discriminate].
    intros H; inversion H; eauto.
  - destruct (Ascii.eqb_spec c "}") as [->|Hc].
    + destruct (skip_ws r); [|discriminate].
      intros H; inversion H; eauto.
    + assert (Hv : forall o : option (json * string),
                 o = match members fuel (String c r) [] with
                     | Some (ms, rest) => Some (JObj ms, rest)
                     | None => None
                     end ->
                 match o with
                 | Some (v0, rest) =>
                     match skip_ws rest with
                     | "" => Some v0
                     | _ => None
                     end
                 | None => None
                 end = Some v -> exists ms, v = JObj ms).
      { intros o ->.
        destruct (members fuel (String c r) []) as [[ms rest]|]; [|discriminate].
        destruct (skip_ws rest); [|discriminate].
        intros H; inversion H; eauto. }
      apply Hv.
      destruct c as [[] [] [] [] [] [] [] []]; try reflexivity.
      exfalso; apply Hc; reflexivity.
Qed.

#[global] Instance runtime : PyRuntime :=
  Build_PyRuntime py_float float_repr json_loads json_loads_object.

End Reference.

(** ** Settings, reports and worlds for concrete runs *)
Module Scenario.

(** The defaults of the settings ([MAX_ABS_OFFSET_SEC] is [float('0.050')]);
    no database and no mail account are configured. *)
Definition default_config : Config :=
  mkConfig "myntp" "0.0.0.0" "ubuntu" "22" 30 4
           (S754_finite false 7205759403792794 (-57))
           8 5 None "metrics.ntp_parent" None None None None None.

(** The defaults with a database and a mail account. *)
Definition full_config : Config :=
  mkConfig "myntp" "0.0.0.0" "ubuntu" "22" 30 4
           (S754_finite false 7205759403792794 (-57))
           8 5 (Some "postgresql://u:p@db:5432/ntp") "metrics.ntp_parent"
           (Some "ntp@example.org") (Some "ops@example.org") None
           (Some "user") (Some "secret").

(** Text written with apostrophes where JSON has double quotes. *)
Fixpoint dq (s : string) : string :=
  match s with
  | EmptyString => EmptyString
  | String c s' => String (if Ascii.eqb c squote then dquote else c) (dq s')
  end.

Definition lines (l : list string) : string := join newline l.

Definition completed (rc : Z) (out err : string) : ssh_outcome :=
  Completed (mkCompleted rc out err).

(** A world that answers the n-th Command Executor call with the n-th
    outcome of a script (a timeout once the script is over), with a mail
    relay and a database that accept everything. *)
Definition scripted (answers : list ssh_outcome) : World :=
  mkWorld (fun t _ _ => nth (List.length (ssh_calls t)) answers TimedOut)
          (fun _ => None) (fun _ => None).

Definition tracking_report (stratum offset : string) : string :=
  lines ["Reference ID    : 50505300 (PPS)";
         "Stratum         : " ++ stratum;
         "System time     : 0.000000123 seconds fast of NTP time";
         "Last offset     : " ++ offset ++ " seconds";
         "Leap status     : Normal"].

Definition sources_report : string :=
  lines ["MS Name/IP address         Stratum Poll Reach LastRx Last sample";
         "^* 192.168.1.1                   1   6   377    23    +12us[  +15us] +/-   20ms";
         "^- 192.168.1.2                   2   6   377    24   -310us[ -310us] +/-   35ms"].

Definition gps_stream (mode : string) : string :=
  lines [dq "{'class':'VERSION','release':'3.22','proto_major':3}";
         dq "{'class':'TPV','device':'/dev/ttyAMA0','mode':" ++ mode
            ++ dq ",'time':'2024-01-01T00:00:00.000Z','lat':45.5,'lon':-9.25}";
         dq "{'class':'SKY','nSat':9}"].

(** A healthy sample: the three reports of one pass. *)
Definition healthy_pass : list ssh_outcome :=
  [completed 0 (tracking_report "2" "+0.002") "";
   completed 0 sources_report "";
   completed 0 (gps_stream "3") ""].

End Scenario.

(** * The words of the specification *)

(** ** The conditions of the health evaluation, as the specification words them *)

Definition leap_normal (leap : option string) : bool :=
  match leap with
  | Some s => contains "Normal" s
  | None => false
  end.

Definition stratum_within (cfg : Config) (stratum : option Z) : bool :=
  match stratum with
  | Some n => n <=? MAX_ACCEPTABLE_STRATUM cfg
  | None => false
  end.

(** "non-null with absolute value at most [maxAbsOffsetSec]" *)
Definition offset_within (cfg : Config) (offset : option float) : bool :=
  match offset with
  | Some x => SFleb (float_abs x) (MAX_ABS_OFFSET_SEC cfg)
  | None => false
  end.

(** "non-null with absolute value not above [maxAbsOffsetSec]" *)
Definition offset_not_above (cfg : Config) (offset : option float) : bool :=
  match offset with
  | Some x => negb (float_gt (float_abs x) (MAX_ABS_OFFSET_SEC cfg))
  | None => false
  end.

(** The entry of a condition in the list of problems. *)
Definition entry (violated : bool) (text : string) : list string :=
  if violated then [text] else [].

(** Samples for concrete evaluations. *)
Import Scenario.

Definition sample_tracking : Tracking :=
  mkTracking (Some "Normal") (Some 2) (Some (S754_finite false 4611686018427388 (-61))).

Definition sample_sources : Sources :=
  mkSources true (Some "^* 192.168.1.1") 1.

Definition nan_tracking : Tracking := mkTracking (Some "Normal") (Some 2) (Some S754_nan).

(** ** The sources report, as the specification words it *)

(** The rows that count: the stripped lines that are neither blank nor one
    of the two headers. *)
Definition data_rows (text : string) : list string :=
  filter (fun s => negb (is_skipped_row s)) (map strip (splitlines text)).

(** "a leading [^*], or the marker token appearing as an isolated field" *)
Definition marker_row (s : string) : bool :=
  startswith "^*" s || contains " ^* " s.

Fixpoint last_opt {A : Type} (l : list A) : option A :=
  match l with
  | [] => None
  | x :: l' =>
      match l' with
      | [] => Some x
      | _ :: _ => last_opt l'
      end
  end.

(** ** The fix-status stream, as the specification words it *)
Section FixRecords.
Context {RT : PyRuntime}.

(** The record a line decodes to; [None] for a line that is skipped. *)
Definition decode_line (raw : string) : option json :=
  let line := strip raw in
  if String.eqb line "" || negb (startswith "{" line) then None
  else json_loads line.

Definition member (key : string) (obj : json) : json :=
  match obj with
  | JObj ms =>
      match assoc key ms with
      | Some v => v
      | None => JNull
      end
  | _ => JNull
  end.

(** A record of the fix-report kind. *)
Definition is_tpv (obj : json) : bool := json_eq_str (member "class" obj) "TPV".

(** The fix reports among the lines, oldest first. *)
Definition tpv_records (ls : list string) : list json :=
  filter is_tpv
    (flat_map (fun raw => match decode_line raw with
                          | Some obj => [obj]
                          | None => []
                          end) ls).

(** The mode values the fix reports carry, oldest first. *)
Definition modes (ls : list string) : list json :=
  filter (fun m => negb (is_none m)) (map (member "mode") (tpv_records ls)).

Definition is_number (m : json) : bool :=
  match m with
  | JBool _ | JInt _ | JFloat _ => true
  | _ => false
  end.

(** "mode [>= 2]" for a mode that is a number. *)
Definition at_least_two (m : json) : bool :=
  match m with
  | JInt n => 2 <=? n
  | JFloat x => float_ge x (float_of_Z 2)
  | _ => false
  end.

End FixRecords.

(** ** The calls of one sampling pass *)

(** The three Command Executor calls of a pass, in order, each with its
    timeout. *)
Definition three_calls (cfg : Config) : list (string * Z) :=
  [("chronyc tracking", 10); ("chronyc sources -n", 10);
   (gps_remote_cmd cfg, CGPS_TIMEOUT_SEC cfg + 3)].

(** ** The alert of the loop boundary *)

(** The subject and the text of the alert for an exception that reaches the
    [except] clauses of the loop. *)
Definition alert_subject (e : exn) : string :=
  if is_timeout e then "NTP health alert timeout" else "NTP health alert exception".

Definition alert_message (cfg : Config) (e : exn) : string :=
  if is_timeout e then timeout_msg cfg else unexpected_msg e.

(** ** Which events a computation adds *)

(** Every event [m] adds to a trace satisfies [P]. *)
Definition emits_only (P : event -> Prop) {A : Type} (m : M A) : Prop :=
  forall t : trace, exists evs : list event,
    snd (m t) = (evs ++ t)%list /\ Forall P evs.

Definition is_notify (e : event) : bool :=
  match e with
  | EvNotify _ _ => true
  | _ => false
  end.

Definition is_sleep (e : event) : bool :=
  match e with
  | EvSleep _ => true
  | _ => false
  end.

(** A row as [db_insert_sample] writes it: the mode column is one of the
    two texts. *)
Definition collapsed_mode (e : event) : Prop :=
  match e with
  | EvDb _ row => row_gps_mode row = "3D fix" \/ row_gps_mode row = "No fix"
  | _ => True
  end.

(** A health check that returned a verdict with [ok = true]. *)
Definition verdict_ok (r : res (bool * string)) : bool :=
  match r with
  | Ok (true, _) => true
  | _ => false
  end.

(** ** Worlds for concrete turns *)

(** The remote host refuses the connection of the first call. *)
Definition refused : CompletedProcess :=
  mkCompleted 255 "" "ssh: connect to host myntp port 22: Connection refused".

(** Tracking and sources answer; the fix-status call exceeds its timeout. *)
Definition gps_times_out : World :=
  scripted [completed 0 (tracking_report "2" "+0.002") "";
            completed 0 sources_report "";
            TimedOut].

(** A healthy pass, then a healthy pass for the stored sample. *)
Definition healthy_twice : World := scripted (healthy_pass ++ healthy_pass).

(** A healthy pass, then the first call of the second pass exceeds its
    timeout. *)
Definition persistence_times_out : World := scripted (healthy_pass ++ [TimedOut]).

(** Two passes in which the receiver reports a two-dimensional fix. *)
Definition two_d_pass : list ssh_outcome :=
  [completed 0 (tracking_report "2" "+0.002") "";
   completed 0 sources_report "";
   completed 0 (gps_stream "2") ""].

Definition two_d_twice : World := scripted (two_d_pass ++ two_d_pass).

(** ** Writing a tracking sample back as a report *)

Fixpoint all_chars (p : ascii -> bool) (s : string) : bool :=
  match s with
  | EmptyString => true
  | String c s' => p c && all_chars p s'
  end.

(** A text with no line boundary in it. *)
Definition one_line (s : string) : bool := all_chars (fun c => negb (is_linebreak c)) s.

(** A text with no whitespace in it. *)
Definition no_space (s : string) : bool := all_chars (fun c => negb (is_space c)) s.

Section Serializer.
Context {RT : PyRuntime}.

(** The report that states a tracking sample: one [key: value] line for
    each field that is present, with the keys [parse_tracking] recognizes,
    the integer as [str] prints it, and the float as [repr] prints it
    followed by its unit. *)
Definition serialize_tracking (r : Tracking) : string :=
  let leap_line :=
    match leap_status r with
    | Some s => ["Leap status: " ++ s]
    | None => []
    end in
  let stratum_line :=
    match stratum r with
    | Some n => ["Stratum: " ++ str_of_Z n]
    | None => []
    end in
  let offset_line :=
    match last_offset_sec r with
    | Some x => ["Last offset: " ++ float_repr x ++ " seconds"]
    | None => []
    end in
  join newline (leap_line ++ stratum_line ++ offset_line)%list.

(** A float whose printed form is one token that reads back as the same
    float. *)
Definition reads_back (x : float) : Prop :=
  no_space (float_repr x) = true
  /\ float_repr x <> ""
  /\ py_float (float_repr x) = Some x.

Definition offset_reads_back (offset : option float) : Prop :=
  match offset with
  | Some x => reads_back x
  | None => True
  end.

(** A leap status as the parser returns it: stripped, on one line. *)
Definition leap_text_ok (leap : option string) : Prop :=
  match leap with
  | Some s => strip s = s /\ one_line s = true
  | None => True
  end.

End Serializer.

(** The value of a decimal numeral read after the value [acc]. *)
Fixpoint uint_value (d : Decimal.uint) (acc : Z) : Z :=
  match d with
  | Decimal.Nil => acc
  | Decimal.D0 l => uint_value l (10 * acc + 0)
  | Decimal.D1 l => uint_value l (10 * acc + 1)
  | Decimal.D2 l => uint_value l (10 * acc + 2)
  | Decimal.D3 l => uint_value l (10 * acc + 3)
  | Decimal.D4 l => uint_value l (10 * acc + 4)
  | Decimal.D5 l => uint_value l (10 * acc + 5)
  | Decimal.D6 l => uint_value l (10 * acc + 6)
  | Decimal.D7 l => uint_value l (10 * acc + 7)
  | Decimal.D8 l => uint_value l (10 * acc + 8)
  | Decimal.D9 l => uint_value l (10 * acc + 9)
  end.

Definition is_digit (c : ascii) : bool :=
  match digit_of c with
  | Some _ => true
  | None => false
  end.

(** ** Events of the Sample Sink *)

Definition is_db (e : event) : bool :=
  match e with
  | EvDb _ _ => true
  | _ => false
  end.

(** ** The second sampling pass of a turn *)

(** The trace when the second sampling pass of a healthy turn starts: the
    health check has run and its detail is logged. *)
Definition second_pass_start {RT : PyRuntime} (cfg : Config) (world : World)
  (t : trace) (detail : string) : trace :=
  EvLog INFO detail :: snd (check_ntp_health cfg world t).

(** The trace when the fix-status step of a pass that started at [t] runs:
    the two [chronyc] calls are made. *)
Definition fix_step (t : trace) : trace :=
  EvSsh "chronyc sources -n" 10 :: EvSsh "chronyc tracking" 10 :: t.

(** ** What a tracking report states *)
Section StatedFields.
Context {RT : PyRuntime}.

Definition is_leap_line (raw : string) : bool := startswith "Leap status" (strip raw).
Definition is_stratum_line (raw : string) : bool := startswith "Stratum" (strip raw).
Definition is_offset_line (raw : string) : bool := startswith "Last offset" (strip raw).

(** The text after the first colon of a line, stripped. *)
Definition key_value (raw : string) : option string :=
  match cut ":" (strip raw) with
  | Some (_, v) => Some (strip v)
  | None => None
  end.

(** The value a line states for each field: the text after the colon; that
    text read as an integer; its first word read as a float. *)
Definition leap_of (raw : string) : option string := key_value raw.

Definition stratum_of (raw : string) : option Z :=
  match key_value raw with
  | Some v => py_int v
  | None => None
  end.

Definition offset_of (raw : string) : option float :=
  match key_value raw with
  | Some v =>
      match split_ws v with
      | tok :: _ => py_float tok
      | [] => None
      end
  | None => None
  end.

Definition is_some {A : Type} (o : option A) : bool :=
  match o with
  | Some _ => true
  | None => false
  end.

(** A line of a well-formed report: when it starts with one of the three
    keys, it states a value for that field. *)
Definition well_formed_line (raw : string) : bool :=
  if is_leap_line raw then is_some (leap_of raw)
  else if is_stratum_line raw then is_some (stratum_of raw)
  else if is_offset_line raw then is_some (offset_of raw)
  else true.

Definition well_formed (text : string) : bool :=
  forallb well_formed_line (splitlines text).

(** The value the report states for a field: the one of the last line that
    starts with its key; [None] when there is no such line. *)
Definition stated {A : Type} (is_line : string -> bool) (value : string -> option A)
  (ls : list string) : option A :=
  match last_opt (filter is_line ls) with
  | Some raw => value raw
  | None => None
  end.

(** [a], or [b] when [a] is absent. *)
Definition or_else {A : Type} (a b : option A) : option A :=
  match a with
  | Some x => Some x
  | None => b
  end.

End StatedFields.

(** * Further properties: definitions *)

(** ** Lines of a tracking report *)

(** A line that makes [parse_tracking] raise: it starts with [Leap status]
    or [Stratum] once stripped, and holds no colon. *)
Definition lacks_colon (raw : string) : bool :=
  (startswith "Leap status" (strip raw) || startswith "Stratum" (strip raw))
  && negb (contains ":" (strip raw)).

(** Some line starts with [key] once stripped. *)
Definition has_key (key : string) (ls : list string) : bool :=
  existsb (fun raw => startswith key (strip raw)) ls.

(** ** The settings of the Notifier *)



(** ** The lines [_head] keeps *)

Definition nonblank_lines (text : string) : list string :=
  filter (fun l => negb (String.eqb (strip l) "")) (splitlines text).

(** The text the fix-status command produced, as [run_gps_status] reads it. *)
Definition gps_output (cp : CompletedProcess) : string := stdout cp ++ stderr cp.

(** The receiver tool is reported missing. *)
Definition tool_missing (cp : CompletedProcess) : bool :=
  (returncode cp =? 127) || contains "gpspipe-not-found" (stderr cp).

(** ** A second pass in which both commands fail *)


(** ** A fix report on the equator *)

(** The state after a report at latitude 45.5, longitude -9.25. *)
Definition north_state : GpsState :=
  mkGpsState true 1 (JInt 3) JNull
             (JFloat (S754_finite false 6403555720167424 (-47)))
             (JFloat (S754_finite true 5207287050764288 (-49))).

Definition equator_report : string :=
  dq "{'class':'TPV','mode':3,'lat':0.0,'lon':-9.5}".

(** What the report decodes to. *)
Definition equator_record : json :=
  JObj [("class", JStr "TPV"); ("mode", JInt 3);
        ("lat", JFloat (S754_zero false));
        ("lon", JFloat (S754_finite true 5348024557502464 (-49)))].

(** The state after the report: the longitude is -9.5, the latitude is
    still 45.5. *)
Definition equator_state : GpsState :=
  mkGpsState true 2 (JInt 3) JNull
             (JFloat (S754_finite false 6403555720167424 (-47)))
             (JFloat (S754_finite true 5348024557502464 (-49))).

(** * The dashboard ([src/app.py]) *)
Module Dashboard.

(** What a handler can raise: a missing key of a [dict], or whatever the
    database driver raises inside [q]. *)
Inductive failure : Type :=
| KeyError (key : string)
| DatabaseError (msg : string).

Inductive outcome (A : Type) : Type :=
| Returns (a : A)
| Raises (e : failure).
Arguments Returns {A} a.
Arguments Raises {A} e.

Definition SAFE_WINDOWS : list (string * string) :=
  [("24h", "24 hours"); ("14d", "14 days"); ("90d", "90 days")].

Definition SAFE_INTERVALS : list (string * string) :=
  [("5min", "5 minutes"); ("1h", "1 hour"); ("1d", "1 day")].

(** [d.get(key)] on a [dict] of strings, in insertion order. *)
Fixpoint dict_get (key : string) (d : list (string * string)) : option string :=
  match d with
  | [] => None
  | (k, v) :: rest => if String.eqb k key then Some v else dict_get key rest
  end.

(** [key in d] *)
Definition dict_mem (key : string) (d : list (string * string)) : bool :=
  match dict_get key d with
  | Some _ => true
  | None => false
  end.

(** [d[key]] *)
Definition dict_index (d : list (string * string)) (key : string) : outcome string :=
  match dict_get key d with
  | Some v => Returns v
  | None => Raises (KeyError key)
  end.

(** [request.args.get(key, default)]: the first value given for [key] in
    the query string. *)
Definition args_get (args : list (string * string)) (key default : string) : string :=
  match dict_get key args with
  | Some v => v
  | None => default
  end.

(** A row of the aggregate query, with [bucket] already in ISO format, and
    the first row of the latest-sample query, with [ts] in ISO format. *)
Record OffsetRow : Type := mkOffsetRow {
  bucket : string;
  avg_offset : option float;
  p95_abs_offset : option float;
  max_abs_offset : option float
}.

Record LatestRow : Type := mkLatestRow {
  latest_ts : string;
  latest_offset : option float;
  latest_stratum : option Z;
  latest_total_sources : option Z;
  latest_leap_status : option string;
  latest_gps_mode : option string
}.

(** The two statements [q] is called with, with the values bound to their
    placeholders. *)
Inductive query : Type :=
| AggregateQuery (interval_human window_human : string)
| LatestQuery.

(** What the database does with a statement: it gives rows, or the driver
    raises. *)
Inductive fetched (A : Type) : Type :=
| Rows (rows : list A)
| DriverError (msg : string).
Arguments Rows {A} rows.
Arguments DriverError {A} msg.

(** The database behind [q], statement by statement. *)
Record Database : Type := mkDatabase {
  aggregate_rows : string -> string -> fetched OffsetRow;
  latest_rows : fetched LatestRow
}.

(** The entries of the list [aggregate_offset] returns. *)
Record OffsetPoint : Type := mkOffsetPoint {
  point_ts : string;
  point_avg : option float;
  point_p95 : option float;
  point_max : option float
}.

(** The body and the status of a response. *)
Inductive body : Type :=
| BadParams
| Points (data : list OffsetPoint)
| Empty
| Latest (row : LatestRow).

Definition response : Type := (body * Z)%type.

(** A handler returns or raises, and leaves the list of the statements it
    sent to the database, oldest first. *)
Definition handler (A : Type) : Type := (outcome A * list query)%type.

(** [q(sql, args)] for each of the two statements: an exception of the
    driver is not handled. *)
Definition q_aggregate (db : Database) (interval_human window_human : string)
  : handler (list OffsetRow) :=
  (match aggregate_rows db interval_human window_human with
   | Rows rows => Returns rows
   | DriverError msg => Raises (DatabaseError msg)
   end,
   [AggregateQuery interval_human window_human]).

Definition q_latest (db : Database) : handler (list LatestRow) :=
  (match latest_rows db with
   | Rows rows => Returns rows
   | DriverError msg => Raises (DatabaseError msg)
   end,
   [LatestQuery]).

Definition point_of (r : OffsetRow) : OffsetPoint :=
  mkOffsetPoint (bucket r) (avg_offset r) (p95_abs_offset r) (max_abs_offset r).

(** [aggregate_offset(window_human, interval_human)]: the placeholders are
    bound in the order interval, window. *)
Definition aggregate_offset (db : Database) (window_human interval_human : string)
  : handler (list OffsetPoint) :=
  match q_aggregate db interval_human window_human with
  | (Returns rows, sent) => (Returns (map point_of rows), sent)
  | (Raises e, sent) => (Raises e, sent)
  end.

Definition api_offset (db : Database) (args : list (string * string))
  : handler response :=
  let window := args_get args "window" "24h" in
  let interval := args_get args "interval" "5min" in
  if negb (dict_mem window SAFE_WINDOWS) || negb (dict_mem interval SAFE_INTERVALS)
  then (Returns (BadParams, 400), [])
  else
    match dict_index SAFE_WINDOWS window with
    | Raises e => (Raises e, [])
    | Returns window_human =>
        match dict_index SAFE_INTERVALS interval with
        | Raises e => (Raises e, [])
        | Returns interval_human =>
            match aggregate_offset db window_human interval_human with
            | (Returns data, sent) => (Returns (Points data, 200), sent)
            | (Raises e, sent) => (Raises e, sent)
            end
        end
    end.

Definition api_latest (db : Database) : handler response :=
  match q_latest db with
  | (Returns [], sent) => (Returns (Empty, 200), sent)
  | (Returns (r :: _), sent) => (Returns (Latest r, 200), sent)
  | (Raises e, sent) => (Raises e, sent)
  end.

End Dashboard.
(** * Checked properties *)

(** ** Comparison of floats *)

Lemma SFcompare_antisym (x y : float) :
  SFcompare x y = option_map CompOpp (SFcompare y x).
Proof.
  destruct x as [sx|sx| |sx mx ex], y as [sy|sy| |sy my ey]; simpl;
    try reflexivity;
    try (destruct sx; reflexivity);
    try (destruct sy; reflexivity);
    try (destruct sx, sy; reflexivity).
  f_equal.
  rewrite (Z.compare_antisym ey ex).
  rewrite !Pos.compare_cont_spec. simpl.
  rewrite (Pos.compare_antisym my mx).
  destruct sx, sy; try reflexivity;
    destruct (ey ?= ex); simpl; try reflexivity;
    destruct (my ?= mx)%positive; reflexivity.
Qed.

Lemma SFcompare_not_nan (x y : float) :
  is_nan x = false -> is_nan y = false -> exists c, SFcompare x y = Some c.
Proof.
  destruct x, y; simpl; intros; try discriminate; eauto.
Qed.

(** Away from NaN, "not above" is "at most". *)
Lemma not_gt_le (x y : float) :
  is_nan x = false -> is_nan y = false ->
  negb (float_gt x y) = SFleb x y.
Proof.
  intros Hx Hy. unfold float_gt, SFltb, SFleb.
  rewrite (SFcompare_antisym x y).
  destruct (SFcompare_not_nan y x Hy Hx) as [c ->].
  destruct c; reflexivity.
Qed.

Lemma float_abs_not_nan (x : float) : is_nan x = false -> is_nan (float_abs x) = false.
Proof. destruct x; simpl; congruence. Qed.

(** ** The health evaluation (C1) *)
Section HealthEvaluation.
Context {RT : PyRuntime}.
Variable cfg : Config.

Lemma append_if_entry (c : bool) (l : list string) (text : string) :
  append_if c l text = (l ++ entry c text)%list.
Proof. destruct c; simpl; [reflexivity | now rewrite app_nil_r]. Qed.

Lemma leap_bad_normal (leap : option string) : leap_bad leap = negb (leap_normal leap).
Proof. destruct leap; reflexivity. Qed.

Lemma stratum_bad_within (s : option Z) : stratum_bad cfg s = negb (stratum_within cfg s).
Proof. destruct s; simpl; [apply Z.ltb_antisym | reflexivity]. Qed.

Lemma offset_bad_not_above (o : option float) :
  offset_bad cfg o = negb (offset_not_above cfg o).
Proof. destruct o; simpl; [now rewrite negb_involutive | reflexivity]. Qed.

Lemma health_problems_entries (tracking : Tracking) (sources : Sources) (gps_ok : bool) :
  health_problems cfg tracking sources gps_ok =
    (entry (negb (leap_normal (leap_status tracking))) (leap_text (leap_status tracking))
     ++ entry (negb (stratum_within cfg (stratum tracking))) (stratum_text cfg (stratum tracking))
     ++ entry (negb (offset_not_above cfg (last_offset_sec tracking)))
              (offset_text cfg (last_offset_sec tracking))
     ++ entry (negb (has_selected sources)) no_selected_text
     ++ entry (total_sources sources =? 0) no_sources_text
     ++ entry (negb gps_ok) no_fix_text)%list.
Proof.
  unfold health_problems.
  rewrite !append_if_entry, leap_bad_normal, stratum_bad_within, offset_bad_not_above.
  simpl. now rewrite <- !app_assoc.
Qed.

(** C1 (amended).  For every tracking sample, sources summary with a
    count that is not negative, fix status and thresholds: the verdict is
    [ok] exactly when the leap status is present and contains [Normal], the
    stratum is present and at most the maximum, the offset is present and
    its absolute value is not above the maximum, a source is selected,
    the count of sources is positive and there is a fix; the problems are
    one entry per violated condition in the order leap, stratum, offset,
    no selected source, no sources, no fix; the text of the verdict ends
    with the detail of all fields whatever the outcome; and when neither
    the offset nor the maximum is a NaN, "not above" is "at most". *)
Theorem health_verdict_decision
  (tracking : Tracking) (sources : Sources) (gps_ok : bool) (gps_summary : string) :
  0 <= total_sources sources ->
  fst (health_verdict cfg tracking sources gps_ok gps_summary)
  = leap_normal (leap_status tracking)
    && stratum_within cfg (stratum tracking)
    && offset_not_above cfg (last_offset_sec tracking)
    && has_selected sources
    && (0 <? total_sources sources)
    && gps_ok
  /\ health_problems cfg tracking sources gps_ok
     = (entry (negb (leap_normal (leap_status tracking)))
              (leap_text (leap_status tracking))
        ++ entry (negb (stratum_within cfg (stratum tracking)))
                 (stratum_text cfg (stratum tracking))
        ++ entry (negb (offset_not_above cfg (last_offset_sec tracking)))
                 (offset_text cfg (last_offset_sec tracking))
        ++ entry (negb (has_selected sources)) no_selected_text
        ++ entry (negb (0 <? total_sources sources)) no_sources_text
        ++ entry (negb gps_ok) no_fix_text)%list
  /\ snd (health_verdict cfg tracking sources gps_ok gps_summary)
     = (if fst (health_verdict cfg tracking sources gps_ok gps_summary)
        then "OK | " ++ join " | " (health_detail cfg tracking sources gps_summary)
        else join " | " (health_problems cfg tracking sources gps_ok) ++ " || "
             ++ join " | " (health_detail cfg tracking sources gps_summary))
  /\ (forall x : float,
         last_offset_sec tracking = Some x ->
         is_nan x = false -> is_nan (MAX_ABS_OFFSET_SEC cfg) = false ->
         offset_not_above cfg (last_offset_sec tracking)
         = offset_within cfg (last_offset_sec tracking)).
Proof.
  intros Htotal.
  assert (Hzero : (total_sources sources =? 0) = negb (0 <? total_sources sources)).
  { destruct (Z.eqb_spec (total_sources sources) 0) as [->|Hne]; [reflexivity|].
    symmetry. apply negb_false_iff. apply Z.ltb_lt. lia. }
  pose proof (health_problems_entries tracking sources gps_ok) as Hp.
  rewrite Hzero in Hp.
  repeat split.
  - unfold health_verdict. rewrite Hp.
    destruct (leap_normal (leap_status tracking)),
             (stratum_within cfg (stratum tracking)),
             (offset_not_above cfg (last_offset_sec tracking)),
             (has_selected sources),
             (0 <? total_sources sources),
             gps_ok; reflexivity.
  - exact Hp.
  - unfold health_verdict.
    destruct (health_problems cfg tracking sources gps_ok); reflexivity.
  - intros x Hx Hnx Hnm. rewrite Hx. simpl.
    apply not_gt_le; [now apply float_abs_not_nan | exact Hnm].
Qed.

End HealthEvaluation.


Lemma health_verdict_decision_witness :
0 <= total_sources sample_sources
/\ fst (health_verdict default_config sample_tracking sample_sources true "GPS(TPV): mode=3D fix")
   = true.
Proof.
assert (H : 0 <= total_sources sample_sources) by (simpl; lia).
split; [exact H|].
exact (proj1 (health_verdict_decision default_config sample_tracking sample_sources
                true "GPS(TPV): mode=3D fix" H)).
Defined.

Lemma nan_offset_counterexample :
parse_tracking (lines ["Leap status: Normal"; "Stratum: 2"; "Last offset: nan seconds"])
= Ok nan_tracking
/\ fst (health_verdict default_config nan_tracking sample_sources true "GPS(TPV): mode=3D fix")
   = true
/\ offset_within default_config (last_offset_sec nan_tracking) = false.
Proof. repeat split; vm_compute; reflexivity. Qed.

(** ** The tracking parser on lines without a colon (C2) *)
Section TrackingWithoutColon.
Context {RT : PyRuntime}.

(** C2.  A [Leap status] line or a [Stratum] line that has no colon makes
    [parse_tracking] raise [IndexError]; only the [Last offset] branch
    turns such a line into an absent field, as it does with a value that
    does not parse. *)
Theorem parse_tracking_without_colon :
  parse_tracking "Leap status Normal" = Raise IndexError
  /\ parse_tracking "Stratum 2" = Raise IndexError
  /\ parse_tracking (lines ["Last offset 0.002 seconds"; "Stratum: two";
                            "Leap status: Normal"])
     = Ok (mkTracking (Some "Normal") None None).
Proof. repeat split; reflexivity. Qed.

End TrackingWithoutColon.

(** ** The sources parser (C6) *)

Lemma contains_unfold (p s : string) :
  contains p s
  = startswith p s
    || match s with
       | EmptyString => false
       | String _ s' => contains p s'
       end.
Proof. destruct s; reflexivity. Qed.

Lemma contains_tail (c : ascii) (p s : string) :
  contains (String c p) s = true -> contains p s = true.
Proof.
  induction s as [|a s IH]; simpl.
  - discriminate.
  - intros H. apply orb_true_iff in H. destruct H as [H|H].
    + apply andb_true_iff in H. destruct H as [_ H].
      assert (Hp : contains p s = true).
      { rewrite contains_unfold, H. reflexivity. }
      rewrite Hp. apply orb_true_r.
    + rewrite (IH H). apply orb_true_r.
Qed.

Lemma is_selected_row_short (s : string) :
  is_selected_row s = startswith "^*" s || contains "* " s.
Proof.
  unfold is_selected_row.
  destruct (contains " ^* " s) eqn:H.
  - apply contains_tail in H. apply contains_tail in H.
    rewrite H. now rewrite !orb_true_r.
  - now rewrite orb_false_r.
Qed.

Lemma last_opt_app (A : Type) (l : list A) (x : A) : last_opt (l ++ [x])%list = Some x.
Proof.
  induction l as [|a l IH]; [reflexivity|].
  simpl. destruct (l ++ [x])%list eqn:E; [destruct l; discriminate | exact IH].
Qed.

Lemma last_opt_cons (A : Type) (x : A) (l : list A) :
  last_opt (x :: l) = match last_opt l with
                      | Some y => Some y
                      | None => Some x
                      end.
Proof.
  revert x. induction l as [|a l IH]; intros x; [reflexivity|].
  change (last_opt (x :: a :: l)) with (last_opt (a :: l)).
  rewrite IH. destruct (last_opt l); reflexivity.
Qed.

(** The loop of [parse_sources] from any state. *)
Lemma sources_loop (ls : list string) (acc : Sources) :
  fold_left sources_line ls acc
  = mkSources
      (has_selected acc
       || existsb is_selected_row
            (filter (fun s => negb (is_skipped_row s)) (map strip ls)))
      (match last_opt (filter is_selected_row
                         (filter (fun s => negb (is_skipped_row s)) (map strip ls))) with
       | Some r => Some r
       | None => selected_line acc
       end)
      (total_sources acc
       + Z.of_nat (List.length
                     (filter (fun s => negb (is_skipped_row s)) (map strip ls)))).
Proof.
  revert acc. induction ls as [|raw ls IH]; intros acc.
  - destruct acc; simpl. now rewrite orb_false_r, Z.add_0_r.
  - cbn [fold_left map filter]. rewrite IH. unfold sources_line.
    destruct (is_skipped_row (strip raw)) eqn:Hs; cbn [negb]; [reflexivity|].
    cbn [filter existsb].
    destruct (is_selected_row (strip raw)) eqn:Hsel;
      cbn [has_selected selected_line total_sources orb].
    + rewrite last_opt_cons, orb_true_r. f_equal.
      * destruct (last_opt (filter is_selected_row
                   (filter (fun s => negb (is_skipped_row s)) (map strip ls))));
          reflexivity.
      * cbn [List.length]. lia.
    + f_equal. cbn [List.length]. lia.
Qed.

(** C6 (amended).  For every sources report: [totalSources] counts the
    lines that are neither blank nor a header; a row is selected exactly
    when it starts with [^*] or holds an asterisk followed by a space (a
    [^*] field between spaces is such a row); [hasSelectedSource] tells
    whether a row is selected and [selectedSourceLine] is the last selected
    row; when exactly one row is selected, that row, stripped of the
    whitespace around it, is returned; with no data row the count is zero
    and no source is selected. *)
Theorem parse_sources_summary (text : string) :
  total_sources (parse_sources text) = Z.of_nat (List.length (data_rows text))
  /\ has_selected (parse_sources text) = existsb is_selected_row (data_rows text)
  /\ selected_line (parse_sources text)
     = last_opt (filter is_selected_row (data_rows text))
  /\ (forall s : string,
         is_selected_row s = startswith "^*" s || contains "* " s)
  /\ (forall r : string,
         filter is_selected_row (data_rows text) = [r] ->
         selected_line (parse_sources text) = Some r
         /\ In r (map strip (splitlines text)))
  /\ (data_rows text = [] ->
      total_sources (parse_sources text) = 0
      /\ has_selected (parse_sources text) = false).
Proof.
  unfold parse_sources. rewrite sources_loop. fold (data_rows text).
  cbn [has_selected selected_line total_sources orb Z.add].
  assert (Hsel : match last_opt (filter is_selected_row (data_rows text)) with
                 | Some r => Some r
                 | None => None
                 end = last_opt (filter is_selected_row (data_rows text))).
  { destruct (last_opt (filter is_selected_row (data_rows text))); reflexivity. }
  rewrite Hsel.
  repeat split.
  - apply is_selected_row_short.
  - rewrite H. reflexivity.
  - assert (Hin : In r (filter is_selected_row (data_rows text)))
      by (rewrite H; left; reflexivity).
    apply filter_In in Hin. destruct Hin as [Hin _].
    unfold data_rows in Hin. apply filter_In in Hin. tauto.
  - rewrite H. reflexivity.
  - rewrite H. reflexivity.
Qed.

(** A reference clock that is the selected source is marked [#*]: the code
    selects the row, the words of the specification do not. *)
Lemma refclock_row_counterexample :
  is_selected_row "#* GPS0                          0   4   377    11   -479ns[ -621ns] +/-  134ns"
  = true
  /\ marker_row "#* GPS0                          0   4   377    11   -479ns[ -621ns] +/-  134ns"
     = false
  /\ parse_sources
       (lines ["MS Name/IP address         Stratum Poll Reach LastRx Last sample";
               "   #* GPS0                          0   4   377    11   -479ns[ -621ns] +/-  134ns  "])
     = mkSources true
         (Some "#* GPS0                          0   4   377    11   -479ns[ -621ns] +/-  134ns")
         1.
Proof. repeat split; reflexivity. Qed.

(** ** The fix-status parser (C4) *)
Section FixStatusParser.
Context {RT : PyRuntime}.

Lemma startswith_brace (line : string) :
  startswith "{" line = true -> exists s, line = String "{" s.
Proof.
  destruct line as [|c s]; cbn [startswith]; [discriminate|].
  intros H. apply andb_true_iff in H. destruct H as [H _].
  apply Ascii.eqb_eq in H. subst c. eauto.
Qed.

Lemma decode_line_object (raw : string) (obj : json) :
  decode_line raw = Some obj -> exists ms, obj = JObj ms.
Proof.
  unfold decode_line.
  destruct (String.eqb (strip raw) ""); cbn [orb]; [discriminate|].
  destruct (startswith "{" (strip raw)) eqn:Hb; cbn [negb]; [|discriminate].
  destruct (startswith_brace _ Hb) as [s ->].
  apply json_loads_object.
Qed.

Lemma gps_line_skipped (st : GpsState) (raw : string) :
  decode_line raw = None -> gps_line st raw = Ok st.
Proof.
  unfold decode_line, gps_line.
  destruct (String.eqb (strip raw) "" || negb (startswith "{" (strip raw)));
    [reflexivity|].
  now intros ->.
Qed.

Lemma gps_line_decoded (st : GpsState) (raw : string) (obj : json) :
  decode_line raw = Some obj ->
  gps_line st raw = if is_tpv obj then gps_tpv st obj else Ok st.
Proof.
  intros H. destruct (decode_line_object raw obj H) as [ms ->].
  revert H. unfold decode_line, gps_line.
  destruct (String.eqb (strip raw) "" || negb (startswith "{" (strip raw)));
    [discriminate|].
  intros ->. unfold is_tpv, member. simpl.
  destruct (assoc "class" ms); reflexivity.
Qed.

(** What one fix report does to the state. *)
Lemma gps_tpv_cases (st : GpsState) (ms : list (string * json)) :
  let mode := member "mode" (JObj ms) in
  if is_none mode then
    exists st', gps_tpv st (JObj ms) = Ok st'
                /\ tpv_count st' = tpv_count st + 1
                /\ last_mode st' = last_mode st
                /\ has_fix st' = has_fix st
  else if is_number mode then
    exists st', gps_tpv st (JObj ms) = Ok st'
                /\ tpv_count st' = tpv_count st + 1
                /\ last_mode st' = mode
                /\ has_fix st' = at_least_two mode
  else exists ty, gps_tpv st (JObj ms) = Raise (TypeError ty).
Proof.
  unfold gps_tpv, member. simpl.
  destruct (assoc "mode" ms) as [mode|]; simpl.
  - destruct mode; simpl; eauto;
      destruct (assoc "time" ms), (assoc "lat" ms), (assoc "lon" ms); simpl; eauto 10.
  - destruct (assoc "time" ms), (assoc "lat" ms), (assoc "lon" ms); simpl; eauto 10.
Qed.

Lemma tpv_records_cons (raw : string) (ls : list string) :
  tpv_records (raw :: ls)
  = (match decode_line raw with
     | Some obj => if is_tpv obj then [obj] else []
     | None => []
     end ++ tpv_records ls)%list.
Proof.
  unfold tpv_records. cbn [flat_map]. rewrite filter_app. f_equal.
  destruct (decode_line raw) as [obj|]; [|reflexivity].
  simpl. destruct (is_tpv obj); reflexivity.
Qed.

Lemma modes_cons (raw : string) (ls : list string) :
  modes (raw :: ls)
  = (match decode_line raw with
     | Some obj =>
         if is_tpv obj && negb (is_none (member "mode" obj))
         then [member "mode" obj] else []
     | None => []
     end ++ modes ls)%list.
Proof.
  unfold modes. rewrite tpv_records_cons, map_app, filter_app. f_equal.
  destruct (decode_line raw) as [obj|]; [|reflexivity].
  destruct (is_tpv obj); [|reflexivity].
  simpl. destruct (is_none (member "mode" obj)); reflexivity.
Qed.

(** The loop of [parse_gpspipe_output] from any state. *)
Lemma gps_loop (ls : list string) (st : GpsState) :
  if forallb is_number (modes ls) then
    exists st', for_each gps_line ls st = Ok st'
                /\ tpv_count st' = tpv_count st + Z.of_nat (List.length (tpv_records ls))
                /\ last_mode st' = match last_opt (modes ls) with
                                   | Some m => m
                                   | None => last_mode st
                                   end
                /\ has_fix st' = match last_opt (modes ls) with
                                 | Some m => at_least_two m
                                 | None => has_fix st
                                 end
  else exists ty, for_each gps_line ls st = Raise (TypeError ty).
Proof.
  revert st. induction ls as [|raw ls IH]; intros st.
  - simpl. exists st. repeat split. lia.
  - rewrite modes_cons, tpv_records_cons. cbn [for_each].
    destruct (decode_line raw) as [obj|] eqn:Hd.
    + rewrite (gps_line_decoded st raw obj Hd).
      destruct (decode_line_object raw obj Hd) as [ms ->].
      destruct (is_tpv (JObj ms)); cbn [andb app List.length].
      * pose proof (gps_tpv_cases st ms) as Hc. cbv zeta in Hc.
        destruct (is_none (member "mode" (JObj ms))); cbn [negb app].
        -- destruct Hc as (st1 & -> & Hn & Hm & Hf).
           specialize (IH st1).
           destruct (forallb is_number (modes ls)); [|exact IH].
           destruct IH as (st' & -> & Hn' & Hm' & Hf').
           exists st'. rewrite Hn', Hm', Hf', Hn, Hm, Hf.
           repeat split. lia.
        -- cbn [forallb].
           destruct (is_number (member "mode" (JObj ms))); cbn [andb].
           ++ destruct Hc as (st1 & -> & Hn & Hm & Hf).
              specialize (IH st1). rewrite last_opt_cons.
              destruct (forallb is_number (modes ls)); [|exact IH].
              destruct IH as (st' & -> & Hn' & Hm' & Hf').
              exists st'. rewrite Hn', Hm', Hf', Hn, Hm, Hf.
              repeat split; [lia | |]; destruct (last_opt (modes ls)); reflexivity.
           ++ destruct Hc as (ty & ->). eauto.
      * specialize (IH st).
        destruct (forallb is_number (modes ls)); exact IH.
    + rewrite (gps_line_skipped st raw Hd). cbn [app List.length].
      specialize (IH st).
      destruct (forallb is_number (modes ls)); exact IH.
Qed.

Lemma modes_skip_last (ls : list string) (junk : string) :
  decode_line junk = None -> modes (ls ++ [junk]) = modes ls.
Proof.
  intros H. unfold modes, tpv_records.
  rewrite flat_map_app. simpl. rewrite H. simpl. now rewrite app_nil_r.
Qed.

Lemma tpv_records_skip_last (ls : list string) (junk : string) :
  decode_line junk = None -> tpv_records (ls ++ [junk]) = tpv_records ls.
Proof.
  intros H. unfold tpv_records.
  rewrite flat_map_app. simpl. rewrite H. simpl. now rewrite app_nil_r.
Qed.

(** C4 (amended).  For every fix-status stream in which each mode carried
    by a fix report is a number: the parser returns; lines that do not
    decode are skipped; only fix reports are counted; [lastMode] is the last
    mode value seen (or null when none was seen) and [hasFix] tells whether
    that last mode is at least 2; the summary is empty exactly when no mode
    was seen.  In particular, when the last mode seen is 3 and a line that
    does not decode follows, [hasFix] is true and [lastMode] is 3.  When
    some fix report carries a mode that is a string, an array or an object,
    the parser raises [TypeError]. *)
Theorem parse_gpspipe_output_last_mode (text : string) :
  (forallb is_number (modes (splitlines text)) = true ->
   exists fs : FixStatus,
     parse_gpspipe_output text = Ok fs
     /\ fix_count fs = Z.of_nat (List.length (tpv_records (splitlines text)))
     /\ fix_mode fs = match last_opt (modes (splitlines text)) with
                      | Some m => m
                      | None => JNull
                      end
     /\ fix_ok fs = match last_opt (modes (splitlines text)) with
                    | Some m => at_least_two m
                    | None => false
                    end
     /\ (fix_summary fs = "" <-> modes (splitlines text) = []))
  /\ (forall (ls : list string) (junk : string),
         splitlines text = (ls ++ [junk])%list ->
         decode_line junk = None ->
         forallb is_number (modes ls) = true ->
         last_opt (modes ls) = Some (JInt 3) ->
         exists fs : FixStatus,
           parse_gpspipe_output text = Ok fs
           /\ fix_ok fs = true /\ fix_mode fs = JInt 3
           /\ fix_count fs = Z.of_nat (List.length (tpv_records ls)))
  /\ (forallb is_number (modes (splitlines text)) = false ->
      exists ty : string, parse_gpspipe_output text = Raise (TypeError ty)).
Proof.
  assert (Hmain :
    forallb is_number (modes (splitlines text)) = true ->
    exists fs : FixStatus,
      parse_gpspipe_output text = Ok fs
      /\ fix_count fs = Z.of_nat (List.length (tpv_records (splitlines text)))
      /\ fix_mode fs = match last_opt (modes (splitlines text)) with
                       | Some m => m
                       | None => JNull
                       end
      /\ fix_ok fs = match last_opt (modes (splitlines text)) with
                     | Some m => at_least_two m
                     | None => false
                     end
      /\ (fix_summary fs = "" <-> modes (splitlines text) = [])).
  { intros Hnum. unfold parse_gpspipe_output.
    pose proof (gps_loop (splitlines text) gps_init) as H. rewrite Hnum in H.
    destruct H as (st & -> & Hn & Hm & Hf). cbn [res_bind].
    exists (gps_result st). unfold gps_result.
    destruct (modes (splitlines text)) as [|m0 ms] eqn:Hmodes.
    - cbn [last_opt] in Hm, Hf. cbn [gps_init last_mode has_fix] in Hm, Hf.
      rewrite Hm. cbn [is_none negb fix_count fix_mode fix_ok fix_summary last_opt].
      rewrite Hn. repeat split; intros; reflexivity.
    - assert (Hlast : exists m, last_opt (m0 :: ms) = Some m /\ is_none m = false).
      { assert (Hall : forall m, In m (m0 :: ms) -> is_none m = false).
        { intros m Hin. rewrite <- Hmodes in Hin. unfold modes in Hin.
          apply filter_In in Hin. destruct Hin as [_ Hin].
          now apply negb_true_iff in Hin. }
        clear - Hall. revert m0 Hall. induction ms as [|a ms IH]; intros m0 Hall.
        - exists m0. split; [reflexivity | apply Hall; left; reflexivity].
        - destruct (IH a) as (m & Hm & Hn).
          + intros m Hin. apply Hall. right. exact Hin.
          + exists m. split; [exact Hm | exact Hn]. }
      destruct Hlast as (m & Hl & Hnone). rewrite Hl in Hm, Hf |- *.
      rewrite Hm, Hnone. cbn [negb fix_count fix_mode fix_ok fix_summary].
      rewrite Hn, Hf. repeat split; [|discriminate].
      unfold gps_summary_of. cbn [append]. discriminate. }
  split; [exact Hmain|]. split.
  - intros ls junk Hsplit Hjunk Hnum Hlast.
    rewrite Hsplit in Hmain.
    rewrite (modes_skip_last ls junk Hjunk), (tpv_records_skip_last ls junk Hjunk) in Hmain.
    destruct (Hmain Hnum) as (fs & Hfs & Hc & Hm & Hf & _).
    exists fs. rewrite Hlast in Hm, Hf. repeat split; assumption.
  - intros Hnum. unfold parse_gpspipe_output.
    pose proof (gps_loop (splitlines text) gps_init) as H. rewrite Hnum in H.
    destruct H as (ty & ->). exists ty. reflexivity.
Qed.

End FixStatusParser.

(** A fix report whose mode is the string ["3"]: the comparison with 2
    raises. *)
Lemma string_mode_counterexample :
  parse_gpspipe_output (dq "{'class':'TPV','mode':'3'}") = Raise (TypeError "str").
Proof. vm_compute. reflexivity. Qed.

(** The last fix report has mode 3 and noise follows. *)
Example parse_gpspipe_output_trailing_noise :
  parse_gpspipe_output
    (lines [dq "{'class':'TPV','mode':1}"; dq "{'class':'TPV','mode':3}";
            dq "{'class':'TPV','mo"])
  = Ok (mkFixStatus true "GPS(TPV): mode=3D fix" 2 (JInt 3)).
Proof. vm_compute. reflexivity. Qed.

(** ** Running the monitor *)
Section MonitorRuns.
Context {RT : PyRuntime}.
Variable cfg : Config.
Variable world : World.

Lemma run_ssh_eq (cmd : string) (timeout : Z) (t : trace) :
  run_ssh cfg world cmd timeout t
  = match remote world t cmd timeout with
    | Completed cp => (Ok cp, EvSsh cmd timeout :: t)
    | TimedOut =>
        (Raise (TimeoutExpired (full_cmd cfg cmd) timeout),
         EvLog ERROR ("SSH TIMEOUT after " ++ str_of_Z timeout ++ "s: cmd=" ++ cmd)
         :: EvSsh cmd timeout :: t)
    | Failed msg => (Raise (OSError msg), EvSsh cmd timeout :: t)
    end.
Proof.
  unfold run_ssh, bind, ask, emit, log, emit, raise, ret.
  destruct (remote world t cmd timeout); reflexivity.
Qed.

Lemma run_gps_status_eq (t : trace) :
  run_gps_status cfg world t
  = match remote world t (gps_remote_cmd cfg) (CGPS_TIMEOUT_SEC cfg + 3) with
    | Completed cp =>
        gps_status_of cp
          (EvSsh (gps_remote_cmd cfg) (CGPS_TIMEOUT_SEC cfg + 3) :: t)
    | TimedOut =>
        (Ok (false, "gpspipe timed out"),
         EvLog ERROR ("SSH TIMEOUT after " ++ str_of_Z (CGPS_TIMEOUT_SEC cfg + 3)
                      ++ "s: cmd=" ++ gps_remote_cmd cfg)
         :: EvSsh (gps_remote_cmd cfg) (CGPS_TIMEOUT_SEC cfg + 3) :: t)
    | Failed msg =>
        (Raise (OSError msg),
         EvSsh (gps_remote_cmd cfg) (CGPS_TIMEOUT_SEC cfg + 3) :: t)
    end.
Proof.
  unfold run_gps_status, bind, try_except. rewrite run_ssh_eq.
  destruct (remote world t (gps_remote_cmd cfg) (CGPS_TIMEOUT_SEC cfg + 3));
    reflexivity.
Qed.

(** *** The receiver tool is missing (C7) *)

(** C7.  When the fix-status command completes with exit code 127, or with
    the marker [gpspipe-not-found] on its error stream, [run_gps_status]
    returns [hasFix = false] with the summary "gpspipe not found on remote
    host" after one warning in the log: it raises nothing, and the output
    of the command is not read, so nothing depends on what the fix-status
    parser would do with it. *)
Theorem run_gps_status_tool_missing (cp : CompletedProcess) (t : trace) :
  remote world t (gps_remote_cmd cfg) (CGPS_TIMEOUT_SEC cfg + 3) = Completed cp ->
  returncode cp = 127 \/ contains "gpspipe-not-found" (stderr cp) = true ->
  run_gps_status cfg world t
  = (Ok (false, "gpspipe not found on remote host"),
     EvLog WARNING "gpspipe binary not found on remote"
     :: EvSsh (gps_remote_cmd cfg) (CGPS_TIMEOUT_SEC cfg + 3) :: t)
  /\ contains "not found" "gpspipe not found on remote host" = true.
Proof.
  intros Hcp Hmissing. split; [|reflexivity].
  rewrite run_gps_status_eq, Hcp. unfold gps_status_of.
  assert (Hc : (returncode cp =? 127) || contains "gpspipe-not-found" (stderr cp) = true).
  { destruct Hmissing as [-> | ->]; [reflexivity | apply orb_true_r]. }
  rewrite Hc. reflexivity.
Qed.


(** *** What a trace records, event by event *)

Lemma ssh_calls_cons (e : event) (t : trace) :
  ssh_calls (e :: t)
  = (ssh_calls t ++ match e with EvSsh c n => [(c, n)] | _ => [] end)%list.
Proof.
  unfold ssh_calls. cbn [rev]. rewrite flat_map_app. cbn [flat_map].
  now rewrite app_nil_r.
Qed.

Lemma notifications_cons (e : event) (t : trace) :
  notifications (e :: t)
  = (notifications t ++ match e with EvNotify s b => [(s, b)] | _ => [] end)%list.
Proof.
  unfold notifications. cbn [rev]. rewrite flat_map_app. cbn [flat_map].
  now rewrite app_nil_r.
Qed.

Lemma inserted_rows_cons (e : event) (t : trace) :
  inserted_rows (e :: t)
  = (inserted_rows t ++ match e with EvDb _ r => [r] | _ => [] end)%list.
Proof.
  unfold inserted_rows. cbn [rev]. rewrite flat_map_app. cbn [flat_map].
  now rewrite app_nil_r.
Qed.

Lemma error_logs_cons (e : event) (t : trace) :
  error_logs (e :: t)
  = (error_logs t ++ match e with EvLog ERROR m => [m] | _ => [] end)%list.
Proof.
  unfold error_logs. cbn [rev]. rewrite flat_map_app. cbn [flat_map].
  now rewrite app_nil_r.
Qed.

Lemma sleeps_cons (e : event) (t : trace) :
  sleeps (e :: t)
  = (match e with EvSleep _ => 1 | _ => 0 end + sleeps t)%nat.
Proof. unfold sleeps. destruct e; reflexivity. Qed.

(** *** [send_email] never raises and is one Notifier call *)

Lemma send_email_run (subject body : string) (t : trace) :
  fst (send_email cfg world subject body t) = Ok tt
  /\ notifications (snd (send_email cfg world subject body t))
     = (notifications t ++ [(subject, body)])%list
  /\ ssh_calls (snd (send_email cfg world subject body t)) = ssh_calls t
  /\ inserted_rows (snd (send_email cfg world subject body t)) = inserted_rows t
  /\ (exists extra : list string,
         error_logs (snd (send_email cfg world subject body t))
         = (error_logs t ++ extra)%list)
  /\ sleeps (snd (send_email cfg world subject body t)) = sleeps t.
Proof.
  unfold send_email, bind, emit, log, emit, ask.
  destruct (negb _); cbn [fst snd].
  - rewrite !notifications_cons, !ssh_calls_cons, !inserted_rows_cons,
      !error_logs_cons, !sleeps_cons.
    cbn [app]. rewrite !app_nil_r. repeat split. eauto.
  - destruct (mail_fault world (EvNotify subject body :: t)); cbn [fst snd];
      rewrite !notifications_cons, !ssh_calls_cons, !inserted_rows_cons,
        !error_logs_cons, !sleeps_cons;
      cbn [app]; rewrite ?app_nil_r; repeat split; eauto.
    exists []. now rewrite app_nil_r.
Qed.

(** *** The events a computation adds *)

Lemma emits_ret (P : event -> Prop) (A : Type) (a : A) : emits_only P (ret a).
Proof. intros t. exists []. split; [reflexivity | constructor]. Qed.

Lemma emits_raise (P : event -> Prop) (A : Type) (e : exn) :
  emits_only P (@raise A e).
Proof. intros t. exists []. split; [reflexivity | constructor]. Qed.

Lemma emits_lift (P : event -> Prop) (A : Type) (r : res A) : emits_only P (lift r).
Proof. intros t. exists []. split; [reflexivity | constructor]. Qed.

Lemma emits_ask (P : event -> Prop) : emits_only P ask.
Proof. intros t. exists []. split; [reflexivity | constructor]. Qed.

Lemma emits_emit (P : event -> Prop) (e : event) : P e -> emits_only P (emit e).
Proof. intros H t. exists [e]. split; [reflexivity | repeat constructor; exact H]. Qed.

Lemma emits_bind (P : event -> Prop) (A B : Type) (m : M A) (k : A -> M B) :
  emits_only P m -> (forall a, emits_only P (k a)) -> emits_only P (bind m k).
Proof.
  intros Hm Hk t. unfold bind.
  destruct (Hm t) as (evs & Hevs & Hall).
  destruct (m t) as [[a|e] t1]; cbn [snd] in Hevs; subst t1.
  - destruct (Hk a (evs ++ t)%list) as (evs' & Hevs' & Hall').
    exists (evs' ++ evs)%list. rewrite Hevs', app_assoc.
    split; [reflexivity | apply Forall_app; split; assumption].
  - exists evs. split; [reflexivity | exact Hall].
Qed.

Lemma emits_try (P : event -> Prop) (A : Type) (m : M A)
  (clauses : exn -> option (M A)) :
  emits_only P m ->
  (forall e handler, clauses e = Some handler -> emits_only P handler) ->
  emits_only P (try_except m clauses).
Proof.
  intros Hm Hc t. unfold try_except.
  destruct (Hm t) as (evs & Hevs & Hall).
  destruct (m t) as [[a|e] t1]; cbn [snd] in Hevs; subst t1.
  - exists evs. split; [reflexivity | exact Hall].
  - destruct (clauses e) as [handler|] eqn:He.
    + destruct (Hc e handler He (evs ++ t)%list) as (evs' & Hevs' & Hall').
      exists (evs' ++ evs)%list. rewrite Hevs', app_assoc.
      split; [reflexivity | apply Forall_app; split; assumption].
    + exists evs. split; [reflexivity | exact Hall].
Qed.

Section Emits.
Variable P : event -> Prop.
Hypothesis P_ssh : forall c n, P (EvSsh c n).
Hypothesis P_log : forall l m, P (EvLog l m).

Lemma emits_run_ssh (cmd : string) (timeout : Z) :
  emits_only P (run_ssh cfg world cmd timeout).
Proof.
  unfold run_ssh. apply emits_bind; [apply emits_ask|]. intros t.
  apply emits_bind; [apply emits_emit, P_ssh|]. intros _.
  destruct (remote world t cmd timeout).
  - apply emits_ret.
  - apply emits_bind; [apply emits_emit, P_log | intros _; apply emits_raise].
  - apply emits_raise.
Qed.

Lemma emits_gps_status_of (cp : CompletedProcess) : emits_only P (gps_status_of cp).
Proof.
  unfold gps_status_of. destruct (_ || _).
  - apply emits_bind; [apply emits_emit, P_log | intros _; apply emits_ret].
  - apply emits_bind; [apply emits_lift|]. intros fs.
    destruct (negb _); apply emits_ret.
Qed.

Lemma emits_run_gps_status : emits_only P (run_gps_status cfg world).
Proof.
  unfold run_gps_status. apply emits_bind.
  - apply emits_try.
    + apply emits_bind; [apply emits_run_ssh | intros cp; apply emits_ret].
    + intros e handler. unfold except_timeout.
      destruct (is_timeout e); [|discriminate].
      intros H. injection H as <-. apply emits_ret.
  - intros [cp|]; [apply emits_gps_status_of | apply emits_ret].
Qed.

Lemma emits_check_ntp_health : emits_only P (check_ntp_health cfg world).
Proof.
  unfold check_ntp_health.
  apply emits_bind; [apply emits_run_ssh|]. intros tr.
  destruct (negb _); [apply emits_ret|].
  apply emits_bind; [apply emits_lift|]. intros tracking.
  apply emits_bind; [apply emits_run_ssh|]. intros sr.
  destruct (negb _); [apply emits_ret|].
  apply emits_bind; [apply emits_run_gps_status | intros gps; apply emits_ret].
Qed.

Hypothesis P_db :
  forall tracking sources gps_ok gps_summary,
    P (EvDb (POSTGRES_TABLE cfg) (metric_row tracking sources gps_ok gps_summary)).

Lemma emits_db_insert_sample (tracking : Tracking) (sources : Sources)
  (gps_ok : bool) (gps_summary : string) :
  emits_only P (db_insert_sample cfg world tracking sources gps_ok gps_summary).
Proof.
  unfold db_insert_sample. destruct (negb _); [apply emits_ret|].
  apply emits_bind; [apply emits_ask|]. intros t.
  apply emits_bind; [apply emits_emit, P_db|]. intros _.
  destruct (db_fault world t); [apply emits_emit, P_log | apply emits_ret].
Qed.

Lemma emits_persist_body : emits_only P (persist_body cfg world).
Proof.
  unfold persist_body.
  apply emits_bind; [apply emits_run_ssh|]. intros tr.
  apply emits_bind; [apply emits_run_ssh|]. intros sr.
  apply emits_bind; [apply emits_lift|]. intros tracking.
  apply emits_bind; [apply emits_run_gps_status|]. intros gps.
  apply emits_db_insert_sample.
Qed.

Lemma emits_persist_sample : emits_only P (persist_sample cfg world).
Proof.
  unfold persist_sample. apply emits_try; [apply emits_persist_body|].
  intros e handler H. injection H as <-. apply emits_emit, P_log.
Qed.

Hypothesis P_notify : forall s b, P (EvNotify s b).
Hypothesis P_smtp : forall sender receivers s b, P (EvSmtp sender receivers s b).

Lemma emits_send_email (subject body : string) :
  emits_only P (send_email cfg world subject body).
Proof.
  unfold send_email. apply emits_bind; [apply emits_emit, P_notify|]. intros _.
  destruct (negb _); [apply emits_emit, P_log|].
  apply emits_bind; [apply emits_ask|]. intros t.
  apply emits_bind; [apply emits_emit, P_smtp|]. intros _.
  destruct (mail_fault world t); apply emits_emit, P_log.
Qed.

Lemma emits_guarded_check : emits_only P (guarded_check cfg world).
Proof.
  unfold guarded_check. apply emits_try.
  - unfold check_and_act. apply emits_bind; [apply emits_check_ntp_health|].
    intros r. destruct (fst r).
    + apply emits_bind; [apply emits_emit, P_log | intros _; apply emits_persist_sample].
    + apply emits_bind; [apply emits_emit, P_log | intros _; apply emits_send_email].
  - intros e handler. unfold or_except, except_timeout, except_exception.
    destruct (is_timeout e); intros H; injection H as <-;
      (apply emits_bind; [apply emits_emit, P_log | intros _; apply emits_send_email]).
Qed.

End Emits.

(** *** Events that leave an observation unchanged *)

Lemma notifications_app (evs : list event) (t : trace) :
  Forall (fun e => is_notify e = false) evs ->
  notifications (evs ++ t)%list = notifications t.
Proof.
  induction 1 as [|e evs He _ IH]; [reflexivity|].
  cbn [app]. rewrite notifications_cons, IH.
  destruct e; try discriminate; apply app_nil_r.
Qed.

Lemma sleeps_app (evs : list event) (t : trace) :
  Forall (fun e => is_sleep e = false) evs ->
  sleeps (evs ++ t)%list = sleeps t.
Proof.
  induction 1 as [|e evs He _ IH]; [reflexivity|].
  cbn [app]. rewrite sleeps_cons, IH.
  destruct e; try discriminate; reflexivity.
Qed.

Lemma check_ntp_health_quiet (t : trace) :
  notifications (snd (check_ntp_health cfg world t)) = notifications t.
Proof.
  destruct (emits_check_ntp_health (fun e => is_notify e = false)
              (fun _ _ => eq_refl) (fun _ _ => eq_refl) t) as (evs & -> & Hall).
  now apply notifications_app.
Qed.

Lemma persist_body_quiet (t : trace) :
  notifications (snd (persist_body cfg world t)) = notifications t.
Proof.
  destruct (emits_persist_body (fun e => is_notify e = false)
              (fun _ _ => eq_refl) (fun _ _ => eq_refl)
              (fun _ _ _ _ => eq_refl) t) as (evs & -> & Hall).
  now apply notifications_app.
Qed.

Lemma guarded_check_no_sleep (t : trace) :
  sleeps (snd (guarded_check cfg world t)) = sleeps t.
Proof.
  destruct (emits_guarded_check (fun e => is_sleep e = false)
              (fun _ _ => eq_refl) (fun _ _ => eq_refl)
              (fun _ _ _ _ => eq_refl) (fun _ _ => eq_refl)
              (fun _ _ _ _ => eq_refl) t) as (evs & -> & Hall).
  now apply sleeps_app.
Qed.

(** *** The loop boundary *)

(** An exception of the health check is handled by the matching clause. *)
Lemma guarded_check_on_raise (t t' : trace) (e : exn) :
  check_ntp_health cfg world t = (Raise e, t') ->
  guarded_check cfg world t
  = send_email cfg world (alert_subject e) (alert_message cfg e)
      (EvLog ERROR (alert_message cfg e) :: t').
Proof.
  intros H. unfold guarded_check, try_except, check_and_act, bind. rewrite H.
  unfold or_except, except_timeout, except_exception, alert_subject, alert_message.
  destruct (is_timeout e); reflexivity.
Qed.

(** No exception leaves the [try] statement of the loop. *)
Lemma guarded_check_returns (t : trace) : fst (guarded_check cfg world t) = Ok tt.
Proof.
  unfold guarded_check, try_except.
  destruct (check_and_act cfg world t) as [[[]|e] t']; [reflexivity|].
  unfold or_except, except_timeout, except_exception.
  destruct (is_timeout e); unfold bind, log, emit; apply send_email_run.
Qed.

Lemma cycle_eq (t : trace) :
  cycle cfg world t
  = (Ok tt, EvSleep (CHECK_INTERVAL cfg) :: snd (guarded_check cfg world t)).
Proof.
  unfold cycle, bind. pose proof (guarded_check_returns t) as H.
  destruct (guarded_check cfg world t) as [r t']. cbn [fst snd] in *.
  rewrite H. reflexivity.
Qed.

Lemma main_loop_runs (n : nat) (t : trace) :
  fst (main_loop cfg world n t) = Ok tt
  /\ sleeps (snd (main_loop cfg world n t)) = (sleeps t + n)%nat.
Proof.
  revert t. induction n as [|n IH]; intros t.
  - split; [reflexivity | cbn [main_loop ret snd]; lia].
  - cbn [main_loop]. unfold bind. rewrite cycle_eq.
    destruct (IH (EvSleep (CHECK_INTERVAL cfg) :: snd (guarded_check cfg world t)))
      as [Hok Hs].
    split; [exact Hok|].
    rewrite Hs, sleeps_cons, guarded_check_no_sleep. lia.
Qed.

(** *** Faults and the loop (C8) *)

(** C8 (amended).  The loop never ends because of a fault: each of its
    first [n] turns completes, for every [n].  An exception that leaves the
    health check (a transport timeout or any other exception) is handled at
    the loop boundary: the turn completes, the text of the alert is logged
    as an error and the Notifier is called once, with that text.  An
    exception raised in the persistence pass of a healthy turn is handled
    by the handler of that pass: it is logged as an error and the Notifier
    is not called. *)
Theorem loop_survives_faults (n : nat) (t : trace) :
  fst (main_loop cfg world n t) = Ok tt
  /\ sleeps (snd (main_loop cfg world n t)) = (sleeps t + n)%nat
  /\ (forall (e : exn) (t' : trace),
         check_ntp_health cfg world t = (Raise e, t') ->
         fst (cycle cfg world t) = Ok tt
         /\ In (alert_message cfg e) (error_logs (snd (cycle cfg world t)))
         /\ notifications (snd (cycle cfg world t))
            = (notifications t ++ [(alert_subject e, alert_message cfg e)])%list)
  /\ (forall (e : exn) (t' : trace),
         persist_body cfg world t = (Raise e, t') ->
         persist_sample cfg world t = (Ok tt, EvLog ERROR (persist_failed e) :: t')
         /\ notifications (snd (persist_sample cfg world t)) = notifications t).
Proof.
  destruct (main_loop_runs n t) as [Hok Hs].
  split; [exact Hok|]. split; [exact Hs|]. split.
  - intros e t' He. rewrite cycle_eq. cbn [fst snd].
    rewrite (guarded_check_on_raise t t' e He).
    destruct (send_email_run (alert_subject e) (alert_message cfg e)
                (EvLog ERROR (alert_message cfg e) :: t'))
      as (_ & Hn & _ & _ & (extra & Hl) & _).
    split; [reflexivity|]. split.
    + rewrite error_logs_cons, Hl, error_logs_cons.
      apply in_or_app. left. apply in_or_app. left.
      apply in_or_app. right. left. reflexivity.
    + rewrite notifications_cons, Hn, notifications_cons. cbn [app].
      rewrite !app_nil_r.
      pose proof (check_ntp_health_quiet t) as Hq. rewrite He in Hq.
      cbn [snd] in Hq. now rewrite Hq.
  - intros e t' He.
    assert (Hp : persist_sample cfg world t
                 = (Ok tt, EvLog ERROR (persist_failed e) :: t')).
    { unfold persist_sample, try_except. rewrite He. reflexivity. }
    split; [exact Hp|].
    rewrite Hp. cbn [snd]. rewrite notifications_cons. cbn [app].
    rewrite app_nil_r.
    pose proof (persist_body_quiet t) as Hq. rewrite He in Hq. exact Hq.
Qed.

(** *** Transport failures (C3) *)

Lemma verdict_without_fix (tracking : Tracking) (sources : Sources) (summary : string) :
  fst (health_verdict cfg tracking sources false summary) = false.
Proof.
  unfold health_verdict, health_problems. cbn [negb].
  unfold append_if at 1.
  destruct (append_if _ _ _ ++ [no_fix_text])%list eqn:E; [|reflexivity].
  destruct (append_if (total_sources sources =? 0) _ _); discriminate.
Qed.

(** C3 (amended).  When the tracking call or the sources call completes
    with an exit code other than zero, the health check returns at once:
    the verdict is not evaluated and the result is [ok = false] with a
    message that names the command and the host.  When one of these two
    calls exceeds its timeout, the exception leaves the health check, and
    the loop sends a timeout alert that names the host (not the command).
    A failure of the fix-status call does not end the turn: on a timeout
    the fix status becomes "no fix" with the summary "gpspipe timed out"
    and the verdict is evaluated (and is not ok); an exit code other than
    zero and other than 127 is not looked at. *)
Theorem check_ntp_health_transport (t : trace) :
  (forall cp : CompletedProcess,
      remote world t "chronyc tracking" 10 = Completed cp ->
      returncode cp <> 0 ->
      check_ntp_health cfg world t
      = (Ok (false, "SSH/chronyc tracking failed on " ++ host_label cfg ++ ": "
                    ++ _head (stderr cp)),
         EvSsh "chronyc tracking" 10 :: t))
  /\ (forall (cp : CompletedProcess) (tracking : Tracking) (cp2 : CompletedProcess),
         remote world t "chronyc tracking" 10 = Completed cp ->
         returncode cp = 0 ->
         parse_tracking (stdout cp) = Ok tracking ->
         remote world (EvSsh "chronyc tracking" 10 :: t) "chronyc sources -n" 10
         = Completed cp2 ->
         returncode cp2 <> 0 ->
         check_ntp_health cfg world t
         = (Ok (false, "SSH/chronyc sources failed on " ++ host_label cfg ++ ": "
                       ++ _head (stderr cp2)),
            EvSsh "chronyc sources -n" 10 :: EvSsh "chronyc tracking" 10 :: t))
  /\ (remote world t "chronyc tracking" 10 = TimedOut ->
      fst (check_ntp_health cfg world t)
      = Raise (TimeoutExpired (full_cmd cfg "chronyc tracking") 10)
      /\ notifications (snd (cycle cfg world t))
         = (notifications t
            ++ [("NTP health alert timeout",
                 ("SSH command timed out contacting " ++ host_label cfg)%string)])%list)
  /\ (forall (cp : CompletedProcess) (tracking : Tracking),
         remote world t "chronyc tracking" 10 = Completed cp ->
         returncode cp = 0 ->
         parse_tracking (stdout cp) = Ok tracking ->
         remote world (EvSsh "chronyc tracking" 10 :: t) "chronyc sources -n" 10
         = TimedOut ->
         fst (check_ntp_health cfg world t)
         = Raise (TimeoutExpired (full_cmd cfg "chronyc sources -n") 10)
         /\ notifications (snd (cycle cfg world t))
            = (notifications t
               ++ [("NTP health alert timeout",
                    ("SSH command timed out contacting " ++ host_label cfg)%string)])%list)
  /\ (forall (cp : CompletedProcess) (tracking : Tracking) (cp2 : CompletedProcess),
         remote world t "chronyc tracking" 10 = Completed cp ->
         returncode cp = 0 ->
         parse_tracking (stdout cp) = Ok tracking ->
         remote world (EvSsh "chronyc tracking" 10 :: t) "chronyc sources -n" 10
         = Completed cp2 ->
         returncode cp2 = 0 ->
         remote world (EvSsh "chronyc sources -n" 10 :: EvSsh "chronyc tracking" 10 :: t)
                (gps_remote_cmd cfg) (CGPS_TIMEOUT_SEC cfg + 3)
         = TimedOut ->
         fst (check_ntp_health cfg world t)
         = Ok (health_verdict cfg tracking (parse_sources (stdout cp2)) false
                 "gpspipe timed out")
         /\ fst (health_verdict cfg tracking (parse_sources (stdout cp2)) false
                   "gpspipe timed out") = false)
  /\ (forall (rc : Z) (out err : string) (t' : trace),
         rc <> 127 ->
         gps_status_of (mkCompleted rc out err) t'
         = gps_status_of (mkCompleted 0 out err) t').
Proof.
  assert (Hraise : forall e t',
             check_ntp_health cfg world t = (Raise e, t') -> is_timeout e = true ->
             notifications (snd (cycle cfg world t))
             = (notifications t
                ++ [("NTP health alert timeout",
                     ("SSH command timed out contacting " ++ host_label cfg)%string)])%list).
  { intros e t' He Ht. rewrite cycle_eq. cbn [snd].
    rewrite (guarded_check_on_raise t t' e He).
    destruct (send_email_run (alert_subject e) (alert_message cfg e)
                (EvLog ERROR (alert_message cfg e) :: t')) as (_ & Hn & _).
    rewrite notifications_cons, Hn, notifications_cons. cbn [app].
    rewrite !app_nil_r.
    pose proof (check_ntp_health_quiet t) as Hq. rewrite He in Hq.
    cbn [snd] in Hq. rewrite Hq.
    unfold alert_subject, alert_message. rewrite Ht. reflexivity. }
  repeat apply conj.
  - intros cp Hcp Hrc. unfold check_ntp_health, bind. rewrite run_ssh_eq, Hcp.
    apply Z.eqb_neq in Hrc. rewrite Hrc. reflexivity.
  - intros cp tracking cp2 Hcp Hrc Hparse Hcp2 Hrc2.
    unfold check_ntp_health, bind, lift. rewrite run_ssh_eq, Hcp, Hrc.
    cbn [Z.eqb negb]. rewrite Hparse, run_ssh_eq, Hcp2.
    apply Z.eqb_neq in Hrc2. rewrite Hrc2. reflexivity.
  - intros Ht.
    assert (He : check_ntp_health cfg world t
                 = (Raise (TimeoutExpired (full_cmd cfg "chronyc tracking") 10),
                    EvLog ERROR ("SSH TIMEOUT after " ++ str_of_Z 10 ++ "s: cmd="
                                 ++ "chronyc tracking")
                    :: EvSsh "chronyc tracking" 10 :: t)).
    { unfold check_ntp_health, bind. rewrite run_ssh_eq, Ht. reflexivity. }
    split; [rewrite He; reflexivity | exact (Hraise _ _ He eq_refl)].
  - intros cp tracking Hcp Hrc Hparse Ht.
    assert (He : check_ntp_health cfg world t
                 = (Raise (TimeoutExpired (full_cmd cfg "chronyc sources -n") 10),
                    EvLog ERROR ("SSH TIMEOUT after " ++ str_of_Z 10 ++ "s: cmd="
                                 ++ "chronyc sources -n")
                    :: EvSsh "chronyc sources -n" 10
                    :: EvSsh "chronyc tracking" 10 :: t)).
    { unfold check_ntp_health, bind, lift. rewrite run_ssh_eq, Hcp, Hrc.
      cbn [Z.eqb negb]. rewrite Hparse, run_ssh_eq, Ht. reflexivity. }
    split; [rewrite He; reflexivity | exact (Hraise _ _ He eq_refl)].
  - intros cp tracking cp2 Hcp Hrc Hparse Hcp2 Hrc2 Ht.
    split; [|apply verdict_without_fix].
    unfold check_ntp_health, bind, lift. rewrite run_ssh_eq, Hcp, Hrc.
    cbn [Z.eqb negb]. rewrite Hparse, run_ssh_eq, Hcp2, Hrc2.
    cbn [Z.eqb negb]. rewrite run_gps_status_eq, Ht. reflexivity.
  - intros rc out err t' Hrc. unfold gps_status_of. cbn [returncode stderr stdout].
    apply Z.eqb_neq in Hrc. rewrite Hrc. reflexivity.
Qed.

(** *** The Command Executor calls of a turn (C5) *)

Lemma gps_status_of_calls (cp : CompletedProcess) (t : trace) :
  ssh_calls (snd (gps_status_of cp t)) = ssh_calls t.
Proof.
  unfold gps_status_of, bind, lift, log, emit, ret.
  destruct (_ || _); cbn [snd].
  - rewrite ssh_calls_cons. apply app_nil_r.
  - destruct (parse_gpspipe_output _) as [fs|e]; [|reflexivity].
    destruct (negb _); reflexivity.
Qed.

Lemma run_gps_status_calls (t : trace) :
  ssh_calls (snd (run_gps_status cfg world t))
  = (ssh_calls t ++ [(gps_remote_cmd cfg, CGPS_TIMEOUT_SEC cfg + 3)])%list.
Proof.
  rewrite run_gps_status_eq.
  destruct (remote world t (gps_remote_cmd cfg) (CGPS_TIMEOUT_SEC cfg + 3)).
  - rewrite gps_status_of_calls. apply ssh_calls_cons.
  - cbn [snd]. rewrite !ssh_calls_cons. cbn [app]. now rewrite app_nil_r.
  - cbn [snd]. apply ssh_calls_cons.
Qed.

Lemma db_insert_sample_calls (tracking : Tracking) (sources : Sources)
  (gps_ok : bool) (gps_summary : string) (t : trace) :
  fst (db_insert_sample cfg world tracking sources gps_ok gps_summary t) = Ok tt
  /\ ssh_calls (snd (db_insert_sample cfg world tracking sources gps_ok gps_summary t))
     = ssh_calls t.
Proof.
  unfold db_insert_sample, bind, ask, emit, log, emit, ret.
  destruct (negb _); [split; reflexivity|].
  destruct (db_fault world t); cbn [fst snd]; rewrite !ssh_calls_cons; cbn [app];
    rewrite ?app_nil_r; split; reflexivity.
Qed.

(** The calls of the health check: the tracking call, then the sources
    call, then the fix-status call, up to the first point where the check
    ends; all three when it returns a verdict that is ok. *)
Lemma check_ntp_health_calls (t : trace) :
  exists n : nat,
    (1 <= n <= 3)%nat
    /\ ssh_calls (snd (check_ntp_health cfg world t))
       = (ssh_calls t ++ firstn n (three_calls cfg))%list
    /\ (verdict_ok (fst (check_ntp_health cfg world t)) = true -> n = 3%nat).
Proof.
  unfold check_ntp_health, bind, lift. rewrite run_ssh_eq.
  destruct (remote world t "chronyc tracking" 10) as [tr| |msg].
  2,3: exists 1%nat; cbn [fst snd]; rewrite ?ssh_calls_cons; cbn [app firstn three_calls];
       rewrite ?app_nil_r; repeat split; try lia; discriminate.
  destruct (negb (returncode tr =? 0)).
  { exists 1%nat. cbn [fst snd ret]. rewrite ssh_calls_cons.
    repeat split; try lia; discriminate. }
  destruct (parse_tracking (stdout tr)) as [tracking|e].
  2: { exists 1%nat. cbn [fst snd]. rewrite ssh_calls_cons.
       repeat split; try lia; discriminate. }
  rewrite run_ssh_eq.
  destruct (remote world (EvSsh "chronyc tracking" 10 :: t) "chronyc sources -n" 10)
    as [sr| |msg].
  2,3: exists 2%nat; cbn [fst snd]; rewrite ?ssh_calls_cons; cbn [app firstn three_calls];
       rewrite ?app_nil_r, <- ?app_assoc; repeat split; try lia; discriminate.
  destruct (negb (returncode sr =? 0)).
  { exists 2%nat. cbn [fst snd ret]. rewrite !ssh_calls_cons, <- app_assoc.
    repeat split; try lia; discriminate. }
  exists 3%nat.
  pose proof (run_gps_status_calls
                (EvSsh "chronyc sources -n" 10 :: EvSsh "chronyc tracking" 10 :: t)) as Hg.
  destruct (run_gps_status cfg world
              (EvSsh "chronyc sources -n" 10 :: EvSsh "chronyc tracking" 10 :: t))
    as [[gps|e] t3]; cbn [fst snd ret] in *;
    rewrite Hg, !ssh_calls_cons, <- !app_assoc; repeat split; lia.
Qed.

Lemma persist_sample_calls (t : trace) :
  exists m : nat,
    (1 <= m <= 3)%nat
    /\ ssh_calls (snd (persist_sample cfg world t))
       = (ssh_calls t ++ firstn m (three_calls cfg))%list.
Proof.
  assert (Hbody : exists m : nat,
             (1 <= m <= 3)%nat
             /\ ssh_calls (snd (persist_body cfg world t))
                = (ssh_calls t ++ firstn m (three_calls cfg))%list).
  { unfold persist_body, bind, lift. rewrite run_ssh_eq.
    destruct (remote world t "chronyc tracking" 10) as [tr| |msg].
    2,3: exists 1%nat; cbn [fst snd]; rewrite ?ssh_calls_cons;
         cbn [app firstn three_calls]; rewrite ?app_nil_r; split; [lia | reflexivity].
    rewrite run_ssh_eq.
    destruct (remote world (EvSsh "chronyc tracking" 10 :: t) "chronyc sources -n" 10)
      as [sr| |msg].
    2,3: exists 2%nat; cbn [fst snd]; rewrite ?ssh_calls_cons;
         cbn [app firstn three_calls]; rewrite ?app_nil_r, <- ?app_assoc;
         split; [lia | reflexivity].
    destruct (parse_tracking (stdout tr)) as [tracking|e].
    2: { exists 2%nat. cbn [fst snd]. rewrite !ssh_calls_cons, <- app_assoc.
         split; [lia | reflexivity]. }
    exists 3%nat.
    pose proof (run_gps_status_calls
                  (EvSsh "chronyc sources -n" 10 :: EvSsh "chronyc tracking" 10 :: t))
      as Hg.
    destruct (run_gps_status cfg world
                (EvSsh "chronyc sources -n" 10 :: EvSsh "chronyc tracking" 10 :: t))
      as [[gps|e] t3]; cbn [fst snd] in *.
    - destruct (db_insert_sample_calls tracking (parse_sources (stdout sr))
                  (fst gps) (snd gps) t3) as [_ Hd].
      rewrite Hd, Hg, !ssh_calls_cons, <- !app_assoc. split; [lia | reflexivity].
    - rewrite Hg, !ssh_calls_cons, <- !app_assoc. split; [lia | reflexivity]. }
  destruct Hbody as (m & Hm & Hcalls). exists m. split; [exact Hm|].
  unfold persist_sample, try_except, except_exception, log, emit.
  destruct (persist_body cfg world t) as [[[]|e] t']; cbn [snd] in *.
  - exact Hcalls.
  - rewrite ssh_calls_cons. cbn [app]. now rewrite app_nil_r.
Qed.

(** C5 (amended).  In every turn the health check issues its calls one
    after the other, in the order tracking report (timeout 10), sources
    report (timeout 10), fix-status stream (its own timeout plus 3), and
    stops after the first or the second when that call fails or the
    tracking report makes the parser raise: its calls are the first [n] of
    the three, with [n] from 1 to 3.  When its verdict is ok it has made all
    three calls, and the turn then makes the first [m] of the same three
    calls once more for the sample it stores, with [m] from 1 to 3;
    otherwise the turn makes no further call. *)
Theorem cycle_calls (t : trace) :
  exists n m : nat,
    ssh_calls (snd (check_ntp_health cfg world t))
    = (ssh_calls t ++ firstn n (three_calls cfg))%list
    /\ ssh_calls (snd (cycle cfg world t))
       = (ssh_calls t ++ firstn n (three_calls cfg) ++ firstn m (three_calls cfg))%list
    /\ (1 <= n <= 3)%nat
    /\ (m <= 3)%nat
    /\ (verdict_ok (fst (check_ntp_health cfg world t)) = true ->
        n = 3%nat /\ (1 <= m)%nat)
    /\ (verdict_ok (fst (check_ntp_health cfg world t)) = false -> m = 0%nat).
Proof.
  destruct (check_ntp_health_calls t) as (n & Hn & Hcalls & Hok).
  rewrite cycle_eq. cbn [snd]. rewrite ssh_calls_cons. cbn [app]. rewrite app_nil_r.
  destruct (check_ntp_health cfg world t) as [[[ok detail]|e] t1] eqn:Hcheck;
    cbn [fst snd verdict_ok] in *.
  - destruct ok.
    + destruct (persist_sample_calls (EvLog INFO detail :: t1)) as (m & Hm & Hp).
      exists n, m.
      assert (Hg : guarded_check cfg world t
                   = persist_sample cfg world (EvLog INFO detail :: t1)).
      { unfold guarded_check, try_except, check_and_act, bind.
        rewrite Hcheck. cbn [fst snd]. unfold log, emit.
        destruct (persist_sample cfg world (EvLog INFO detail :: t1)) as [[[]|e] t2] eqn:Hps;
          [reflexivity|].
        exfalso.
        assert (Hfst : fst (persist_sample cfg world (EvLog INFO detail :: t1)) = Ok tt).
        { unfold persist_sample, try_except, except_exception, log, emit.
          destruct (persist_body cfg world (EvLog INFO detail :: t1)) as [[[]|e'] t'];
            reflexivity. }
        rewrite Hps in Hfst. discriminate. }
      rewrite Hg, Hp, ssh_calls_cons, Hcalls. cbn [app]. rewrite app_nil_r, <- app_assoc.
      specialize (Hok eq_refl). repeat split; try lia; discriminate.
    + exists n, 0%nat.
      assert (Hg : guarded_check cfg world t
                   = send_email cfg world "NTP health alert on observium.andrea-house.com"
                       (detail ++ newline) (EvLog ERROR detail :: t1)).
      { unfold guarded_check, try_except, check_and_act, bind.
        rewrite Hcheck. cbn [fst snd]. unfold log, emit.
        pose proof (send_email_run "NTP health alert on observium.andrea-house.com"
                      (detail ++ newline) (EvLog ERROR detail :: t1)) as (Hs & _).
        destruct (send_email cfg world _ _ _) as [[[]|e] t2]; [reflexivity | discriminate]. }
      rewrite Hg.
      destruct (send_email_run "NTP health alert on observium.andrea-house.com"
                  (detail ++ newline) (EvLog ERROR detail :: t1)) as (_ & _ & Hs & _).
      rewrite Hs, ssh_calls_cons, Hcalls. cbn [app firstn]. rewrite !app_nil_r.
      repeat split; try lia; discriminate.
  - exists n, 0%nat.
    rewrite (guarded_check_on_raise t t1 e Hcheck).
    destruct (send_email_run (alert_subject e) (alert_message cfg e)
                (EvLog ERROR (alert_message cfg e) :: t1)) as (_ & _ & Hs & _).
    rewrite Hs, ssh_calls_cons, Hcalls. cbn [app firstn]. rewrite !app_nil_r.
    repeat split; try lia; discriminate.
Qed.

(** *** The stored fix mode (C10) *)

(** A result of the fix-status parser that carries a mode. *)
Lemma parse_gpspipe_output_mode (text : string) (fs : FixStatus) :
  parse_gpspipe_output text = Ok fs ->
  is_none (fix_mode fs) = false ->
  fix_ok fs = at_least_two (fix_mode fs) /\ String.eqb (fix_summary fs) "" = false.
Proof.
  unfold parse_gpspipe_output.
  pose proof (gps_loop (splitlines text) gps_init) as H.
  destruct (forallb is_number (modes (splitlines text))).
  - destruct H as (st & -> & _ & Hm & Hf). cbn [res_bind].
    intros Hfs. injection Hfs as <-. unfold gps_result.
    destruct (last_opt (modes (splitlines text))) as [m|].
    + rewrite Hm. intros Hnone. cbn [fix_mode] in Hnone.
      destruct (is_none m) eqn:Em; cbn [negb fix_mode] in *; [congruence|].
      cbn [fix_ok fix_summary]. split; [exact Hf | reflexivity].
    + cbn [gps_init last_mode] in Hm. rewrite Hm. cbn [is_none negb fix_mode].
      discriminate.
  - destruct H as (ty & ->). discriminate.
Qed.

Lemma cycle_emits (P : event -> Prop) :
  (forall c n, P (EvSsh c n)) ->
  (forall l m, P (EvLog l m)) ->
  (forall tracking sources gps_ok gps_summary,
      P (EvDb (POSTGRES_TABLE cfg) (metric_row tracking sources gps_ok gps_summary))) ->
  (forall s b, P (EvNotify s b)) ->
  (forall sender receivers s b, P (EvSmtp sender receivers s b)) ->
  (forall n, P (EvSleep n)) ->
  emits_only P (cycle cfg world).
Proof.
  intros Hssh Hlog Hdb Hnotify Hsmtp Hsleep. unfold cycle.
  apply emits_bind; [now apply emits_guarded_check | intros _; apply emits_emit, Hsleep].
Qed.

(** *** Rows of the Sample Sink, step by step *)

Lemma inserted_rows_app (evs : list event) (t : trace) :
  Forall (fun e => is_db e = false) evs ->
  inserted_rows (evs ++ t)%list = inserted_rows t.
Proof.
  induction 1 as [|e evs He _ IH]; [reflexivity|].
  cbn [app]. rewrite inserted_rows_cons, IH.
  destruct e; try discriminate; apply app_nil_r.
Qed.

Lemma run_ssh_rows (cmd : string) (timeout : Z) (t : trace) :
  inserted_rows (snd (run_ssh cfg world cmd timeout t)) = inserted_rows t.
Proof.
  destruct (emits_run_ssh (fun e => is_db e = false)
              (fun _ _ => eq_refl) (fun _ _ => eq_refl) cmd timeout t)
    as (evs & -> & Hall).
  now apply inserted_rows_app.
Qed.

Lemma run_gps_status_rows (t : trace) :
  inserted_rows (snd (run_gps_status cfg world t)) = inserted_rows t.
Proof.
  destruct (emits_run_gps_status (fun e => is_db e = false)
              (fun _ _ => eq_refl) (fun _ _ => eq_refl) t) as (evs & -> & Hall).
  now apply inserted_rows_app.
Qed.

Lemma check_ntp_health_rows (t : trace) :
  inserted_rows (snd (check_ntp_health cfg world t)) = inserted_rows t.
Proof.
  destruct (emits_check_ntp_health (fun e => is_db e = false)
              (fun _ _ => eq_refl) (fun _ _ => eq_refl) t) as (evs & -> & Hall).
  now apply inserted_rows_app.
Qed.

Lemma db_insert_sample_rows (tracking : Tracking) (sources : Sources)
  (gps_ok : bool) (gps_summary : string) (t : trace) :
  inserted_rows (snd (db_insert_sample cfg world tracking sources gps_ok gps_summary t))
  = (inserted_rows t
     ++ if env_set (DB_URL cfg)
        then [metric_row tracking sources gps_ok gps_summary] else [])%list.
Proof.
  unfold db_insert_sample, bind, ask, emit, log, emit, ret.
  destruct (env_set (DB_URL cfg)); cbn [negb].
  - destruct (db_fault world t); cbn [snd]; rewrite !inserted_rows_cons;
      cbn [app]; rewrite ?app_nil_r; reflexivity.
  - cbn [snd]. now rewrite app_nil_r.
Qed.

(** The handler of the inner [try] only logs. *)
Lemma persist_sample_rows (t : trace) :
  inserted_rows (snd (persist_sample cfg world t))
  = inserted_rows (snd (persist_body cfg world t)).
Proof.
  unfold persist_sample, try_except, except_exception, log, emit.
  destruct (persist_body cfg world t) as [[[]|e] t']; cbn [snd]; [reflexivity|].
  rewrite inserted_rows_cons. cbn [app]. apply app_nil_r.
Qed.

(** Every row the second pass stores is built from the fix status that
    this pass obtained. *)
Lemma persist_body_stored (t : trace) :
  exists rows : list MetricRow,
    inserted_rows (snd (persist_body cfg world t)) = (inserted_rows t ++ rows)%list
    /\ (List.length rows <= 1)%nat
    /\ forall row : MetricRow,
         In row rows ->
         exists (tr sr : CompletedProcess) (tracking : Tracking)
                (gps_ok : bool) (gps_summary : string) (t3 : trace),
           remote world t "chronyc tracking" 10 = Completed tr
           /\ parse_tracking (stdout tr) = Ok tracking
           /\ remote world (EvSsh "chronyc tracking" 10 :: t) "chronyc sources -n" 10
              = Completed sr
           /\ run_gps_status cfg world (fix_step t) = (Ok (gps_ok, gps_summary), t3)
           /\ row = metric_row tracking (parse_sources (stdout sr)) gps_ok gps_summary.
Proof.
  unfold persist_body, bind, lift, fix_step.
  pose proof (run_ssh_rows "chronyc tracking" 10 t) as H1.
  rewrite run_ssh_eq in *.
  destruct (remote world t "chronyc tracking" 10) as [tr| |msg]; cbn [snd] in *;
    try (exists []; rewrite app_nil_r; split; [exact H1|];
         split; [apply Nat.le_0_l | intros row []]).
  pose proof (run_ssh_rows "chronyc sources -n" 10 (EvSsh "chronyc tracking" 10 :: t))
    as H2.
  rewrite run_ssh_eq in *.
  destruct (remote world (EvSsh "chronyc tracking" 10 :: t) "chronyc sources -n" 10)
    as [sr| |msg]; cbn [snd] in *;
    try (exists []; rewrite app_nil_r; split; [congruence|];
         split; [apply Nat.le_0_l | intros row []]).
  destruct (parse_tracking (stdout tr)) as [tracking|e] eqn:Hp; cbn [snd].
  2:{ exists []. rewrite app_nil_r. split; [congruence|].
      split; [apply Nat.le_0_l | intros row []]. }
  pose proof (run_gps_status_rows
                (EvSsh "chronyc sources -n" 10 :: EvSsh "chronyc tracking" 10 :: t)) as H3.
  destruct (run_gps_status cfg world
              (EvSsh "chronyc sources -n" 10 :: EvSsh "chronyc tracking" 10 :: t))
    as [[[gps_ok gps_summary]|e] t3]; cbn [fst snd] in *.
  2:{ exists []. rewrite app_nil_r. split; [congruence|].
      split; [apply Nat.le_0_l | intros row []]. }
  rewrite db_insert_sample_rows, H3, H2, H1.
  destruct (env_set (DB_URL cfg)).
  - exists [metric_row tracking (parse_sources (stdout sr)) gps_ok gps_summary].
    split; [reflexivity|]. split; [apply le_n|].
    intros row [<-|[]]. exists tr, sr, tracking, gps_ok, gps_summary, t3.
    repeat split; try reflexivity. exact Hp.
  - exists []. split; [reflexivity|]. split; [apply Nat.le_0_l | intros row []].
Qed.

(** When the second pass goes through, it stores the row built from the
    fix status it obtained. *)
Lemma persist_body_stores (t t3 : trace) (tr sr : CompletedProcess)
  (tracking : Tracking) (gps_ok : bool) (gps_summary : string) :
  remote world t "chronyc tracking" 10 = Completed tr ->
  parse_tracking (stdout tr) = Ok tracking ->
  remote world (EvSsh "chronyc tracking" 10 :: t) "chronyc sources -n" 10
  = Completed sr ->
  run_gps_status cfg world (fix_step t) = (Ok (gps_ok, gps_summary), t3) ->
  inserted_rows (snd (persist_body cfg world t))
  = (inserted_rows t
     ++ if env_set (DB_URL cfg)
        then [metric_row tracking (parse_sources (stdout sr)) gps_ok gps_summary]
        else [])%list.
Proof.
  intros Htr Hparse Hsr Hgps. unfold fix_step in Hgps.
  pose proof (run_gps_status_rows
                (EvSsh "chronyc sources -n" 10 :: EvSsh "chronyc tracking" 10 :: t)) as H3.
  rewrite Hgps in H3. cbn [snd] in H3.
  rewrite !inserted_rows_cons in H3. cbn [app] in H3. rewrite !app_nil_r in H3.
  unfold persist_body, bind, lift.
  rewrite run_ssh_eq, Htr, run_ssh_eq, Hsr, Hparse, Hgps. cbn [fst snd].
  rewrite db_insert_sample_rows, H3. reflexivity.
Qed.

(** A healthy verdict hands the turn over to the second pass. *)
Lemma guarded_check_healthy (t : trace) (detail : string) :
  fst (check_ntp_health cfg world t) = Ok (true, detail) ->
  guarded_check cfg world t
  = persist_sample cfg world (second_pass_start cfg world t detail).
Proof.
  intros H. unfold guarded_check, try_except, check_and_act, bind, second_pass_start.
  destruct (check_ntp_health cfg world t) as [r t1]. cbn [fst snd] in *. subst r.
  cbn [fst snd]. unfold log, emit.
  assert (Hfst : fst (persist_sample cfg world (EvLog INFO detail :: t1)) = Ok tt).
  { unfold persist_sample, try_except, except_exception, log, emit.
    destruct (persist_body cfg world (EvLog INFO detail :: t1)) as [[[]|e'] t'];
      reflexivity. }
  destruct (persist_sample cfg world (EvLog INFO detail :: t1)) as [[[]|e] t2];
    [reflexivity | discriminate].
Qed.

(** Without a healthy verdict the turn stores nothing. *)
Lemma guarded_check_unhealthy (t : trace) :
  verdict_ok (fst (check_ntp_health cfg world t)) = false ->
  inserted_rows (snd (guarded_check cfg world t)) = inserted_rows t.
Proof.
  intros Hv. pose proof (check_ntp_health_rows t) as Hr.
  destruct (check_ntp_health cfg world t) as [[[ok detail]|e] t1] eqn:Hcheck;
    cbn [fst snd verdict_ok] in *.
  - destruct ok; [discriminate|].
    unfold guarded_check, try_except, check_and_act, bind.
    rewrite Hcheck. cbn [fst snd]. unfold log, emit.
    destruct (send_email_run "NTP health alert on observium.andrea-house.com"
                (detail ++ newline) (EvLog ERROR detail :: t1))
      as (Hs & _ & _ & Hrows & _).
    destruct (send_email cfg world _ _ _) as [[[]|e] t2]; [|discriminate].
    cbn [snd] in *. rewrite Hrows, inserted_rows_cons, Hr. cbn [app]. apply app_nil_r.
  - rewrite (guarded_check_on_raise t t1 e Hcheck).
    destruct (send_email_run (alert_subject e) (alert_message cfg e)
                (EvLog ERROR (alert_message cfg e) :: t1)) as (_ & _ & _ & Hrows & _).
    rewrite Hrows, inserted_rows_cons, Hr. cbn [app]. apply app_nil_r.
Qed.

Lemma cycle_rows (t : trace) :
  inserted_rows (snd (cycle cfg world t))
  = inserted_rows (snd (guarded_check cfg world t)).
Proof.
  rewrite cycle_eq. cbn [snd]. rewrite inserted_rows_cons. cbn [app]. apply app_nil_r.
Qed.

Lemma second_pass_start_rows (t : trace) (detail : string) :
  inserted_rows (second_pass_start cfg world t detail) = inserted_rows t.
Proof.
  unfold second_pass_start. rewrite inserted_rows_cons, check_ntp_health_rows.
  cbn [app]. apply app_nil_r.
Qed.

(** A completed fix-status command whose last mode is 2. *)
Lemma run_gps_status_two_d (cp : CompletedProcess) (fs : FixStatus) (t : trace) :
  remote world t (gps_remote_cmd cfg) (CGPS_TIMEOUT_SEC cfg + 3) = Completed cp ->
  (returncode cp =? 127) || contains "gpspipe-not-found" (stderr cp) = false ->
  parse_gpspipe_output (stdout cp ++ stderr cp) = Ok fs ->
  fix_mode fs = JInt 2 ->
  run_gps_status cfg world t
  = (Ok (true, fix_summary fs),
     EvSsh (gps_remote_cmd cfg) (CGPS_TIMEOUT_SEC cfg + 3) :: t).
Proof.
  intros Hcp Hpresent Hparse Hmode.
  rewrite run_gps_status_eq, Hcp.
  destruct (parse_gpspipe_output_mode _ fs Hparse) as [Hok Hsum].
  { rewrite Hmode. reflexivity. }
  rewrite Hmode in Hok.
  cbn [at_least_two Z.leb Z.compare Pos.compare Pos.compare_cont] in Hok.
  unfold gps_status_of, bind, lift, ret. rewrite Hpresent, Hparse, Hsum.
  cbn [negb]. rewrite Hok. reflexivity.
Qed.

(** C10.  The mode column of a stored sample is "3D fix" when the fix
    status of the pass that stores it is [hasFix = true] and "No fix"
    otherwise, whatever the mode was.  Every row a turn hands to the Sample
    Sink holds one of these two texts, and [db_insert_sample] hands over
    exactly the row built from its arguments when a database is
    configured.  A turn stores at most one row, and only after a verdict
    that is ok: the row is built from the result of [run_gps_status] in
    the second sampling pass of that turn, and its mode column is "3D fix"
    exactly when that result has [hasFix = true].  Conversely, when the
    verdict is ok, the second pass goes through and a database is
    configured, the turn stores exactly that row.  In particular, a turn
    whose second pass reads a stream whose last mode is 2 stores "3D fix",
    with the summary of that stream. *)
Theorem persisted_gps_mode (t : trace) :
  (forall (tracking : Tracking) (sources : Sources) (gps_ok : bool) (gps_summary : string),
      row_gps_mode (metric_row tracking sources gps_ok gps_summary)
      = if gps_ok then "3D fix" else "No fix")
  /\ (exists evs : list event,
         snd (cycle cfg world t) = (evs ++ t)%list /\ Forall collapsed_mode evs)
  /\ (forall (tracking : Tracking) (sources : Sources) (gps_ok : bool)
             (gps_summary : string) (t0 : trace),
         inserted_rows
           (snd (db_insert_sample cfg world tracking sources gps_ok gps_summary t0))
         = (inserted_rows t0
            ++ if env_set (DB_URL cfg)
               then [metric_row tracking sources gps_ok gps_summary] else [])%list)
  /\ (forall (cp : CompletedProcess) (fs : FixStatus) (tracking : Tracking)
             (sources : Sources) (t0 : trace),
         (returncode cp =? 127) || contains "gpspipe-not-found" (stderr cp) = false ->
         parse_gpspipe_output (stdout cp ++ stderr cp) = Ok fs ->
         fix_mode fs = JInt 2 ->
         gps_status_of cp t0 = (Ok (true, fix_summary fs), t0)
         /\ row_gps_mode (metric_row tracking sources true (fix_summary fs)) = "3D fix")
  /\ (exists rows : list MetricRow,
         inserted_rows (snd (cycle cfg world t)) = (inserted_rows t ++ rows)%list
         /\ (List.length rows <= 1)%nat
         /\ forall row : MetricRow,
              In row rows ->
              exists (detail : string) (tr sr : CompletedProcess) (tracking : Tracking)
                     (gps_ok : bool) (gps_summary : string) (t3 : trace),
                fst (check_ntp_health cfg world t) = Ok (true, detail)
                /\ remote world (second_pass_start cfg world t detail)
                          "chronyc tracking" 10 = Completed tr
                /\ parse_tracking (stdout tr) = Ok tracking
                /\ remote world
                     (EvSsh "chronyc tracking" 10 :: second_pass_start cfg world t detail)
                     "chronyc sources -n" 10 = Completed sr
                /\ run_gps_status cfg world
                     (fix_step (second_pass_start cfg world t detail))
                   = (Ok (gps_ok, gps_summary), t3)
                /\ row = metric_row tracking (parse_sources (stdout sr)) gps_ok gps_summary
                /\ row_gps_mode row = (if gps_ok then "3D fix" else "No fix"))
  /\ (forall (detail : string) (tr sr : CompletedProcess) (tracking : Tracking)
             (gps_ok : bool) (gps_summary : string) (t3 : trace),
         fst (check_ntp_health cfg world t) = Ok (true, detail) ->
         remote world (second_pass_start cfg world t detail) "chronyc tracking" 10
         = Completed tr ->
         parse_tracking (stdout tr) = Ok tracking ->
         remote world (EvSsh "chronyc tracking" 10 :: second_pass_start cfg world t detail)
                "chronyc sources -n" 10 = Completed sr ->
         run_gps_status cfg world (fix_step (second_pass_start cfg world t detail))
         = (Ok (gps_ok, gps_summary), t3) ->
         env_set (DB_URL cfg) = true ->
         inserted_rows (snd (cycle cfg world t))
         = (inserted_rows t
            ++ [metric_row tracking (parse_sources (stdout sr)) gps_ok gps_summary])%list
         /\ row_gps_mode
              (metric_row tracking (parse_sources (stdout sr)) gps_ok gps_summary)
            = (if gps_ok then "3D fix" else "No fix"))
  /\ (forall (detail : string) (tr sr cp : CompletedProcess) (tracking : Tracking)
             (fs : FixStatus),
         fst (check_ntp_health cfg world t) = Ok (true, detail) ->
         remote world (second_pass_start cfg world t detail) "chronyc tracking" 10
         = Completed tr ->
         parse_tracking (stdout tr) = Ok tracking ->
         remote world (EvSsh "chronyc tracking" 10 :: second_pass_start cfg world t detail)
                "chronyc sources -n" 10 = Completed sr ->
         remote world (fix_step (second_pass_start cfg world t detail))
                (gps_remote_cmd cfg) (CGPS_TIMEOUT_SEC cfg + 3) = Completed cp ->
         (returncode cp =? 127) || contains "gpspipe-not-found" (stderr cp) = false ->
         parse_gpspipe_output (stdout cp ++ stderr cp) = Ok fs ->
         fix_mode fs = JInt 2 ->
         env_set (DB_URL cfg) = true ->
         exists row : MetricRow,
           inserted_rows (snd (cycle cfg world t)) = (inserted_rows t ++ [row])%list
           /\ row_gps_mode row = "3D fix"
           /\ row_gps_summary row = fix_summary fs).
Proof.
  assert (Hstores :
    forall (detail : string) (tr sr : CompletedProcess) (tracking : Tracking)
           (gps_ok : bool) (gps_summary : string) (t3 : trace),
      fst (check_ntp_health cfg world t) = Ok (true, detail) ->
      remote world (second_pass_start cfg world t detail) "chronyc tracking" 10
      = Completed tr ->
      parse_tracking (stdout tr) = Ok tracking ->
      remote world (EvSsh "chronyc tracking" 10 :: second_pass_start cfg world t detail)
             "chronyc sources -n" 10 = Completed sr ->
      run_gps_status cfg world (fix_step (second_pass_start cfg world t detail))
      = (Ok (gps_ok, gps_summary), t3) ->
      env_set (DB_URL cfg) = true ->
      inserted_rows (snd (cycle cfg world t))
      = (inserted_rows t
         ++ [metric_row tracking (parse_sources (stdout sr)) gps_ok gps_summary])%list).
  { intros detail tr sr tracking gps_ok gps_summary t3 Hcheck Htr Hparse Hsr Hgps Hdb.
    rewrite cycle_rows, (guarded_check_healthy t detail Hcheck), persist_sample_rows,
      (persist_body_stores _ t3 tr sr tracking gps_ok gps_summary Htr Hparse Hsr Hgps),
      Hdb, second_pass_start_rows.
    reflexivity. }
  split; [reflexivity|]. split.
  { apply cycle_emits; try (intros; exact I).
    intros tracking sources gps_ok gps_summary.
    cbn [collapsed_mode metric_row row_gps_mode].
    destruct gps_ok; [left | right]; reflexivity. }
  split; [apply db_insert_sample_rows|]. split.
  { intros cp fs tracking sources t0 Hpresent Hparse Hmode.
    split; [|reflexivity].
    destruct (parse_gpspipe_output_mode _ fs Hparse) as [Hok Hsum].
    { rewrite Hmode. reflexivity. }
    rewrite Hmode in Hok.
    cbn [at_least_two Z.leb Z.compare Pos.compare Pos.compare_cont] in Hok.
    unfold gps_status_of, bind, lift, ret. rewrite Hpresent, Hparse, Hsum.
    cbn [negb]. rewrite Hok. reflexivity. }
  split.
  { rewrite cycle_rows.
    destruct (verdict_ok (fst (check_ntp_health cfg world t))) eqn:Hv.
    - destruct (fst (check_ntp_health cfg world t)) as [[[|] detail]|e] eqn:Hcheck;
        try discriminate Hv.
      rewrite (guarded_check_healthy t detail Hcheck), persist_sample_rows.
      destruct (persist_body_stored (second_pass_start cfg world t detail))
        as (rows & Hrows & Hlen & Hall).
      exists rows. rewrite Hrows, second_pass_start_rows.
      split; [reflexivity|]. split; [exact Hlen|].
      intros row Hin.
      destruct (Hall row Hin)
        as (tr & sr & tracking & gps_ok & gps_summary & t3 & H1 & H2 & H3 & H4 & ->).
      exists detail, tr, sr, tracking, gps_ok, gps_summary, t3.
      repeat split; try assumption; reflexivity.
    - exists []. rewrite (guarded_check_unhealthy t Hv), app_nil_r.
      split; [reflexivity|]. split; [apply Nat.le_0_l | intros row []]. }
  split.
  { intros detail tr sr tracking gps_ok gps_summary t3 Hcheck Htr Hparse Hsr Hgps Hdb.
    split; [|reflexivity].
    exact (Hstores detail tr sr tracking gps_ok gps_summary t3
             Hcheck Htr Hparse Hsr Hgps Hdb). }
  intros detail tr sr cp tracking fs Hcheck Htr Hparse Hsr Hcp Hpresent Hfs Hmode Hdb.
  exists (metric_row tracking (parse_sources (stdout sr)) true (fix_summary fs)).
  split; [|split; reflexivity].
  exact (Hstores detail tr sr tracking true (fix_summary fs) _
           Hcheck Htr Hparse Hsr
           (run_gps_status_two_d cp fs _ Hcp Hpresent Hfs Hmode) Hdb).
Qed.

End MonitorRuns.


(** The command exits with 127 and the marker; its output holds a fix
    report on which the parser would raise. *)
Definition missing_tool : CompletedProcess :=
  mkCompleted 127 (dq "{'class':'TPV','mode':'3'}" ++ newline) "gpspipe-not-found".

Lemma run_gps_status_tool_missing_witness :
  remote (scripted [Completed missing_tool]) [] (gps_remote_cmd default_config)
         (CGPS_TIMEOUT_SEC default_config + 3)
  = Completed missing_tool
  /\ (returncode missing_tool = 127
   \/ contains "gpspipe-not-found" (stderr missing_tool) = true)
  /\ parse_gpspipe_output (stdout missing_tool ++ stderr missing_tool)
     = Raise (TypeError "str")
  /\ fst (run_gps_status default_config (scripted [Completed missing_tool]) [])
     = Ok (false, "gpspipe not found on remote host").
Proof.
  assert (H : returncode missing_tool = 127
              \/ contains "gpspipe-not-found" (stderr missing_tool) = true)
    by (left; reflexivity).
  split; [reflexivity|]. split; [exact H|]. split; [vm_compute; reflexivity|].
  exact (f_equal fst
           (proj1 (run_gps_status_tool_missing default_config
                     (scripted [Completed missing_tool]) missing_tool [] eq_refl H))).
Defined.

(** A turn in which the receiver reports a two-dimensional fix in both
    passes: the row stored says "3D fix". *)
Lemma persisted_gps_mode_witness :
  exists row : MetricRow,
    inserted_rows (snd (cycle full_config two_d_twice [])) = [row]
    /\ row_gps_mode row = "3D fix"
    /\ row_gps_summary row
       = "GPS(TPV): mode=2D fix | time=2024-01-01T00:00:00.000Z | pos=(45.5,-9.25)".
Proof.
  exact (proj2 (proj2 (proj2 (proj2 (proj2 (proj2
           (persisted_gps_mode full_config two_d_twice []))))))
           _ _ _ _ _ _
           eq_refl eq_refl eq_refl eq_refl eq_refl eq_refl eq_refl eq_refl eq_refl).
Defined.

(** ** Concrete turns *)

Lemma check_ntp_health_transport_witness :
  check_ntp_health default_config (scripted [Completed refused]) []
  = (Ok (false,
         "SSH/chronyc tracking failed on myntp (0.0.0.0): ssh: connect to host myntp port 22: Connection refused"),
     [EvSsh "chronyc tracking" 10]).
Proof.
  assert (H : returncode refused <> 0) by discriminate.
  exact (proj1 (check_ntp_health_transport default_config (scripted [Completed refused]) [])
           refused eq_refl H).
Defined.

(** The fix-status call exceeds its timeout: the health check still makes
    its three calls and returns an evaluated verdict, whose one problem is
    the missing fix.  The tracking call exceeds its timeout: the alert
    names the host and no command. *)
Lemma gps_timeout_counterexample :
  fst (check_ntp_health default_config gps_times_out [])
  = Ok (health_verdict default_config sample_tracking (parse_sources sources_report)
          false "gpspipe timed out")
  /\ health_problems default_config sample_tracking (parse_sources sources_report) false
     = ["GPS has no fix via gpspipe"]
  /\ ssh_calls (snd (check_ntp_health default_config gps_times_out []))
     = three_calls default_config
  /\ notifications (snd (cycle default_config (scripted [TimedOut]) []))
     = [("NTP health alert timeout", "SSH command timed out contacting myntp (0.0.0.0)")].
Proof. repeat split; vm_compute; reflexivity. Qed.

(** A healthy turn makes six calls; a turn whose first call fails makes
    one. *)
Lemma healthy_cycle_counterexample :
  ssh_calls (snd (cycle full_config healthy_twice []))
  = (three_calls full_config ++ three_calls full_config)%list
  /\ inserted_rows (snd (cycle full_config healthy_twice []))
     = [metric_row sample_tracking (parse_sources sources_report) true
          "GPS(TPV): mode=3D fix | time=2024-01-01T00:00:00.000Z | pos=(45.5,-9.25)"]
  /\ ssh_calls (snd (cycle full_config (scripted [Completed refused]) []))
     = [("chronyc tracking", 10)].
Proof. repeat split; vm_compute; reflexivity. Qed.

(** The first call of the persistence pass exceeds its timeout: the
    exception is raised inside the turn, it is logged, and the Notifier is
    not called. *)
Lemma persistence_fault_counterexample :
  fst (persist_body full_config persistence_times_out
         (EvLog INFO (snd (health_verdict full_config sample_tracking
                             (parse_sources sources_report) true
                             "GPS(TPV): mode=3D fix | time=2024-01-01T00:00:00.000Z | pos=(45.5,-9.25)"))
          :: snd (check_ntp_health full_config persistence_times_out [])))
  = Raise (TimeoutExpired (full_cmd full_config "chronyc tracking") 10)
  /\ fst (cycle full_config persistence_times_out []) = Ok tt
  /\ notifications (snd (cycle full_config persistence_times_out [])) = []
  /\ error_logs (snd (cycle full_config persistence_times_out []))
     = ["SSH TIMEOUT after 10s: cmd=chronyc tracking";
        "DB collection/write error: Command '['ssh', '-p', '22', '-o', 'BatchMode=yes', '-o', 'StrictHostKeyChecking=accept-new', '-o', 'ConnectTimeout=5', 'ubuntu@myntp', 'chronyc tracking']' timed out after 10 seconds"].
Proof. repeat split; vm_compute; reflexivity. Qed.

(** A two-dimensional fix is stored as "3D fix"; the summary keeps the
    name of the mode. *)
Example two_d_fix_row :
  map (fun row => (row_gps_mode row, row_gps_summary row))
      (inserted_rows (snd (cycle full_config two_d_twice [])))
  = [("3D fix",
      "GPS(TPV): mode=2D fix | time=2024-01-01T00:00:00.000Z | pos=(45.5,-9.25)")].
Proof. vm_compute. reflexivity. Qed.

(** Scenario B of the specification: stratum 9 against the default maximum
    4. *)
Example stratum_too_high :
  health_problems default_config
    (mkTracking (Some "Normal") (Some 9) (last_offset_sec sample_tracking))
    (parse_sources sources_report) true
  = ["Stratum too high (got 9, max 4)"].
Proof. vm_compute. reflexivity. Qed.

(** ** Round trip of the tracking parser *)

(** *** Characters *)

Lemma linebreak_is_space (c : ascii) : is_linebreak c = true -> is_space c = true.
Proof.
  destruct c as [[] [] [] [] [] [] [] []]; vm_compute; intros H;
    first [reflexivity | discriminate H].
Qed.

Lemma all_chars_app (p : ascii -> bool) (a b : string) :
  all_chars p (a ++ b) = all_chars p a && all_chars p b.
Proof.
  induction a as [|c a IH]; [reflexivity|].
  cbn [append all_chars]. rewrite IH. apply andb_assoc.
Qed.

Lemma all_chars_weaken (p q : ascii -> bool) (s : string) :
  (forall c, p c = true -> q c = true) -> all_chars p s = true -> all_chars q s = true.
Proof.
  intros Hpq. induction s as [|c s IH]; [reflexivity|].
  cbn [all_chars]. intros H. apply andb_true_iff in H. destruct H as [Hc Hs].
  rewrite (Hpq c Hc), (IH Hs). reflexivity.
Qed.

Lemma no_space_one_line (s : string) : no_space s = true -> one_line s = true.
Proof.
  apply all_chars_weaken. intros c H.
  destruct (is_linebreak c) eqn:E; [|reflexivity].
  apply linebreak_is_space in E. rewrite E in H. discriminate.
Qed.

(** *** [strip] *)

Lemma rstrip_cons (c : ascii) (s : string) :
  rstrip (String c s)
  = match rstrip s with
    | EmptyString => if is_space c then EmptyString else String c EmptyString
    | String c' r => String c (String c' r)
    end.
Proof. cbn [rstrip]. destruct (rstrip s); reflexivity. Qed.

Lemma rstrip_no_space (s : string) : no_space s = true -> rstrip s = s.
Proof.
  induction s as [|c s IH]; [reflexivity|].
  unfold no_space. cbn [all_chars]. intros H.
  apply andb_true_iff in H. destruct H as [Hc Hs].
  rewrite rstrip_cons, (IH Hs). apply negb_true_iff in Hc. rewrite Hc.
  destruct s; reflexivity.
Qed.

Lemma lstrip_no_space (s : string) : no_space s = true -> lstrip s = s.
Proof.
  destruct s as [|c s]; [reflexivity|].
  unfold no_space. cbn [all_chars lstrip]. intros H.
  apply andb_true_iff in H. destruct H as [Hc _].
  apply negb_true_iff in Hc. now rewrite Hc.
Qed.

(** A text is kept by [rstrip] after any prefix once its own [rstrip] is
    not empty. *)
Lemma rstrip_app (a b : string) (c : ascii) (r : string) :
  rstrip b = String c r -> rstrip (a ++ b) = a ++ String c r.
Proof.
  intros Hb. induction a as [|x a IH]; [exact Hb|].
  cbn [append]. rewrite rstrip_cons, IH.
  destruct a; reflexivity.
Qed.

Lemma rstrip_idem (s : string) : rstrip (rstrip s) = rstrip s.
Proof.
  induction s as [|c s IH]; [reflexivity|].
  rewrite rstrip_cons. destruct (rstrip s) as [|c' r] eqn:E.
  - destruct (is_space c) eqn:Ec; [reflexivity|].
    rewrite rstrip_cons. cbn [rstrip]. now rewrite Ec.
  - rewrite rstrip_cons, IH. reflexivity.
Qed.

(** The first character of a stripped text is not whitespace. *)
Lemma rstrip_head (s : string) (c : ascii) (r : string) :
  rstrip s = String c r -> exists s', s = String c s'.
Proof.
  destruct s as [|x s]; [discriminate|].
  rewrite rstrip_cons. destruct (rstrip s).
  - destruct (is_space x); [discriminate|]. intros H. injection H as <- _. eauto.
  - intros H. injection H as <- _. eauto.
Qed.

Lemma lstrip_head (s : string) (c : ascii) (r : string) :
  lstrip s = String c r -> is_space c = false.
Proof.
  induction s as [|x s IH]; [discriminate|].
  cbn [lstrip]. destruct (is_space x) eqn:Ex; [exact IH|].
  intros H. injection H as <- _. exact Ex.
Qed.

Lemma strip_head (s : string) (c : ascii) (r : string) :
  strip s = String c r -> is_space c = false.
Proof.
  unfold strip. intros H.
  destruct (rstrip_head _ _ _ H) as [s' Hs'].
  exact (lstrip_head _ _ _ Hs').
Qed.

Lemma strip_idem (s : string) : strip (strip s) = strip s.
Proof.
  unfold strip at 1. destruct (strip s) as [|c r] eqn:E; [reflexivity|].
  pose proof (strip_head _ _ _ E) as Hc.
  cbn [lstrip]. rewrite Hc. rewrite <- E. unfold strip. apply rstrip_idem.
Qed.

(** A text that [strip] keeps is kept by its two halves. *)
Lemma strip_fixed (s : string) : strip s = s -> lstrip s = s /\ rstrip s = s.
Proof.
  intros H. destruct s as [|c s]; [split; reflexivity|].
  pose proof (strip_head _ _ _ H) as Hc.
  assert (Hl : lstrip (String c s) = String c s) by (cbn [lstrip]; now rewrite Hc).
  split; [exact Hl|]. unfold strip in H. now rewrite Hl in H.
Qed.

(** *** [splitlines] *)

Lemma splitlines_cons_plain (c : ascii) (s : string) :
  is_linebreak c = false ->
  splitlines (String c s)
  = match splitlines s with
    | [] => [String c ""]
    | l :: ls => String c l :: ls
    end.
Proof. intros H. cbn [splitlines]. now rewrite H. Qed.

(** A line followed by a line feed and more text. *)
Lemma splitlines_line (l rest : string) :
  one_line l = true ->
  splitlines (l ++ newline ++ rest) = l :: splitlines rest.
Proof.
  induction l as [|c l IH].
  - intros _. destruct rest; reflexivity.
  - unfold one_line. cbn [all_chars append]. intros H.
    apply andb_true_iff in H. destruct H as [Hc Hl]. apply negb_true_iff in Hc.
    rewrite (splitlines_cons_plain c _ Hc), (IH Hl). reflexivity.
Qed.

(** A last line with no boundary after it. *)
Lemma splitlines_last (l : string) :
  one_line l = true -> l <> "" -> splitlines l = [l].
Proof.
  induction l as [|c l IH]; [congruence|].
  unfold one_line. cbn [all_chars]. intros H _.
  apply andb_true_iff in H. destruct H as [Hc Hl]. apply negb_true_iff in Hc.
  rewrite (splitlines_cons_plain c _ Hc).
  destruct l as [|c' l']; [reflexivity|].
  rewrite (IH Hl); [reflexivity | discriminate].
Qed.

Lemma splitlines_join (ls : list string) :
  Forall (fun l => one_line l = true /\ l <> "") ls ->
  splitlines (join newline ls) = ls.
Proof.
  induction 1 as [|l ls [Hl Hne] Hall IH]; [reflexivity|].
  unfold join in *. cbn [String.concat]. destruct ls as [|l' ls'].
  - now apply splitlines_last.
  - rewrite (splitlines_line l _ Hl), IH. reflexivity.
Qed.

(** Every line [splitlines] returns is on one line. *)
Lemma splitlines_one_line (n : nat) (s : string) :
  (String.length s <= n)%nat -> Forall (fun l => one_line l = true) (splitlines s).
Proof.
  revert s. induction n as [|n IH]; intros s Hn.
  - destruct s; [constructor | cbn [String.length] in Hn; lia].
  - destruct s as [|c s]; [constructor|].
    cbn [String.length] in Hn. cbn [splitlines].
    destruct (is_linebreak c) eqn:Hc.
    + destruct s as [|c2 s2]; [repeat constructor|].
      cbn [String.length] in Hn.
      destruct (is_cr c && is_lf c2).
      * constructor; [reflexivity | apply IH; lia].
      * constructor; [reflexivity | apply IH; cbn [String.length]; lia].
    + assert (Hs : Forall (fun l => one_line l = true) (splitlines s)) by (apply IH; lia).
      destruct (splitlines s) as [|l ls].
      * repeat constructor. unfold one_line. cbn [all_chars]. now rewrite Hc.
      * inversion Hs as [|? ? Hl Hls]; subst. constructor; [|exact Hls].
        unfold one_line in *. cbn [all_chars]. now rewrite Hc, Hl.
Qed.

(** *** Pieces of a line stay on one line *)

Lemma one_line_lstrip (s : string) : one_line s = true -> one_line (lstrip s) = true.
Proof.
  induction s as [|c s IH]; [reflexivity|].
  intros H. cbn [lstrip]. destruct (is_space c); [|exact H].
  apply IH. unfold one_line in H. cbn [all_chars] in H.
  apply andb_true_iff in H. tauto.
Qed.

Lemma one_line_rstrip (s : string) : one_line s = true -> one_line (rstrip s) = true.
Proof.
  induction s as [|c s IH]; [reflexivity|].
  unfold one_line in *. cbn [all_chars]. intros H.
  apply andb_true_iff in H. destruct H as [Hc Hs].
  rewrite rstrip_cons. specialize (IH Hs).
  destruct (rstrip s).
  - destruct (is_space c); [reflexivity|]. cbn [all_chars]. now rewrite Hc.
  - cbn [all_chars] in *. now rewrite Hc, IH.
Qed.

Lemma one_line_strip (s : string) : one_line s = true -> one_line (strip s) = true.
Proof. intros H. unfold strip. now apply one_line_rstrip, one_line_lstrip. Qed.

Lemma one_line_cut (sep : ascii) (s a b : string) :
  cut sep s = Some (a, b) -> one_line s = true -> one_line b = true.
Proof.
  revert a. induction s as [|c s IH]; intros a; [discriminate|].
  cbn [cut]. unfold one_line. cbn [all_chars]. intros Hcut H.
  apply andb_true_iff in H. destruct H as [_ Hs].
  destruct (Ascii.eqb c sep).
  - injection Hcut as _ <-. exact Hs.
  - destruct (cut sep s) as [[a' b']|] eqn:E; [|discriminate].
    injection Hcut as _ <-. exact (IH a' eq_refl Hs).
Qed.

(** *** [split] on whitespace *)

(** A token followed by a space and more text. *)
Lemma split_ws_token (tok rest : string) :
  no_space tok = true -> tok <> "" ->
  split_ws (tok ++ String " " rest) = tok :: split_ws rest.
Proof.
  induction tok as [|c tok IH]; [congruence|].
  unfold no_space. cbn [all_chars append]. intros H _.
  apply andb_true_iff in H. destruct H as [Hc Htok]. apply negb_true_iff in Hc.
  cbn [split_ws]. rewrite Hc.
  destruct tok as [|c' tok'].
  - cbn [append]. change (is_space " ") with true. cbn [negb].
    destruct (split_ws (String " " rest)) eqn:E; cbn [split_ws] in E;
      change (is_space " ") with true in E; rewrite <- E; reflexivity.
  - rewrite (IH Htok); [|discriminate].
    cbn [append]. unfold no_space in Htok. cbn [all_chars] in Htok.
    apply andb_true_iff in Htok. destruct Htok as [Hc' _].
    apply negb_true_iff in Hc'. rewrite Hc'. reflexivity.
Qed.

(** *** [int(str(n))] *)

Lemma digits_value_uint (d : Decimal.uint) (acc : Z) :
  digits_value (NilEmpty.string_of_uint d) acc true = Some (uint_value d acc).
Proof.
  revert acc. induction d; intros acc; cbn [NilEmpty.string_of_uint uint_value];
    [reflexivity | ..]; cbn [digits_value]; apply IHd.
Qed.

Lemma uint_value_acc (d : Decimal.uint) (acc : positive) :
  uint_value d (Zpos acc) = Zpos (Pos.of_uint_acc d acc).
Proof.
  revert acc. induction d; intros acc; cbn [uint_value Pos.of_uint_acc];
    [reflexivity | ..];
    match goal with
    | |- uint_value _ ?v = Zpos (Pos.of_uint_acc _ ?p) =>
        replace v with (Zpos p) by lia; apply IHd
    end.
Qed.

Lemma uint_value_zero (d : Decimal.uint) : uint_value d 0 = Z.of_N (Pos.of_uint d).
Proof.
  induction d; cbn [uint_value Pos.of_uint]; [reflexivity | exact IHd | ..];
    match goal with
    | |- uint_value _ ?v = _ =>
        let p := eval cbv in v in change v with p
    end;
    apply uint_value_acc.
Qed.

Lemma uint_all_digits (d : Decimal.uint) :
  all_chars is_digit (NilEmpty.string_of_uint d) = true.
Proof. induction d; cbn [NilEmpty.string_of_uint all_chars]; [reflexivity | ..]; exact IHd. Qed.

Lemma digit_not_num_space (c : ascii) : is_digit c = true -> is_num_space c = false.
Proof.
  destruct c as [[] [] [] [] [] [] [] []]; vm_compute; intros H;
    first [reflexivity | discriminate H].
Qed.

Lemma digit_not_space (c : ascii) : is_digit c = true -> is_space c = false.
Proof.
  destruct c as [[] [] [] [] [] [] [] []]; vm_compute; intros H;
    first [reflexivity | discriminate H].
Qed.

Lemma num_rstrip_digits (s : string) : all_chars is_digit s = true -> num_rstrip s = s.
Proof.
  induction s as [|c s IH]; [reflexivity|].
  cbn [all_chars num_rstrip]. intros H. apply andb_true_iff in H. destruct H as [Hc Hs].
  rewrite (IH Hs), (digit_not_num_space c Hc). destruct s; reflexivity.
Qed.

Lemma to_uint_not_nil (p : positive) : Pos.to_uint p <> Decimal.Nil.
Proof.
  intros H. pose proof (DecimalPos.Unsigned.of_to p) as Hp.
  rewrite H in Hp. discriminate.
Qed.

(** The decimal text of a positive number reads back as the number. *)
Lemma py_int_digits (p : positive) :
  exists (c : ascii) (s : string),
    NilEmpty.string_of_uint (Pos.to_uint p) = String c s
    /\ is_digit c = true
    /\ digits_value (String c s) 0 false = Some (Zpos p).
Proof.
  pose proof (to_uint_not_nil p) as Hnil.
  pose proof (DecimalPos.Unsigned.of_to p) as Hp.
  pose proof (uint_value_zero (Pos.to_uint p)) as Hv. rewrite Hp in Hv.
  pose proof (digits_value_uint (Pos.to_uint p) 0) as Hd. rewrite Hv in Hd.
  cbn [Z.of_N] in Hd.
  destruct (Pos.to_uint p); [congruence | ..];
    cbn [NilEmpty.string_of_uint] in *;
    eexists; eexists; (split; [reflexivity | split; [reflexivity | exact Hd]]).
Qed.

Lemma str_of_Z_no_space (n : Z) : no_space (str_of_Z n) = true /\ str_of_Z n <> "".
Proof.
  assert (Hu : forall d, no_space (NilEmpty.string_of_uint d) = true).
  { intros d. apply (all_chars_weaken is_digit); [|apply uint_all_digits].
    intros c Hc. now rewrite (digit_not_space c Hc). }
  unfold str_of_Z. destruct n as [|p|p]; cbn [Z.to_int NilEmpty.string_of_int].
  - split; [reflexivity | discriminate].
  - split; [apply Hu|]. destruct (py_int_digits p) as (c & s & -> & _). discriminate.
  - split; [|discriminate]. unfold no_space. cbn [all_chars].
    change (is_space "-") with false. cbn [negb andb]. apply Hu.
Qed.

Lemma py_int_str_of_Z (n : Z) : py_int (str_of_Z n) = Some n.
Proof.
  unfold py_int, str_of_Z. destruct n as [|p|p]; cbn [Z.to_int NilEmpty.string_of_int].
  - reflexivity.
  - destruct (py_int_digits p) as (c & s & Hs & Hc & Hv). rewrite Hs.
    assert (Hall : all_chars is_digit (String c s) = true)
      by (rewrite <- Hs; apply uint_all_digits).
    cbn [num_lstrip]. rewrite (digit_not_num_space c Hc).
    rewrite (num_rstrip_digits _ Hall).
    destruct c as [[] [] [] [] [] [] [] []]; try discriminate Hc; exact Hv.
  - destruct (py_int_digits p) as (c & s & Hs & Hc & Hv). rewrite Hs.
    assert (Hall : all_chars is_digit (String c s) = true)
      by (rewrite <- Hs; apply uint_all_digits).
    cbn [num_lstrip]. change (is_num_space "-") with false. cbv iota.
    change (num_rstrip (String "-" (String c s)))
      with (match num_rstrip (String c s) with
            | EmptyString => if is_num_space "-" then EmptyString else String "-" EmptyString
            | String c' r => String "-" (String c' r)
            end).
    rewrite (num_rstrip_digits _ Hall). cbv iota.
    change (Ascii.eqb "-" "-") with true. cbv iota.
    rewrite Hv. reflexivity.
Qed.

(** *** The three lines of a written report *)
Section RoundTrip.
Context {RT : PyRuntime}.

Lemma lstrip_plain (c : ascii) (s : string) :
  is_space c = false -> lstrip (String c s) = String c s.
Proof. intros H. cbn [lstrip]. now rewrite H. Qed.

Lemma strip_after_space (s : string) : strip s = s -> strip (String " " s) = s.
Proof.
  intros H. destruct (strip_fixed s H) as [Hl Hr].
  unfold strip. cbn [lstrip]. change (is_space " ") with true. cbv iota.
  now rewrite Hl.
Qed.

Lemma strip_no_space (s : string) : no_space s = true -> strip s = s.
Proof.
  intros H. unfold strip. now rewrite (lstrip_no_space s H), (rstrip_no_space s H).
Qed.

(** A key, a value that [rstrip] keeps: [strip] keeps the line. *)
Lemma strip_key_line (k : ascii) (key value : string) (c : ascii) (r : string) :
  is_space k = false ->
  rstrip value = String c r ->
  strip (String k key ++ value) = String k key ++ String c r.
Proof.
  intros Hk Hv. unfold strip. cbn [append]. rewrite (lstrip_plain k _ Hk).
  exact (rstrip_app (String k key) value c r Hv).
Qed.

Lemma leap_line (r : Tracking) (s : string) :
  strip s = s ->
  tracking_line r ("Leap status: " ++ s)
  = Ok (mkTracking (Some s) (stratum r) (last_offset_sec r)).
Proof.
  intros Hs. unfold tracking_line.
  destruct s as [|c s']; [reflexivity|].
  destruct (strip_fixed _ Hs) as [_ Hr].
  rewrite (strip_key_line "L" "eap status: " _ c s' eq_refl Hr).
  remember (String c s') as s eqn:Es.
  change (startswith "Leap status" ("Leap status: " ++ s)) with true. cbv iota.
  change (split1 ":" ("Leap status: " ++ s)) with ["Leap status"; String " " s].
  cbn [py_index nth_error res_bind]. now rewrite (strip_after_space s Hs).
Qed.

Lemma stratum_line (r : Tracking) (n : Z) :
  tracking_line r ("Stratum: " ++ str_of_Z n)
  = Ok (mkTracking (leap_status r) (Some n) (last_offset_sec r)).
Proof.
  destruct (str_of_Z_no_space n) as [Hd Hne]. unfold tracking_line.
  pose proof (rstrip_no_space _ Hd) as Hr.
  destruct (str_of_Z n) as [|c d'] eqn:Ed; [congruence|].
  rewrite (strip_key_line "S" "tratum: " _ c d' eq_refl Hr).
  rewrite <- Ed in *. clear Hr.
  change (startswith "Leap status" ("Stratum: " ++ str_of_Z n)) with false. cbv iota.
  change (startswith "Stratum" ("Stratum: " ++ str_of_Z n)) with true. cbv iota.
  change (split1 ":" ("Stratum: " ++ str_of_Z n)) with ["Stratum"; String " " (str_of_Z n)].
  cbn [py_index nth_error res_bind].
  rewrite (strip_after_space _ (strip_no_space _ Hd)), py_int_str_of_Z. reflexivity.
Qed.

Lemma offset_line (r : Tracking) (x : float) :
  reads_back x ->
  tracking_line r ("Last offset: " ++ float_repr x ++ " seconds")
  = Ok (mkTracking (leap_status r) (stratum r) (Some x)).
Proof.
  intros (Hns & Hne & Hback). unfold tracking_line.
  assert (Ex : exists c tok, float_repr x = String c tok)
    by (destruct (float_repr x) as [|c tok]; [congruence | eauto]).
  destruct Ex as (c & tok & Et).
  assert (Hr : rstrip (float_repr x ++ " seconds") = String c (tok ++ " seconds")).
  { rewrite (rstrip_app (float_repr x) " seconds" " " "seconds" eq_refl).
    rewrite Et. reflexivity. }
  rewrite (strip_key_line "L" "ast offset: " _ c _ eq_refl Hr).
  assert (Hval : String c (tok ++ " seconds") = float_repr x ++ " seconds")
    by (rewrite Et; reflexivity).
  rewrite Hval.
  change (startswith "Leap status" ("Last offset: " ++ float_repr x ++ " seconds"))
    with false. cbv iota.
  change (startswith "Stratum" ("Last offset: " ++ float_repr x ++ " seconds"))
    with false. cbv iota.
  change (startswith "Last offset" ("Last offset: " ++ float_repr x ++ " seconds"))
    with true. cbv iota.
  change (split1 ":" ("Last offset: " ++ float_repr x ++ " seconds"))
    with ["Last offset"; String " " (float_repr x ++ " seconds")].
  cbn [py_index nth_error res_bind].
  assert (Hstrip : strip (String " " (float_repr x ++ " seconds"))
                   = float_repr x ++ " seconds").
  { unfold strip. cbn [lstrip]. change (is_space " ") with true. cbv iota.
    assert (Hc : is_space c = false).
    { unfold no_space in Hns. rewrite Et in Hns. cbn [all_chars] in Hns.
      apply andb_true_iff in Hns. destruct Hns as [Hc _]. now apply negb_true_iff in Hc. }
    rewrite <- Hval at 1. rewrite (lstrip_plain c _ Hc), Hval. rewrite Hr. exact Hval. }
  rewrite Hstrip.
  change (float_repr x ++ " seconds") with (float_repr x ++ String " " "seconds").
  rewrite (split_ws_token (float_repr x) "seconds" Hns Hne).
  cbn [py_index nth_error res_bind]. rewrite Hback. reflexivity.
Qed.

(** *** What the parser returns is written on one line *)

Lemma for_each_invariant (A B : Type) (P : A -> Prop) (Q : B -> Prop)
  (body : A -> B -> res A) :
  (forall a x a', P a -> Q x -> body a x = Ok a' -> P a') ->
  forall (items : list B) (acc r : A),
    Forall Q items -> P acc -> for_each body items acc = Ok r -> P r.
Proof.
  intros Hbody items. induction items as [|x items IH]; intros acc r Hall Hacc.
  - cbn [for_each]. intros H. injection H as <-. exact Hacc.
  - cbn [for_each]. inversion Hall as [|? ? Hx Hitems]; subst.
    destruct (body acc x) as [a'|e] eqn:E; [|discriminate].
    apply (IH a' r Hitems). exact (Hbody acc x a' Hacc Hx E).
Qed.

Lemma tracking_line_leap_ok (r r' : Tracking) (raw : string) :
  leap_text_ok (leap_status r) -> one_line raw = true ->
  tracking_line r raw = Ok r' -> leap_text_ok (leap_status r').
Proof.
  intros Hr Hraw. unfold tracking_line.
  destruct (startswith "Leap status" (strip raw)).
  - unfold split1. destruct (cut ":" (strip raw)) as [[a v]|] eqn:Ecut;
      cbn [py_index nth_error res_bind]; [|discriminate].
    intros H. injection H as <-. cbn [leap_status leap_text_ok].
    split; [apply strip_idem|].
    apply one_line_strip. apply (one_line_cut ":" (strip raw) a v Ecut).
    now apply one_line_strip.
  - destruct (startswith "Stratum" (strip raw)).
    + destruct (py_index (split1 ":" (strip raw)) 1) as [v|e]; cbn [res_bind];
        [|discriminate].
      destruct (py_int (strip v)); intros H; injection H as <-; exact Hr.
    + destruct (startswith "Last offset" (strip raw)).
      * destruct (_ <- _ ;; _)%res as [[x|]|e]; intros H; injection H as <-; exact Hr.
      * intros H. injection H as <-. exact Hr.
Qed.

Lemma parse_tracking_leap_ok (text : string) (r : Tracking) :
  parse_tracking text = Ok r -> leap_text_ok (leap_status r).
Proof.
  unfold parse_tracking.
  apply (for_each_invariant _ _ (fun a => leap_text_ok (leap_status a))
           (fun l => one_line l = true) tracking_line).
  - intros a x a' Ha Hx. now apply tracking_line_leap_ok.
  - apply (splitlines_one_line (String.length text)). lia.
  - exact I.
Qed.

(** *** The round trip *)

Lemma parse_serialized (r : Tracking) :
  leap_text_ok (leap_status r) ->
  offset_reads_back (last_offset_sec r) ->
  parse_tracking (serialize_tracking r) = Ok r.
Proof.
  destruct r as [leap st off]. cbn [leap_status last_offset_sec].
  intros Hleap Hoff. unfold parse_tracking, serialize_tracking.
  cbn [leap_status stratum last_offset_sec].
  rewrite splitlines_join.
  - destruct leap as [s|], st as [n|], off as [x|]; cbn [app for_each];
      try rewrite (leap_line _ s (proj1 Hleap));
      try rewrite (stratum_line _ n);
      try rewrite (offset_line _ x Hoff);
      reflexivity.
  - apply Forall_app; split.
    + destruct leap as [s|]; [|constructor]. repeat constructor; [|discriminate].
      unfold one_line. rewrite all_chars_app. destruct Hleap as [_ Hl].
      unfold one_line in Hl. rewrite Hl. reflexivity.
    + apply Forall_app; split.
      * destruct st as [n|]; [|constructor]. repeat constructor; [|discriminate].
        unfold one_line. rewrite all_chars_app.
        destruct (str_of_Z_no_space n) as [Hd _].
        apply no_space_one_line in Hd. unfold one_line in Hd. rewrite Hd. reflexivity.
      * destruct off as [x|]; [|constructor]. repeat constructor; [|discriminate].
        unfold one_line. rewrite !all_chars_app.
        destruct Hoff as (Hns & _). apply no_space_one_line in Hns.
        unfold one_line in Hns. rewrite Hns. reflexivity.
Qed.

(** A tracking sample whose leap status is a stripped one-line text and
    whose offset prints as one token that reads back is recovered from the
    report that states it: each field that is present is read, each absent
    field stays null.  For every report on which the parser returns and
    whose offset, if any, prints and reads back, stating the recovered
    sample and parsing it again gives the same sample. *)
Theorem tracking_round_trip (text : string) (r : Tracking) :
  (leap_text_ok (leap_status r) ->
   offset_reads_back (last_offset_sec r) ->
   parse_tracking (serialize_tracking r) = Ok r)
  /\ (parse_tracking text = Ok r ->
      offset_reads_back (last_offset_sec r) ->
      leap_text_ok (leap_status r)
      /\ parse_tracking (serialize_tracking r) = Ok r).
Proof.
  split; [apply parse_serialized|].
  intros Hparse Hoff. pose proof (parse_tracking_leap_ok text r Hparse) as Hleap.
  split; [exact Hleap | now apply parse_serialized].
Qed.

End RoundTrip.

(** The report of a healthy appliance: the sample it parses to, the report
    written from that sample, and the sample read from that report. *)
Lemma tracking_round_trip_witness :
  parse_tracking (tracking_report "2" "+0.002") = Ok sample_tracking
  /\ offset_reads_back (last_offset_sec sample_tracking)
  /\ serialize_tracking sample_tracking
     = lines ["Leap status: Normal"; "Stratum: 2"; "Last offset: 0.002 seconds"]
  /\ parse_tracking (serialize_tracking sample_tracking) = Ok sample_tracking.
Proof.
  assert (Hp : parse_tracking (tracking_report "2" "+0.002") = Ok sample_tracking)
    by (vm_compute; reflexivity).
  assert (Hb : offset_reads_back (last_offset_sec sample_tracking)).
  { cbn [offset_reads_back last_offset_sec sample_tracking]. unfold reads_back.
    split; [vm_compute; reflexivity|].
    split; [vm_compute; discriminate | vm_compute; reflexivity]. }
  split; [exact Hp|]. split; [exact Hb|]. split; [vm_compute; reflexivity|].
  exact (proj2 (proj2 (tracking_round_trip (tracking_report "2" "+0.002") sample_tracking)
                  Hp Hb)).
Defined.

(** ** The fields of a well-formed tracking report (C9) *)
Section StatedFieldsRecovered.
Context {RT : PyRuntime}.

Lemma stratum_not_leap (s : string) :
  startswith "Stratum" s = true -> startswith "Leap status" s = false.
Proof.
  destruct s as [|c s]; [discriminate|]. cbn [startswith].
  destruct (Ascii.eqb_spec "S" c) as [<-|]; [reflexivity|discriminate].
Qed.

Lemma offset_not_leap (s : string) :
  startswith "Last offset" s = true -> startswith "Leap status" s = false.
Proof.
  destruct s as [|c [|d s]]; try discriminate.
  - cbn [startswith]. rewrite andb_false_r. discriminate.
  - cbn [startswith]. destruct (Ascii.eqb_spec "L" c) as [<-|]; [|discriminate].
    destruct (Ascii.eqb_spec "a" d) as [<-|]; [reflexivity|discriminate].
Qed.

Lemma offset_not_stratum (s : string) :
  startswith "Last offset" s = true -> startswith "Stratum" s = false.
Proof.
  destruct s as [|c s]; [discriminate|]. cbn [startswith].
  destruct (Ascii.eqb_spec "L" c) as [<-|]; [reflexivity|discriminate].
Qed.

Lemma stated_cons (A : Type) (is_line : string -> bool) (value : string -> option A)
  (raw : string) (ls : list string) :
  stated is_line value (raw :: ls)
  = match last_opt (filter is_line ls) with
    | Some y => value y
    | None => if is_line raw then value raw else None
    end.
Proof.
  unfold stated. cbn [filter]. destruct (is_line raw).
  - rewrite last_opt_cons. destruct (last_opt (filter is_line ls)); reflexivity.
  - reflexivity.
Qed.

Lemma last_line_in (is_line : string -> bool) (ls : list string) (y : string) :
  last_opt (filter is_line ls) = Some y -> In y ls /\ is_line y = true.
Proof.
  intros H. apply filter_In.
  revert H. generalize (filter is_line ls). intros l.
  induction l as [|a l IH]; [discriminate|].
  rewrite last_opt_cons. destruct (last_opt l) as [z|].
  - intros H. right. apply IH. exact H.
  - intros H. injection H as <-. left. reflexivity.
Qed.

(** In a well-formed report the last line of a key states a value. *)
Lemma stated_leap_some (ls : list string) (y : string) :
  forallb well_formed_line ls = true ->
  last_opt (filter is_leap_line ls) = Some y -> exists v, leap_of y = Some v.
Proof.
  intros Hwf Hy. destruct (last_line_in _ _ _ Hy) as [Hin Hk].
  pose proof (proj1 (forallb_forall _ _) Hwf y Hin) as H.
  unfold well_formed_line in H. rewrite Hk in H.
  destruct (leap_of y) as [v|]; [eauto|discriminate].
Qed.

Lemma stated_stratum_some (ls : list string) (y : string) :
  forallb well_formed_line ls = true ->
  last_opt (filter is_stratum_line ls) = Some y -> exists n, stratum_of y = Some n.
Proof.
  intros Hwf Hy. destruct (last_line_in _ _ _ Hy) as [Hin Hk].
  pose proof (proj1 (forallb_forall _ _) Hwf y Hin) as H.
  unfold well_formed_line in H. unfold is_stratum_line in Hk.
  unfold is_leap_line in H. rewrite (stratum_not_leap _ Hk) in H.
  unfold is_stratum_line in H. rewrite Hk in H.
  destruct (stratum_of y) as [n|]; [eauto|discriminate].
Qed.

Lemma stated_offset_some (ls : list string) (y : string) :
  forallb well_formed_line ls = true ->
  last_opt (filter is_offset_line ls) = Some y -> exists x, offset_of y = Some x.
Proof.
  intros Hwf Hy. destruct (last_line_in _ _ _ Hy) as [Hin Hk].
  pose proof (proj1 (forallb_forall _ _) Hwf y Hin) as H.
  unfold well_formed_line in H. unfold is_offset_line in Hk.
  unfold is_leap_line in H. rewrite (offset_not_leap _ Hk) in H.
  unfold is_stratum_line in H. rewrite (offset_not_stratum _ Hk) in H.
  unfold is_offset_line in H. rewrite Hk in H.
  destruct (offset_of y) as [x|]; [eauto|discriminate].
Qed.

(** What the parser does with one line of a well-formed report. *)
Lemma tracking_line_stated (acc : Tracking) (raw : string) :
  well_formed_line raw = true ->
  tracking_line acc raw
  = Ok (mkTracking
          (if is_leap_line raw then leap_of raw else leap_status acc)
          (if is_stratum_line raw then stratum_of raw else stratum acc)
          (if is_offset_line raw then offset_of raw else last_offset_sec acc)).
Proof.
  unfold well_formed_line, tracking_line, is_leap_line, is_stratum_line, is_offset_line,
    leap_of, stratum_of, offset_of, key_value, split1.
  destruct (startswith "Leap status" (strip raw)) eqn:Hl.
  - destruct (startswith "Stratum" (strip raw)) eqn:Hs;
      [rewrite (stratum_not_leap _ Hs) in Hl; discriminate|].
    destruct (startswith "Last offset" (strip raw)) eqn:Ho;
      [rewrite (offset_not_leap _ Ho) in Hl; discriminate|].
    destruct (cut ":" (strip raw)) as [[a v]|]; cbn [is_some]; [|discriminate].
    intros _. reflexivity.
  - destruct (startswith "Stratum" (strip raw)) eqn:Hs.
    + destruct (startswith "Last offset" (strip raw)) eqn:Ho;
        [rewrite (offset_not_stratum _ Ho) in Hs; discriminate|].
      destruct (cut ":" (strip raw)) as [[a v]|]; cbn [is_some]; [|discriminate].
      cbn [py_index nth_error res_bind].
      destruct (py_int (strip v)) as [n|]; cbn [is_some]; [|discriminate].
      intros _. reflexivity.
    + destruct (startswith "Last offset" (strip raw)) eqn:Ho.
      * destruct (cut ":" (strip raw)) as [[a v]|]; cbn [is_some]; [|discriminate].
        cbn [py_index nth_error res_bind].
        destruct (split_ws (strip v)) as [|tok rest]; cbn [is_some]; [discriminate|].
        cbn [py_index nth_error res_bind].
        destruct (py_float tok) as [x|]; cbn [is_some]; [|discriminate].
        intros _. reflexivity.
      * intros _. destruct acc; reflexivity.
Qed.

Lemma well_formed_line_states (raw : string) :
  well_formed_line raw = true ->
  (is_leap_line raw = true -> exists v, leap_of raw = Some v)
  /\ (is_stratum_line raw = true -> exists n, stratum_of raw = Some n)
  /\ (is_offset_line raw = true -> exists x, offset_of raw = Some x).
Proof.
  unfold well_formed_line, is_leap_line, is_stratum_line, is_offset_line.
  intros H. split; [|split]; intros Hk.
  - rewrite Hk in H. destruct (leap_of raw) as [v|]; [eauto|discriminate].
  - rewrite (stratum_not_leap _ Hk), Hk in H.
    destruct (stratum_of raw) as [n|]; [eauto|discriminate].
  - rewrite (offset_not_leap _ Hk), (offset_not_stratum _ Hk), Hk in H.
    destruct (offset_of raw) as [x|]; [eauto|discriminate].
Qed.

Lemma tracking_loop_stated (ls : list string) (acc : Tracking) :
  forallb well_formed_line ls = true ->
  for_each tracking_line ls acc
  = Ok (mkTracking
          (or_else (stated is_leap_line leap_of ls) (leap_status acc))
          (or_else (stated is_stratum_line stratum_of ls) (stratum acc))
          (or_else (stated is_offset_line offset_of ls) (last_offset_sec acc))).
Proof.
  revert acc. induction ls as [|raw ls IH]; intros acc Hwf.
  - destruct acc; reflexivity.
  - cbn [forallb] in Hwf. apply andb_true_iff in Hwf. destruct Hwf as [Hraw Hls].
    cbn [for_each]. rewrite (tracking_line_stated acc raw Hraw), (IH _ Hls).
    cbn [leap_status stratum last_offset_sec]. rewrite !stated_cons.
    pose proof (stated_leap_some ls) as Hleap.
    pose proof (stated_stratum_some ls) as Hstr.
    pose proof (stated_offset_some ls) as Hoff.
    destruct (well_formed_line_states raw Hraw) as (Wl & Ws & Wo).
    unfold stated.
    f_equal; f_equal.
    + destruct (last_opt (filter is_leap_line ls)) as [y|].
      * destruct (Hleap y Hls eq_refl) as [v ->]. reflexivity.
      * cbn [or_else]. destruct (is_leap_line raw); [|reflexivity].
        destruct (Wl eq_refl) as [v ->]. reflexivity.
    + destruct (last_opt (filter is_stratum_line ls)) as [y|].
      * destruct (Hstr y Hls eq_refl) as [n ->]. reflexivity.
      * cbn [or_else]. destruct (is_stratum_line raw); [|reflexivity].
        destruct (Ws eq_refl) as [n ->]. reflexivity.
    + destruct (last_opt (filter is_offset_line ls)) as [y|].
      * destruct (Hoff y Hls eq_refl) as [x ->]. reflexivity.
      * cbn [or_else]. destruct (is_offset_line raw); [|reflexivity].
        destruct (Wo eq_refl) as [x ->]. reflexivity.
Qed.

Lemma or_else_none (A : Type) (a : option A) : or_else a None = a.
Proof. destruct a; reflexivity. Qed.

Lemma stated_none (A : Type) (is_line : string -> bool) (value : string -> option A)
  (ls : list string) :
  (forall y, last_opt (filter is_line ls) = Some y -> exists v, value y = Some v) ->
  (stated is_line value ls = None <-> filter is_line ls = []).
Proof.
  intros Hsome. unfold stated.
  destruct (filter is_line ls) as [|a l] eqn:E.
  - cbn [last_opt]. split; reflexivity.
  - destruct (last_opt (a :: l)) as [y|] eqn:Ey.
    + destruct (Hsome y eq_refl) as [v ->]. split; discriminate.
    + rewrite last_opt_cons in Ey. destruct (last_opt l); discriminate.
Qed.

(** C9.  For every well-formed tracking report (each line that starts with
    one of the three keys states a value for its field): the parser
    returns; each field it returns is the value stated by the last line
    that starts with the key of the field, and it is null exactly when no
    line starts with that key; and when the offset prints as one token
    that reads back, writing the recovered fields as report lines and
    parsing them again gives the same sample. *)
Theorem tracking_fields_recovered (text : string) :
  well_formed text = true ->
  exists r : Tracking,
    parse_tracking text = Ok r
    /\ leap_status r = stated is_leap_line leap_of (splitlines text)
    /\ stratum r = stated is_stratum_line stratum_of (splitlines text)
    /\ last_offset_sec r = stated is_offset_line offset_of (splitlines text)
    /\ (leap_status r = None <-> filter is_leap_line (splitlines text) = [])
    /\ (stratum r = None <-> filter is_stratum_line (splitlines text) = [])
    /\ (last_offset_sec r = None <-> filter is_offset_line (splitlines text) = [])
    /\ (offset_reads_back (last_offset_sec r) ->
        parse_tracking (serialize_tracking r) = Ok r).
Proof.
  unfold well_formed. intros Hwf.
  pose proof (tracking_loop_stated (splitlines text) (mkTracking None None None) Hwf)
    as Hloop.
  cbn [leap_status stratum last_offset_sec] in Hloop. rewrite !or_else_none in Hloop.
  eexists. split; [exact Hloop|].
  cbn [leap_status stratum last_offset_sec].
  split; [reflexivity|]. split; [reflexivity|]. split; [reflexivity|].
  split; [apply stated_none; intros y; apply stated_leap_some; exact Hwf|].
  split; [apply stated_none; intros y; apply stated_stratum_some; exact Hwf|].
  split; [apply stated_none; intros y; apply stated_offset_some; exact Hwf|].
  intros Hoff. apply parse_serialized; [|exact Hoff].
  exact (parse_tracking_leap_ok text _ Hloop).
Qed.

End StatedFieldsRecovered.

(** The report of a healthy appliance is well formed; its three fields are
    recovered, and recovered again from the lines that state them. *)
Lemma tracking_fields_recovered_witness :
  well_formed (tracking_report "2" "+0.002") = true
  /\ exists r : Tracking,
       parse_tracking (tracking_report "2" "+0.002") = Ok r
       /\ leap_status r = Some "Normal"
       /\ stratum r = Some 2
       /\ last_offset_sec r = last_offset_sec sample_tracking
       /\ parse_tracking (serialize_tracking r) = Ok r.
Proof.
  assert (H : well_formed (tracking_report "2" "+0.002") = true)
    by (vm_compute; reflexivity).
  split; [exact H|].
  destruct (tracking_fields_recovered (tracking_report "2" "+0.002") H)
    as (r & Hr & Hl & Hs & Ho & _ & _ & _ & Hrt).
  assert (Hx : last_offset_sec r = last_offset_sec sample_tracking)
    by (rewrite Ho; vm_compute; reflexivity).
  exists r. split; [exact Hr|].
  split; [rewrite Hl; vm_compute; reflexivity|].
  split; [rewrite Hs; vm_compute; reflexivity|].
  split; [exact Hx|].
  apply Hrt. rewrite Hx.
  cbn [offset_reads_back last_offset_sec sample_tracking]. unfold reads_back.
  split; [vm_compute; reflexivity|].
  split; [vm_compute; discriminate | vm_compute; reflexivity].
Defined.

(** * Further properties *)

(** ** The tracking parser: errors and absent keys *)

Lemma cut_none_contains (sep : ascii) (s : string) :
  cut sep s = None <-> contains (String sep "") s = false.
Proof.
  induction s as [|c s IH].
  - split; reflexivity.
  - cbn [cut]. rewrite contains_unfold. cbn [startswith].
    rewrite andb_true_r, (Ascii.eqb_sym sep c).
    destruct (Ascii.eqb c sep); cbn [orb].
    + split; discriminate.
    + rewrite <- IH. destruct (cut sep s) as [[a b]|]; split; congruence.
Qed.

Section TrackingErrors.
Context {RT : PyRuntime}.

(** One line: it raises [IndexError] when it lacks its colon and returns
    otherwise. *)
Lemma tracking_line_cases (r : Tracking) (raw : string) :
  if lacks_colon raw then tracking_line r raw = Raise IndexError
  else exists r', tracking_line r raw = Ok r'.
Proof.
  unfold lacks_colon, tracking_line, split1.
  destruct (cut ":" (strip raw)) as [[a v]|] eqn:Ecut.
  - assert (Hc : contains ":" (strip raw) = true).
    { destruct (contains ":" (strip raw)) eqn:E; [reflexivity|].
      apply cut_none_contains in E. congruence. }
    rewrite Hc, andb_false_r. cbn [py_index nth_error res_bind].
    destruct (startswith "Leap status" (strip raw)); [eauto|].
    destruct (startswith "Stratum" (strip raw)).
    + destruct (py_int (strip v)); eauto.
    + destruct (startswith "Last offset" (strip raw)); [|eauto].
      destruct (py_index (split_ws (strip v)) 0) as [tok|e]; cbn [res_bind]; [|eauto].
      destruct (py_float tok); eauto.
  - apply cut_none_contains in Ecut. rewrite Ecut. cbn [negb].
    rewrite andb_true_r. cbn [py_index nth_error res_bind].
    destruct (startswith "Leap status" (strip raw)); [reflexivity|].
    destruct (startswith "Stratum" (strip raw)); cbn [orb]; [reflexivity|].
    destruct (startswith "Last offset" (strip raw)); eauto.
Qed.

Lemma tracking_loop_cases (ls : list string) (r : Tracking) :
  if existsb lacks_colon ls then for_each tracking_line ls r = Raise IndexError
  else exists r', for_each tracking_line ls r = Ok r'.
Proof.
  revert r. induction ls as [|raw ls IH]; intros r; [cbn; eauto|].
  cbn [existsb for_each]. pose proof (tracking_line_cases r raw) as H.
  destruct (lacks_colon raw); cbn [orb].
  - now rewrite H.
  - destruct H as [r' ->]. apply IH.
Qed.

(** What one line leaves alone. *)
Lemma tracking_line_keeps (r r' : Tracking) (raw : string) :
  tracking_line r raw = Ok r' ->
  (startswith "Leap status" (strip raw) = false -> leap_status r' = leap_status r)
  /\ (startswith "Leap status" (strip raw) = true -> leap_status r' <> None)
  /\ (startswith "Stratum" (strip raw) = false -> stratum r' = stratum r)
  /\ (startswith "Last offset" (strip raw) = false ->
      last_offset_sec r' = last_offset_sec r)
  /\ (leap_status r <> None -> leap_status r' <> None).
Proof.
  unfold tracking_line.
  destruct (startswith "Leap status" (strip raw)).
  - destruct (py_index (split1 ":" (strip raw)) 1) as [v|e]; cbn [res_bind];
      [|discriminate].
    intros H. injection H as <-. cbn [leap_status stratum last_offset_sec].
    repeat split; congruence.
  - destruct (startswith "Stratum" (strip raw)).
    + destruct (py_index (split1 ":" (strip raw)) 1) as [v|e]; cbn [res_bind];
        [|discriminate].
      destruct (py_int (strip v)); intros H; injection H as <-;
        cbn [leap_status stratum last_offset_sec]; repeat split; congruence.
    + destruct (startswith "Last offset" (strip raw)).
      * destruct (_ <- _ ;; _)%res as [[x|]|e]; intros H; injection H as <-;
          cbn [leap_status stratum last_offset_sec]; repeat split; congruence.
      * intros H. injection H as <-. repeat split; congruence.
Qed.

Lemma tracking_loop_keeps (ls : list string) (r r' : Tracking) :
  for_each tracking_line ls r = Ok r' ->
  (has_key "Leap status" ls = false -> leap_status r' = leap_status r)
  /\ (has_key "Leap status" ls = true -> leap_status r' <> None)
  /\ (has_key "Stratum" ls = false -> stratum r' = stratum r)
  /\ (has_key "Last offset" ls = false -> last_offset_sec r' = last_offset_sec r)
  /\ (leap_status r <> None -> leap_status r' <> None).
Proof.
  revert r. induction ls as [|raw ls IH]; intros r.
  - cbn [for_each]. intros H. injection H as <-. unfold has_key. cbn [existsb].
    repeat split; congruence.
  - cbn [for_each]. destruct (tracking_line r raw) as [r1|e] eqn:E; [|discriminate].
    intros H. destruct (IH r1 H) as (H1 & H2 & H3 & H4 & H5).
    destruct (tracking_line_keeps r r1 raw E) as (K1 & K2 & K3 & K4 & K5).
    unfold has_key in *. cbn [existsb].
    repeat split.
    + intros Hk. apply orb_false_iff in Hk. destruct Hk as [Ha Hb].
      rewrite (H1 Hb). exact (K1 Ha).
    + intros Hk. apply orb_true_iff in Hk. destruct Hk as [Ha|Hb].
      * apply H5. exact (K2 Ha).
      * exact (H2 Hb).
    + intros Hk. apply orb_false_iff in Hk. destruct Hk as [Ha Hb].
      rewrite (H3 Hb). exact (K3 Ha).
    + intros Hk. apply orb_false_iff in Hk. destruct Hk as [Ha Hb].
      rewrite (H4 Hb). exact (K4 Ha).
    + intros Hr. apply H5. exact (K5 Hr).
Qed.

(** The only exception of [parse_tracking] is [IndexError]; it is raised
    exactly when a line that starts with [Leap status] or [Stratum] (once
    stripped) holds no colon, and the parser returns a sample otherwise. *)
Theorem parse_tracking_raises_exactly (text : string) :
  (existsb lacks_colon (splitlines text) = true ->
   parse_tracking text = Raise IndexError)
  /\ (existsb lacks_colon (splitlines text) = false ->
      exists r : Tracking, parse_tracking text = Ok r)
  /\ (forall e : exn, parse_tracking text = Raise e -> e = IndexError).
Proof.
  unfold parse_tracking.
  pose proof (tracking_loop_cases (splitlines text) (mkTracking None None None)) as H.
  destruct (existsb lacks_colon (splitlines text)).
  - split; [intros _; exact H|]. split; [discriminate|].
    intros e He. rewrite H in He. congruence.
  - destruct H as [r' ->]. split; [discriminate|]. split; [eauto|discriminate].
Qed.

(** A field whose key starts no line is null; the leap status is null
    only then, and a leap status that is returned is stripped and holds no
    line boundary. *)
Theorem parse_tracking_absent_keys (text : string) (r : Tracking) :
  parse_tracking text = Ok r ->
  (has_key "Leap status" (splitlines text) = false <-> leap_status r = None)
  /\ (has_key "Stratum" (splitlines text) = false -> stratum r = None)
  /\ (has_key "Last offset" (splitlines text) = false -> last_offset_sec r = None)
  /\ (forall s : string,
         leap_status r = Some s -> strip s = s /\ one_line s = true).
Proof.
  intros Hparse. pose proof (parse_tracking_leap_ok text r Hparse) as Hleap.
  unfold parse_tracking in Hparse.
  destruct (tracking_loop_keeps _ _ _ Hparse) as (H1 & H2 & H3 & H4 & _).
  cbn [leap_status stratum last_offset_sec] in *.
  repeat split.
  - exact H1.
  - intros Hn. destruct (has_key "Leap status" (splitlines text)); [|reflexivity].
    exfalso. exact (H2 eq_refl Hn).
  - exact H3.
  - exact H4.
  - rewrite H in Hleap. apply Hleap.
  - rewrite H in Hleap. apply Hleap.
Qed.

End TrackingErrors.

Lemma parse_tracking_absent_keys_witness :
  parse_tracking (lines ["Stratum: 3"; "Leap status:"; "Last offset: n/a"])
  = Ok (mkTracking (Some "") (Some 3) None)
  /\ (has_key "Leap status" (splitlines (lines ["Stratum: 3"; "Leap status:";
                                                 "Last offset: n/a"])) = false
      <-> leap_status (mkTracking (Some "") (Some 3) None) = None).
Proof.
  assert (H : parse_tracking (lines ["Stratum: 3"; "Leap status:"; "Last offset: n/a"])
              = Ok (mkTracking (Some "") (Some 3) None)) by (vm_compute; reflexivity).
  split; [exact H|].
  exact (proj1 (parse_tracking_absent_keys _ _ H)).
Defined.

(** ** The sources parser: invariants of the summary *)

Lemma last_opt_in (A : Type) (l : list A) (x : A) : last_opt l = Some x -> In x l.
Proof.
  induction l as [|a l IH]; [discriminate|].
  rewrite last_opt_cons. destruct (last_opt l) as [y|] eqn:E.
  - intros H. right. apply IH. exact H.
  - intros H. injection H as <-. left. reflexivity.
Qed.

Lemma last_opt_none (A : Type) (l : list A) : last_opt l = None -> l = [].
Proof.
  destruct l as [|a l]; [reflexivity|].
  rewrite last_opt_cons. destruct (last_opt l); discriminate.
Qed.

Lemma existsb_filter_nil (A : Type) (f : A -> bool) (l : list A) :
  existsb f l = match filter f l with [] => false | _ :: _ => true end.
Proof.
  induction l as [|a l IH]; [reflexivity|].
  cbn [existsb filter]. destruct (f a); [reflexivity|exact IH].
Qed.

Lemma filter_length_le (A : Type) (f : A -> bool) (l : list A) :
  (List.length (filter f l) <= List.length l)%nat.
Proof.
  induction l as [|a l IH]; [apply le_n|].
  cbn [filter]. destruct (f a); cbn [List.length]; lia.
Qed.

Lemma filter_map_length (A B : Type) (f : B -> bool) (g : A -> B) (l : list A) :
  List.length (filter f (map g l)) = List.length (filter (fun x => f (g x)) l).
Proof.
  induction l as [|a l IH]; [reflexivity|].
  cbn [map filter]. destruct (f (g a)); cbn [List.length]; now rewrite IH.
Qed.

(** The summary of [parse_sources] is coherent: the count lies between zero
    and the number of lines, and it is exactly the number of lines that,
    once stripped, are neither empty nor a header, so that every such
    line, a rule of [=] signs included, is counted; the flag is set exactly
    when a line is returned; a selected source implies a count of at least
    one; the line returned is a stripped, non-empty line of the report that
    passes the selection test and is no header. *)
Theorem parse_sources_invariants (text : string) :
  0 <= total_sources (parse_sources text)
       <= Z.of_nat (List.length (splitlines text))
  /\ total_sources (parse_sources text)
     = Z.of_nat (List.length
                   (filter (fun raw => negb (is_skipped_row (strip raw)))
                           (splitlines text)))
  /\ (has_selected (parse_sources text) = true
      <-> selected_line (parse_sources text) <> None)
  /\ (has_selected (parse_sources text) = true
      -> 1 <= total_sources (parse_sources text))
  /\ (forall s : string,
         selected_line (parse_sources text) = Some s ->
         In s (map strip (splitlines text))
         /\ strip s = s /\ s <> ""
         /\ is_selected_row s = true /\ is_skipped_row s = false)
  /\ (forall raw : string,
         In raw (splitlines text) ->
         is_skipped_row (strip raw) = false ->
         1 <= total_sources (parse_sources text))
  /\ is_skipped_row "===============" = false.
Proof.
  unfold parse_sources. rewrite sources_loop. fold (data_rows text).
  cbn [has_selected selected_line total_sources orb Z.add].
  assert (Hlen : (List.length (data_rows text) <= List.length (splitlines text))%nat).
  { unfold data_rows.
    rewrite <- (length_map strip (splitlines text)). apply filter_length_le. }
  assert (Hrow : forall s, In s (filter is_selected_row (data_rows text)) ->
                 In s (map strip (splitlines text))
                 /\ strip s = s /\ s <> ""
                 /\ is_selected_row s = true /\ is_skipped_row s = false).
  { intros s Hin. apply filter_In in Hin. destruct Hin as [Hin Hsel].
    unfold data_rows in Hin. apply filter_In in Hin. destruct Hin as [Hin Hskip].
    apply negb_true_iff in Hskip.
    split; [exact Hin|]. split.
    - apply in_map_iff in Hin. destruct Hin as (raw & <- & _). apply strip_idem.
    - split; [|split; assumption].
      intros ->. vm_compute in Hskip. discriminate. }
  split; [lia|]. split; [|split; [|split; [|split; [|split]]]].
  - unfold data_rows. rewrite filter_map_length. reflexivity.
  - rewrite existsb_filter_nil.
    destruct (filter is_selected_row (data_rows text)) as [|a l] eqn:E.
    + cbn [last_opt]. split; [discriminate|congruence].
    + rewrite last_opt_cons. split; [|reflexivity].
      intros _. destruct (last_opt l); discriminate.
  - rewrite existsb_filter_nil.
    destruct (filter is_selected_row (data_rows text)) as [|a l] eqn:E;
      [discriminate|].
    intros _. destruct (data_rows text) as [|b m]; [discriminate|].
    cbn [List.length]. lia.
  - intros s Hs. apply Hrow. apply last_opt_in.
    destruct (last_opt (filter is_selected_row (data_rows text))); congruence.
  - intros raw Hin Hskip.
    assert (Hd : In (strip raw) (data_rows text)).
    { unfold data_rows. apply filter_In. split.
      - apply in_map. exact Hin.
      - now rewrite Hskip. }
    destruct (data_rows text) as [|b m]; [destruct Hd|].
    cbn [List.length]. lia.
  - reflexivity.
Qed.

(** ** Parsers and evaluation together: a degraded report is never healthy *)
Section DegradedReport.
Context {RT : PyRuntime}.
Variable cfg : Config.

Lemma problem_not_ok (tracking : Tracking) (sources : Sources) (gps_ok : bool)
  (gps_summary p : string) :
  In p (health_problems cfg tracking sources gps_ok) ->
  fst (health_verdict cfg tracking sources gps_ok gps_summary) = false.
Proof.
  unfold health_verdict.
  destruct (health_problems cfg tracking sources gps_ok); [intros []|reflexivity].
Qed.

Lemma in_entry (text : string) : In text (entry true text).
Proof. left. reflexivity. Qed.

(** When the tracking report parses but lacks the line of a field, or the
    sources report has no data row, the evaluation records the matching
    problem (with [None] as the value shown) and the verdict is not [ok],
    whatever the other values and the thresholds. *)
Theorem degraded_report_not_ok (text stext : string) (r : Tracking)
  (gps_ok : bool) (gps_summary : string) :
  parse_tracking text = Ok r ->
  (has_key "Leap status" (splitlines text) = false ->
   In "Leap status not Normal (got None)"
      (health_problems cfg r (parse_sources stext) gps_ok)
   /\ fst (health_verdict cfg r (parse_sources stext) gps_ok gps_summary) = false)
  /\ (has_key "Stratum" (splitlines text) = false ->
      In ("Stratum too high (got None, max "
          ++ str_of_Z (MAX_ACCEPTABLE_STRATUM cfg) ++ ")")
         (health_problems cfg r (parse_sources stext) gps_ok)
      /\ fst (health_verdict cfg r (parse_sources stext) gps_ok gps_summary) = false)
  /\ (has_key "Last offset" (splitlines text) = false ->
      In ("Time offset too large (abs Nones > "
          ++ float_repr (MAX_ABS_OFFSET_SEC cfg) ++ "s)")
         (health_problems cfg r (parse_sources stext) gps_ok)
      /\ fst (health_verdict cfg r (parse_sources stext) gps_ok gps_summary) = false)
  /\ (data_rows stext = [] ->
      In no_selected_text (health_problems cfg r (parse_sources stext) gps_ok)
      /\ In no_sources_text (health_problems cfg r (parse_sources stext) gps_ok)
      /\ fst (health_verdict cfg r (parse_sources stext) gps_ok gps_summary) = false).
Proof.
  intros Hparse. unfold parse_tracking in Hparse.
  destruct (tracking_loop_keeps _ _ _ Hparse) as (H1 & _ & H3 & H4 & _).
  cbn [leap_status stratum last_offset_sec] in *.
  assert (Hok : forall p, In p (health_problems cfg r (parse_sources stext) gps_ok) ->
                In p (health_problems cfg r (parse_sources stext) gps_ok)
                /\ fst (health_verdict cfg r (parse_sources stext) gps_ok gps_summary)
                   = false).
  { intros p Hp. split; [exact Hp|]. exact (problem_not_ok _ _ _ _ _ Hp). }
  pose proof (health_problems_entries cfg r (parse_sources stext) gps_ok) as Hp.
  split; [|split; [|split]].
  - intros Hk. apply Hok. rewrite Hp, (H1 Hk). cbn [leap_normal negb].
    apply in_or_app. left. apply in_entry.
  - intros Hk. apply Hok. rewrite Hp, (H3 Hk). cbn [stratum_within negb].
    apply in_or_app. right. apply in_or_app. left. apply in_entry.
  - intros Hk. apply Hok. rewrite Hp, (H4 Hk). cbn [offset_not_above negb].
    apply in_or_app. right. apply in_or_app. right. apply in_or_app. left.
    apply in_entry.
  - intros Hd.
    assert (Hs : has_selected (parse_sources stext) = false
                 /\ total_sources (parse_sources stext) = 0).
    { unfold parse_sources. rewrite sources_loop. fold (data_rows stext).
      rewrite Hd. split; reflexivity. }
    destruct Hs as [Hsel Htot].
    assert (Ha : In no_selected_text
                    (health_problems cfg r (parse_sources stext) gps_ok)).
    { rewrite Hp, Hsel. cbn [negb].
      do 3 (apply in_or_app; right). apply in_or_app. left. apply in_entry. }
    assert (Hb : In no_sources_text
                    (health_problems cfg r (parse_sources stext) gps_ok)).
    { rewrite Hp, Htot. cbn [Z.eqb].
      do 4 (apply in_or_app; right). apply in_or_app. left. apply in_entry. }
    split; [exact Ha|]. split; [exact Hb|]. exact (problem_not_ok _ _ _ _ _ Ha).
Qed.

End DegradedReport.

Lemma degraded_report_not_ok_witness :
  parse_tracking (lines ["Leap status     : Normal"; "Stratum         : 2"])
  = Ok (mkTracking (Some "Normal") (Some 2) None)
  /\ fst (health_verdict default_config (mkTracking (Some "Normal") (Some 2) None)
            (parse_sources "^* 192.168.1.1") true "GPS(TPV): mode=3D fix")
     = false.
Proof.
  assert (H : parse_tracking (lines ["Leap status     : Normal"; "Stratum         : 2"])
              = Ok (mkTracking (Some "Normal") (Some 2) None))
    by (vm_compute; reflexivity).
  split; [exact H|].
  exact (proj2 (proj1 (proj2 (proj2
           (degraded_report_not_ok default_config _ "^* 192.168.1.1" _ true
              "GPS(TPV): mode=3D fix" H))) eq_refl)).
Defined.

(** ** The Notifier and the fix-status command *)

Lemma startswith_app (p s : string) : startswith p (p ++ s) = true.
Proof.
  induction p as [|a p IH]; [reflexivity|].
  cbn [append startswith]. now rewrite Ascii.eqb_refl, IH.
Qed.

Lemma join_cons_prefix (sep a : string) (rest : list string) :
  exists tail : string, join sep (a :: rest) = a ++ tail.
Proof.
  unfold join. destruct rest as [|b rest]; cbn [concat].
  - exists "". symmetry. clear. induction a as [|c a IH]; [reflexivity|].
    cbn [append]. now rewrite IH.
  - eauto.
Qed.

Lemma append_empty (a b : string) : a ++ b = "" -> a = "".
Proof. destruct a; [reflexivity|discriminate]. Qed.

Lemma strip_empty : strip "" = "".
Proof. reflexivity. Qed.

Lemma head_empty (text : string) : _head text = "" <-> nonblank_lines text = [].
Proof.
  unfold _head. fold (nonblank_lines text). split.
  - destruct (nonblank_lines text) as [|a rest] eqn:E; [reflexivity|].
    change (firstn 3 (a :: rest)) with (a :: firstn 2 rest).
    destruct (join_cons_prefix " / " a (firstn 2 rest)) as [tail ->].
    intros H. apply append_empty in H. subst a.
    assert (Hin : In "" (nonblank_lines text)) by (rewrite E; left; reflexivity).
    unfold nonblank_lines in Hin. apply filter_In in Hin.
    destruct Hin as [_ Hin]. discriminate Hin.
  - intros ->. reflexivity.
Qed.

(** [_head] is empty exactly when the text has no line with something
    other than whitespace on it; it joins the first three such lines,
    unstripped, and never more. *)
Theorem head_nonblank (text : string) :
  (_head text = "" <-> nonblank_lines text = [])
  /\ (exists kept : list string,
         _head text = join " / " kept
         /\ (List.length kept <= 3)%nat
         /\ kept = firstn (List.length kept) (nonblank_lines text)
         /\ (List.length kept < 3 -> kept = nonblank_lines text)%nat).
Proof.
  split; [apply head_empty|].
  unfold _head. fold (nonblank_lines text).
  exists (firstn 3 (nonblank_lines text)).
  split; [reflexivity|]. split; [apply firstn_le_length|]. split.
  - rewrite length_firstn.
    destruct (Nat.le_gt_cases 3 (List.length (nonblank_lines text))) as [Hl|Hl].
    + rewrite Nat.min_l by exact Hl. reflexivity.
    + rewrite Nat.min_r by lia. rewrite firstn_all. apply firstn_all2. lia.
  - rewrite length_firstn. intros H.
    apply firstn_all2. lia.
Qed.

Section NotifierAndFix.
Context {RT : PyRuntime}.
Variable cfg : Config.
Variable world : World.


Lemma gps_summary_prefix (st : GpsState) :
  startswith "GPS(TPV): mode=" (gps_summary_of st) = true.
Proof.
  unfold gps_summary_of. cbn [app].
  match goal with
  | |- context [join ?sep (?a :: ?rest)] =>
      destruct (join_cons_prefix sep a rest) as [tail ->]
  end.
  cbn [append startswith Ascii.eqb Bool.eqb andb]. reflexivity.
Qed.

(** What [gps_status_of] returns once the tool is there. *)
Lemma gps_status_of_cases (cp : CompletedProcess) (t : trace) :
  tool_missing cp = false ->
  if forallb is_number (modes (splitlines (gps_output cp))) then
    exists st : GpsState,
      for_each gps_line (splitlines (gps_output cp)) gps_init = Ok st
      /\ last_mode st = match last_opt (modes (splitlines (gps_output cp))) with
                        | Some m => m
                        | None => JNull
                        end
      /\ has_fix st = match last_opt (modes (splitlines (gps_output cp))) with
                      | Some m => at_least_two m
                      | None => false
                      end
      /\ gps_status_of cp t
         = (Ok (if is_none (last_mode st)
                then (false, if String.eqb (_head (gps_output cp)) ""
                             then "no TPV data from gpspipe"
                             else _head (gps_output cp))
                else (has_fix st, gps_summary_of st)), t)
  else exists ty : string, gps_status_of cp t = (Raise (TypeError ty), t).
Proof.
  intros Hm. unfold gps_status_of. unfold tool_missing in Hm. rewrite Hm.
  fold (gps_output cp). unfold bind, lift, parse_gpspipe_output.
  pose proof (gps_loop (splitlines (gps_output cp)) gps_init) as H.
  destruct (forallb is_number (modes (splitlines (gps_output cp)))).
  - destruct H as (st & Hst & _ & Hmode & Hfix). exists st.
    split; [exact Hst|]. split; [exact Hmode|]. split; [exact Hfix|].
    rewrite Hst. cbn [res_bind]. unfold gps_result.
    destruct (is_none (last_mode st)); cbn [negb fix_summary fix_ok].
    + reflexivity.
    + pose proof (gps_summary_prefix st) as Hp.
      destruct (gps_summary_of st) as [|c s]; [discriminate|]. reflexivity.
  - destruct H as [ty ->]. exists ty. reflexivity.
Qed.

(** [run_gps_status] never raises [TimeoutExpired] (a timeout becomes the
    result "gpspipe timed out"): what it raises is the failure to start
    the command or the [TypeError] of a mode that is not a number.  The
    summary it returns is never empty, and a fix is reported only with a
    summary built from fix reports. *)
Theorem run_gps_status_result (t : trace) :
  match fst (run_gps_status cfg world t) with
  | Ok (ok, summary) =>
      summary <> ""
      /\ (ok = true -> startswith "GPS(TPV): mode=" summary = true)
      /\ (remote world t (gps_remote_cmd cfg) (CGPS_TIMEOUT_SEC cfg + 3) = TimedOut
          -> ok = false /\ summary = "gpspipe timed out")
  | Raise e =>
      is_timeout e = false
      /\ ((exists msg : string,
              e = OSError msg
              /\ remote world t (gps_remote_cmd cfg) (CGPS_TIMEOUT_SEC cfg + 3)
                 = Failed msg)
          \/ (exists ty : string, e = TypeError ty))
  end.
Proof.
  rewrite run_gps_status_eq.
  destruct (remote world t (gps_remote_cmd cfg) (CGPS_TIMEOUT_SEC cfg + 3))
    as [cp| |msg] eqn:Hr.
  - destruct (tool_missing cp) eqn:Hm.
    + unfold gps_status_of. unfold tool_missing in Hm. rewrite Hm.
      cbn. repeat split; discriminate.
    + pose proof (gps_status_of_cases cp
                    (EvSsh (gps_remote_cmd cfg) (CGPS_TIMEOUT_SEC cfg + 3) :: t) Hm) as H.
      destruct (forallb is_number (modes (splitlines (gps_output cp)))).
      * destruct H as (st & _ & _ & _ & ->). cbn [fst].
        destruct (is_none (last_mode st)).
        -- split; [|split; [discriminate|discriminate]].
           destruct (String.eqb_spec (_head (gps_output cp)) ""); [discriminate|assumption].
        -- pose proof (gps_summary_prefix st) as Hp.
           split; [|split; [intros _; exact Hp|discriminate]].
           intros E. rewrite E in Hp. discriminate.
      * destruct H as [ty ->]. cbn [fst]. split; [reflexivity|]. right. eauto.
  - cbn [fst]. split; [discriminate|]. split; [discriminate|]. intros _. split; reflexivity.
  - cbn [fst]. split; [reflexivity|]. left. eauto.
Qed.

(** When the command completes, the tool is there and no fix report of
    its output carries a mode, [run_gps_status] reports no fix, and the
    summary is the head of the raw output, or a fixed text when the output
    has no line with something other than whitespace on it. *)
Theorem run_gps_status_without_mode (cp : CompletedProcess) (t : trace) :
  remote world t (gps_remote_cmd cfg) (CGPS_TIMEOUT_SEC cfg + 3) = Completed cp ->
  tool_missing cp = false ->
  modes (splitlines (gps_output cp)) = [] ->
  run_gps_status cfg world t
  = (Ok (false, match nonblank_lines (gps_output cp) with
                | [] => "no TPV data from gpspipe"
                | _ :: _ => join " / " (firstn 3 (nonblank_lines (gps_output cp)))
                end),
     EvSsh (gps_remote_cmd cfg) (CGPS_TIMEOUT_SEC cfg + 3) :: t).
Proof.
  intros Hr Hm Hmodes. rewrite run_gps_status_eq, Hr.
  pose proof (gps_status_of_cases cp
                (EvSsh (gps_remote_cmd cfg) (CGPS_TIMEOUT_SEC cfg + 3) :: t) Hm) as H.
  rewrite Hmodes in H. cbn [forallb last_opt] in H.
  destruct H as (st & _ & Hmode & _ & ->). rewrite Hmode. cbn [is_none].
  destruct (head_empty (gps_output cp)) as [Ha Hb].
  destruct (nonblank_lines (gps_output cp)) as [|a rest] eqn:E.
  - rewrite (Hb eq_refl). reflexivity.
  - destruct (String.eqb_spec (_head (gps_output cp)) "") as [He|He].
    + discriminate (Ha He).
    + unfold _head. fold (nonblank_lines (gps_output cp)). rewrite E. reflexivity.
Qed.

End NotifierAndFix.

(** The command completes with the tool's banner only. *)
Definition banner_only : CompletedProcess :=
  mkCompleted 0 (lines [dq "{'class':'VERSION','release':'3.22'}"; "";
                        dq "{'class':'DEVICES','devices':[]}"; "a"; "b"]) "".

Lemma run_gps_status_without_mode_witness :
  run_gps_status default_config (scripted [Completed banner_only]) []
  = (Ok (false, dq "{'class':'VERSION','release':'3.22'} / {'class':'DEVICES','devices':[]} / a"),
     [EvSsh (gps_remote_cmd default_config) 11]).
Proof.
  exact (run_gps_status_without_mode default_config (scripted [Completed banner_only])
           banner_only [] eq_refl eq_refl eq_refl).
Defined.

(** ** A turn of the loop: one alert or one stored sample *)
Section TurnOutcome.
Context {RT : PyRuntime}.
Variable cfg : Config.
Variable world : World.







End TurnOutcome.


(** ** What a healthy verdict requires *)
Section HealthyVerdict.
Context {RT : PyRuntime}.
Variable cfg : Config.
Variable world : World.

Lemma verdict_ok_flags (tracking : Tracking) (sources : Sources) (gps_ok : bool)
  (gps_summary : string) :
  fst (health_verdict cfg tracking sources gps_ok gps_summary) = true ->
  leap_bad (leap_status tracking) = false
  /\ stratum_bad cfg (stratum tracking) = false
  /\ offset_bad cfg (last_offset_sec tracking) = false
  /\ has_selected sources = true
  /\ (total_sources sources =? 0) = false
  /\ gps_ok = true.
Proof.
  unfold health_verdict, health_problems, append_if.
  destruct (leap_bad (leap_status tracking)),
           (stratum_bad cfg (stratum tracking)),
           (offset_bad cfg (last_offset_sec tracking)),
           (has_selected sources),
           (total_sources sources =? 0),
           gps_ok; cbn [negb app fst]; intros H; try discriminate H;
    repeat split; reflexivity.
Qed.

Lemma parse_sources_total (text : string) : 0 <= total_sources (parse_sources text).
Proof.
  unfold parse_sources. rewrite sources_loop. cbn [total_sources]. lia.
Qed.

(** A verdict that is ok is only given when the tracking command and the
    sources command both completed with exit code 0, the tracking report
    parsed, and the fix-status step reported a fix; the verdict is then
    the evaluation of exactly these three results, with a leap status that
    contains [Normal], a stratum and an offset that are present and not
    above their maximum, a selected source and a count that is not zero. *)
Theorem healthy_verdict_requires (t : trace) :
  verdict_ok (fst (check_ntp_health cfg world t)) = true ->
  exists (tr sr : CompletedProcess) (tracking : Tracking) (gps_summary : string),
    remote world t "chronyc tracking" 10 = Completed tr
    /\ returncode tr = 0
    /\ parse_tracking (stdout tr) = Ok tracking
    /\ remote world (EvSsh "chronyc tracking" 10 :: t) "chronyc sources -n" 10
       = Completed sr
    /\ returncode sr = 0
    /\ fst (run_gps_status cfg world
              (EvSsh "chronyc sources -n" 10 :: EvSsh "chronyc tracking" 10 :: t))
       = Ok (true, gps_summary)
    /\ fst (check_ntp_health cfg world t)
       = Ok (health_verdict cfg tracking (parse_sources (stdout sr)) true gps_summary)
    /\ leap_bad (leap_status tracking) = false
    /\ stratum_bad cfg (stratum tracking) = false
    /\ offset_bad cfg (last_offset_sec tracking) = false
    /\ has_selected (parse_sources (stdout sr)) = true
    /\ 1 <= total_sources (parse_sources (stdout sr)).
Proof.
  unfold check_ntp_health, bind, lift, ret. rewrite run_ssh_eq.
  destruct (remote world t "chronyc tracking" 10) as [tr| |msg];
    cbn [fst verdict_ok]; try discriminate.
  destruct (Z.eqb_spec (returncode tr) 0) as [Hrc|Hrc]; cbn [negb fst verdict_ok];
    [|discriminate].
  destruct (parse_tracking (stdout tr)) as [tracking|e] eqn:Hp; cbn [fst verdict_ok];
    [|discriminate].
  rewrite run_ssh_eq.
  destruct (remote world (EvSsh "chronyc tracking" 10 :: t) "chronyc sources -n" 10)
    as [sr| |msg]; cbn [fst verdict_ok]; try discriminate.
  destruct (Z.eqb_spec (returncode sr) 0) as [Hrs|Hrs]; cbn [negb fst verdict_ok];
    [|discriminate].
  destruct (run_gps_status cfg world
              (EvSsh "chronyc sources -n" 10 :: EvSsh "chronyc tracking" 10 :: t))
    as [[[gps_ok gps_summary]|e] t3]; cbn [fst snd verdict_ok]; [|discriminate].
  intros H.
  assert (Hv : fst (health_verdict cfg tracking (parse_sources (stdout sr))
                      gps_ok gps_summary) = true).
  { destruct (health_verdict cfg tracking (parse_sources (stdout sr)) gps_ok gps_summary)
      as [[|] d]; [reflexivity|discriminate]. }
  destruct (verdict_ok_flags _ _ _ _ Hv) as (H1 & H2 & H3 & H4 & H5 & ->).
  exists tr, sr, tracking, gps_summary.
  repeat split; try assumption; try reflexivity.
  pose proof (parse_sources_total (stdout sr)) as Hlen.
  apply Z.eqb_neq in H5. lia.
Qed.

End HealthyVerdict.

Lemma healthy_verdict_requires_witness :
  verdict_ok (fst (check_ntp_health default_config (scripted healthy_pass) [])) = true
  /\ exists (tr sr : CompletedProcess) (tracking : Tracking) (gps_summary : string),
       remote (scripted healthy_pass) [] "chronyc tracking" 10 = Completed tr
       /\ returncode tr = 0
       /\ parse_tracking (stdout tr) = Ok tracking
       /\ returncode sr = 0
       /\ fst (check_ntp_health default_config (scripted healthy_pass) [])
          = Ok (health_verdict default_config tracking (parse_sources (stdout sr))
                  true gps_summary).
Proof.
  assert (H : verdict_ok (fst (check_ntp_health default_config (scripted healthy_pass) []))
              = true) by (vm_compute; reflexivity).
  split; [exact H|].
  destruct (healthy_verdict_requires default_config (scripted healthy_pass) [] H)
    as (tr & sr & tracking & gps_summary & H1 & H2 & H3 & _ & H5 & _ & H7 & _).
  exists tr, sr, tracking, gps_summary. repeat split; assumption.
Defined.

(** ** Fix reports: the remembered time and position *)
Section RememberedPosition.
Context {RT : PyRuntime}.

(** [obj.get(key) or last]: the value of the report when it is true, the
    remembered value otherwise. *)
Lemma gps_tpv_fields (st st' : GpsState) (ms : list (string * json)) :
  gps_tpv st (JObj ms) = Ok st' ->
  last_time st' = py_or (member "time" (JObj ms)) (last_time st)
  /\ last_lat st' = py_or (member "lat" (JObj ms)) (last_lat st)
  /\ last_lon st' = py_or (member "lon" (JObj ms)) (last_lon st).
Proof.
  unfold gps_tpv, member. cbn [json_get].
  destruct (assoc "mode" ms) as [mode|]; cbn [res_bind is_none].
  - destruct (is_none mode); cbn [res_bind].
    + destruct (assoc "time" ms), (assoc "lat" ms), (assoc "lon" ms);
        cbn [res_bind]; intros H; injection H as <-; repeat split; reflexivity.
    + destruct (ge_two mode) as [ok|e]; cbn [res_bind]; [|discriminate].
      destruct (assoc "time" ms), (assoc "lat" ms), (assoc "lon" ms);
        cbn [res_bind]; intros H; injection H as <-; repeat split; reflexivity.
  - destruct (assoc "time" ms), (assoc "lat" ms), (assoc "lon" ms);
      cbn [res_bind]; intros H; injection H as <-; repeat split; reflexivity.
Qed.

(** A fix report replaces the remembered latitude, longitude and time only
    by a value that counts as true: a coordinate of exactly zero (integer
    or float, of either sign), like a missing or null one, leaves the
    value remembered from earlier reports in place, and so does an empty
    time. *)
Theorem zero_coordinate_not_remembered (st st' : GpsState) (raw : string) (obj : json) :
  decode_line raw = Some obj ->
  is_tpv obj = true ->
  gps_line st raw = Ok st' ->
  last_lat st' = (if truthy (member "lat" obj) then member "lat" obj else last_lat st)
  /\ last_lon st' = (if truthy (member "lon" obj) then member "lon" obj else last_lon st)
  /\ last_time st' = (if truthy (member "time" obj) then member "time" obj
                      else last_time st)
  /\ truthy (JInt 0) = false
  /\ truthy (JFloat (S754_zero false)) = false
  /\ truthy (JFloat (S754_zero true)) = false
  /\ truthy (JStr "") = false
  /\ truthy JNull = false.
Proof.
  intros Hdec Htpv Hline.
  rewrite (gps_line_decoded st raw obj Hdec), Htpv in Hline.
  destruct (decode_line_object raw obj Hdec) as [ms ->].
  destruct (gps_tpv_fields st st' ms Hline) as (Ht & Hlat & Hlon).
  unfold py_or in *. repeat split; assumption || reflexivity.
Qed.

End RememberedPosition.

(** A report on the equator, after one at latitude 45.5: the latitude
    shown stays 45.5 while the longitude moves. *)
Lemma zero_coordinate_not_remembered_witness :
  gps_line north_state equator_report = Ok equator_state
  /\ last_lat equator_state = last_lat north_state
  /\ parse_gpspipe_output
       (lines [dq "{'class':'TPV','mode':3,'lat':45.5,'lon':-9.25}"; equator_report])
     = Ok (mkFixStatus true "GPS(TPV): mode=3D fix | pos=(45.5,-9.5)" 2 (JInt 3)).
Proof.
  assert (Hd : decode_line equator_report = Some equator_record)
    by (vm_compute; reflexivity).
  assert (Ht : is_tpv equator_record = true) by reflexivity.
  assert (Hl : gps_line north_state equator_report = Ok equator_state)
    by (vm_compute; reflexivity).
  split; [exact Hl|]. split; [|vm_compute; reflexivity].
  exact (proj1 (zero_coordinate_not_remembered north_state equator_state
                  equator_report equator_record Hd Ht Hl)).
Defined.

(** ** The dashboard: only allow-listed text reaches the aggregate query *)
Section DashboardFacts.
Import Dashboard.

Lemma dict_get_in (key v : string) (d : list (string * string)) :
  dict_get key d = Some v -> In v (map snd d).
Proof.
  induction d as [|[k w] d IH]; [discriminate|].
  cbn [dict_get map snd In]. destruct (String.eqb k key).
  - intros H. injection H as ->. left. reflexivity.
  - intros H. right. exact (IH H).
Qed.

Lemma api_offset_cases (db : Database) (args : list (string * string)) :
  match dict_get (args_get args "window" "24h") SAFE_WINDOWS,
        dict_get (args_get args "interval" "5min") SAFE_INTERVALS with
  | Some w, Some i =>
      api_offset db args
      = (match aggregate_rows db i w with
         | Rows rows => Returns (Points (map point_of rows), 200)
         | DriverError msg => Raises (DatabaseError msg)
         end, [AggregateQuery i w])
  | _, _ => api_offset db args = (Returns (BadParams, 400), [])
  end.
Proof.
  unfold api_offset, dict_mem, dict_index, aggregate_offset, q_aggregate.
  destruct (dict_get (args_get args "window" "24h") SAFE_WINDOWS) as [w|];
    destruct (dict_get (args_get args "interval" "5min") SAFE_INTERVALS) as [i|];
    cbn [negb orb]; try reflexivity.
  destruct (aggregate_rows db i w); reflexivity.
Qed.

(** [api_offset] answers 400 without touching the database unless the
    window and the interval (or their defaults [24h] and [5min]) are keys
    of the allow-lists; otherwise it sends exactly one aggregate query,
    whose two bound values are the texts the allow-lists give for these
    keys, and answers 200 with one point per row, in the order of the
    rows, or raises what the driver raised.  It never raises [KeyError],
    and whatever the request, every value bound to the query is one of the
    six texts of the allow-lists. *)
Theorem api_offset_allow_list (db : Database) (args : list (string * string)) :
  (dict_mem (args_get args "window" "24h") SAFE_WINDOWS
   && dict_mem (args_get args "interval" "5min") SAFE_INTERVALS = false ->
   api_offset db args = (Returns (BadParams, 400), []))
  /\ (dict_mem (args_get args "window" "24h") SAFE_WINDOWS
      && dict_mem (args_get args "interval" "5min") SAFE_INTERVALS = true ->
      exists window_human interval_human : string,
        dict_get (args_get args "window" "24h") SAFE_WINDOWS = Some window_human
        /\ dict_get (args_get args "interval" "5min") SAFE_INTERVALS
           = Some interval_human
        /\ snd (api_offset db args) = [AggregateQuery interval_human window_human]
        /\ fst (api_offset db args)
           = match aggregate_rows db interval_human window_human with
             | Rows rows => Returns (Points (map point_of rows), 200)
             | DriverError msg => Raises (DatabaseError msg)
             end)
  /\ (forall q : query,
         In q (snd (api_offset db args)) ->
         exists interval_human window_human : string,
           q = AggregateQuery interval_human window_human
           /\ In interval_human ["5 minutes"; "1 hour"; "1 day"]
           /\ In window_human ["24 hours"; "14 days"; "90 days"])
  /\ (forall key : string, fst (api_offset db args) <> Raises (KeyError key))
  /\ (dict_get "window" args = None -> dict_get "interval" args = None ->
      snd (api_offset db args) = [AggregateQuery "5 minutes" "24 hours"]).
Proof.
  pose proof (api_offset_cases db args) as Hcases.
  unfold dict_mem.
  pose proof (dict_get_in (args_get args "window" "24h")) as Hw.
  pose proof (dict_get_in (args_get args "interval" "5min")) as Hi.
  destruct (dict_get (args_get args "window" "24h") SAFE_WINDOWS) as [w|] eqn:Ew;
    destruct (dict_get (args_get args "interval" "5min") SAFE_INTERVALS) as [i|] eqn:Ei;
    cbn [andb]; rewrite Hcases; cbn [fst snd].
  - split; [discriminate|]. split; [intros _; exists w, i; repeat split|].
    split; [|split].
    + intros q [<-|[]]. exists i, w. split; [reflexivity|].
      split; [exact (Hi i SAFE_INTERVALS Ei) | exact (Hw w SAFE_WINDOWS Ew)].
    + intros key. destruct (aggregate_rows db i w); discriminate.
    + intros Hnw Hni. unfold args_get in Ew, Ei. rewrite Hnw in Ew. rewrite Hni in Ei.
      cbn in Ew, Ei. injection Ew as <-. injection Ei as <-. reflexivity.
  - split; [reflexivity|]. split; [discriminate|]. split; [intros q []|].
    split; [discriminate|].
    intros Hnw Hni. unfold args_get in Ei. rewrite Hni in Ei. discriminate Ei.
  - split; [reflexivity|]. split; [discriminate|]. split; [intros q []|].
    split; [discriminate|].
    intros Hnw Hni. unfold args_get in Ew. rewrite Hnw in Ew. discriminate Ew.
  - split; [reflexivity|]. split; [discriminate|]. split; [intros q []|].
    split; [discriminate|].
    intros Hnw Hni. unfold args_get in Ew. rewrite Hnw in Ew. discriminate Ew.
Qed.

End DashboardFacts.
